(** * Quiz web application: models, forms and views

    A shallow embedding of [quiz_app/models.py], [quiz_app/forms.py] and
    [quiz_app/views.py], and the properties of the quiz session flow that
    the specification states about them.

    Conventions of the embedding:
    - Python [int] is [Z]; Python [float] is the IEEE binary64 type [float]
      of the kernel; a [str] is the [string] of the bytes of its UTF-8
      encoding; [None] is the [None] of [option].
    - a [dict] is a [gmap]; the ordered dictionaries of a form ([fields],
      [cleaned_data], [errors]) are association lists in insertion order.
    - a view is a function from the request and the world (database,
      session, flashed messages) to the response and the new world.  An
      uncaught Python exception is the response [ServerError], which leaves
      the world as it was.
    - the clock and the random source are inputs of the request: the k-th
      call of [timezone.now()] while a request is served returns
      [Request.clock r k], and [order_by('?')] draws from [Request.rand r]. *)

From Stdlib Require Import ZArith String Ascii List Lia.
From Stdlib Require Import Floats Uint63 DecimalString DecimalZ.
From stdpp Require Import base option list gmap strings.

Set Warnings "-inexact-float".
Local Open Scope string_scope.
Local Open Scope Z_scope.

(** ** Python built-ins used by the application *)

Module Py.

(** [str(n)] for an [int]: the decimal numeral, with a leading minus sign
    for negative numbers. *)
Definition str (n : Z) : string := NilZero.string_of_int (Z.to_int n).

(** A [str] is kept as the bytes of its UTF-8 encoding.  The functions of
    Python that count or classify characters work on its code points. *)
Definition byte (c : ascii) : Z := Z.of_N (N_of_ascii c).

(** The bytes 10xxxxxx, which continue a character. *)
Definition continuation (b : Z) : bool := (128 <=? b) && (b <? 192).

(** The code points of a text; [None] when the bytes are not the encoding
    of a [str]. *)
Fixpoint codepoints (s : string) : option (list Z) :=
  match s with
  | EmptyString => Some []
  | String c0 s1 =>
      let b0 := byte c0 in
      if b0 <? 128 then cons b0 <$> codepoints s1
      else if b0 <? 192 then None
      else if b0 <? 224 then
        match s1 with
        | String c1 s2 =>
            let cp := (b0 - 192) * 64 + (byte c1 - 128) in
            if continuation (byte c1) && (128 <=? cp)
            then cons cp <$> codepoints s2 else None
        | EmptyString => None
        end
      else if b0 <? 240 then
        match s1 with
        | String c1 (String c2 s3) =>
            let cp :=
              ((b0 - 224) * 64 + (byte c1 - 128)) * 64 + (byte c2 - 128) in
            if continuation (byte c1) && continuation (byte c2)
               && (2048 <=? cp) && negb ((55296 <=? cp) && (cp <=? 57343))
            then cons cp <$> codepoints s3 else None
        | _ => None
        end
      else if b0 <? 248 then
        match s1 with
        | String c1 (String c2 (String c3 s4)) =>
            let cp :=
              (((b0 - 240) * 64 + (byte c1 - 128)) * 64 + (byte c2 - 128)) * 64
              + (byte c3 - 128) in
            if continuation (byte c1) && continuation (byte c2)
               && continuation (byte c3)
               && (65536 <=? cp) && (cp <=? 1114111)
            then cons cp <$> codepoints s4 else None
        | _ => None
        end
      else None
  end.

(** [c.isspace()], which is also the class [\s] of a pattern on [str]. *)
Definition isspace (c : Z) : bool :=
  bool_decide (c ∈ [9; 10; 11; 12; 13; 28; 29; 30; 31; 32; 133; 160; 5760;
                    8192; 8193; 8194; 8195; 8196; 8197; 8198; 8199; 8200;
                    8201; 8202; 8232; 8233; 8239; 8287; 12288]).

(** The blanks that the parser of [int] skips in ASCII text. *)
Definition ascii_isspace (c : Z) : bool :=
  bool_decide (c ∈ [9; 10; 11; 12; 13; 32]).

(** The code points of the digit zero of each script: the decimal digits
    of the Unicode database (version 14) are the ten code points from each
    of them. *)
Definition decimal_zeros : list Z :=
  [48; 1632; 1776; 1984; 2406; 2534; 2662; 2790; 2918; 3046; 3174; 3302;
   3430; 3558; 3664; 3792; 3872; 4160; 4240; 6112; 6160; 6470; 6608; 6784;
   6800; 6992; 7088; 7232; 7248; 42528; 43216; 43264; 43472; 43504; 43600;
   44016; 65296; 66720; 68912; 69734; 69872; 69942; 70096; 70384; 70736;
   70864; 71248; 71360; 71472; 71904; 72016; 72784; 73040; 73120; 92768;
   92864; 93008; 120782; 120792; 120802; 120812; 120822; 123200; 123632;
   125264; 130032].

(** The value of a decimal digit, of any script. *)
Definition todecimal (c : Z) : option Z :=
  (fun zero => c - zero)
    <$> head (filter (fun zero => zero <= c < zero + 10) decimal_zeros).

(** What [int] makes of a character before it parses: ASCII stays, a
    blank becomes a space and a digit its ASCII digit; another character
    is no part of a numeral. *)
Definition to_ascii (c : Z) : option Z :=
  if c <? 127 then Some c
  else if isspace c then Some 32
  else (fun d => 48 + d) <$> todecimal c.

(** The digit of value [d], as it is put in front of a numeral. *)
Definition digit (d : Z) : option (Decimal.uint -> Decimal.uint) :=
  match d with
  | 0 => Some Decimal.D0 | 1 => Some Decimal.D1 | 2 => Some Decimal.D2
  | 3 => Some Decimal.D3 | 4 => Some Decimal.D4 | 5 => Some Decimal.D5
  | 6 => Some Decimal.D6 | 7 => Some Decimal.D7 | 8 => Some Decimal.D8
  | 9 => Some Decimal.D9 | _ => None
  end.

(** The digits of a numeral, with single underscores between digits, and
    the blanks after it up to the end.  [after_digit] tells whether the
    character before was a digit. *)
Fixpoint digits (after_digit : bool) (l : list Z) : option Decimal.uint :=
  match l with
  | [] => if after_digit then Some Decimal.Nil else None
  | c :: l' =>
      match digit (c - 48) with
      | Some d => d <$> digits true l'
      | None =>
          if c =? 95 then (if after_digit then digits false l' else None)
          else if after_digit && forallb ascii_isspace l
               then Some Decimal.Nil else None
      end
  end.

(** The text after its leading blanks. *)
Fixpoint lstrip (l : list Z) : list Z :=
  match l with
  | c :: l' => if ascii_isspace c then lstrip l' else l
  | [] => []
  end.

(** [int(s)] on the code points of [s]: blanks, a sign, the digits,
    blanks. *)
Definition int_codepoints (cps : list Z) : option Z :=
  l ← mapM to_ascii cps;
  match lstrip l with
  | c :: r =>
      if c =? 43 then (fun u => Z.of_int (Decimal.Pos u)) <$> digits false r
      else if c =? 45
           then (fun u => Z.of_int (Decimal.Neg u)) <$> digits false r
           else (fun u => Z.of_int (Decimal.Pos u)) <$> digits false (c :: r)
  | [] => None
  end.

(** [int(s)] for a string; [None] stands for [ValueError].  The limit
    that the interpreter may put on the number of digits of a numeral
    ([sys.int_max_str_digits], 4300 where it is on) is not applied. *)
Definition int (s : string) : option Z :=
  cps ← codepoints s; int_codepoints cps.

(** [s.startswith(p)] *)
Definition startswith (s p : string) : bool := String.prefix p s.

(** [s.replace(old, new)] for a non-empty [old]: every occurrence of [old],
    scanning from the left, is replaced.  [skip] counts the characters of
    an occurrence that remain to be dropped. *)
Fixpoint replace_from (old new : string) (skip : nat) (s : string) : string :=
  match s with
  | EmptyString => EmptyString
  | String c s' =>
      match skip with
      | S k => replace_from old new k s'
      | O =>
          if String.prefix old s
          then new +:+ replace_from old new (Nat.pred (String.length old)) s'
          else String c (replace_from old new O s')
      end
  end.

Definition replace (s old new : string) : string := replace_from old new O s.

(** [s.lower()] on ASCII text. *)
Definition lower_ascii (c : ascii) : ascii :=
  let n := nat_of_ascii c in
  if (Nat.leb 65 n && Nat.leb n 90)%bool then ascii_of_nat (n + 32) else c.

Fixpoint lower (s : string) : string :=
  match s with
  | EmptyString => EmptyString
  | String c s' => String (lower_ascii c) (lower s')
  end.

(** [needle in haystack] for strings. *)
Fixpoint contains (haystack needle : string) : bool :=
  String.prefix needle haystack ||
  match haystack with
  | EmptyString => false
  | String _ h => contains h needle
  end.

(** Conversion of an [int] to a [float].  It is exact below 2^53 in
    magnitude, which covers every value of an [IntegerField] column. *)
Definition float_of_int (n : Z) : float :=
  if n <? 0 then PrimFloat.opp (PrimFloat.of_uint63 (Uint63.of_Z (- n)))
  else PrimFloat.of_uint63 (Uint63.of_Z n).

(** [a / b] on two [int]s: the correctly rounded quotient.  The
    application divides only by a positive number. *)
Definition truediv (a b : Z) : float :=
  PrimFloat.div (float_of_int a) (float_of_int b).

(** Rounding of the quotient [n / d] to the nearest integer, ties to the
    even one, for [0 <= n] and [0 < d]. *)
Definition div_half_even (n d : Z) : Z :=
  let q := n / d in
  let r := n mod d in
  match 2 * r ?= d with
  | Lt => q
  | Gt => q + 1
  | Eq => if Z.even q then q else q + 1
  end.

(** [round(x, 1)]: the exact value of [x] is rounded to one decimal place,
    ties to even, and the decimal obtained is read back as the nearest
    [float].  From 2^49 on every [float] is its own rounding. *)
Definition round1 (x : float) : float :=
  match Prim2SF x with
  | S754_finite s m e =>
      let tenths :=
        if 0 <=? e then 10 * Z.pos m * 2 ^ e
        else div_half_even (10 * Z.pos m) (2 ^ (- e)) in
      if tenths <? 2 ^ 53 then
        let r := PrimFloat.div (float_of_int tenths) 10%float in
        if s then PrimFloat.opp r else r
      else x
  | _ => x
  end.

(** [len(s)]: the number of characters.  A character is a byte that
    continues none, with the bytes that continue it. *)
Fixpoint len (s : string) : nat :=
  match s with
  | EmptyString => O
  | String c s' => if continuation (byte c) then len s' else S (len s')
  end.

(** [s[:n]] for [0 <= n]: the first [n] characters, or all of [s] when it
    has fewer. *)
Fixpoint slice_to (n : nat) (s : string) : string :=
  match s with
  | EmptyString => EmptyString
  | String c s' =>
      if continuation (byte c) then String c (slice_to n s')
      else match n with
           | O => EmptyString
           | S k => String c (slice_to k s')
           end
  end.

(** [sum(l)] on [int]s. *)
Definition sum (l : list Z) : Z := foldl Z.add 0 l.

End Py.

(** ** models.py *)

(** Instants are microseconds since the epoch and durations are
    microseconds; [isoformat] and [fromisoformat] are inverse to each other
    on the aware instants that [timezone.now()] returns, so the session
    holds the instant itself. *)
Abbreviation datetime := Z (only parsing).
Abbreviation timedelta := Z (only parsing).

(** The key of a Python [dict] that ends up in a [JSONField]: an [int]
    before the row is written, a [str] once it has been read back. *)
Inductive key := IntKey (n : Z) | StrKey (s : string).

#[global] Instance key_eq_dec : EqDecision key.
Proof. solve_decision. Defined.

#[global] Instance key_countable : Countable key.
Proof.
  refine (inj_countable'
            (fun k => match k with IntKey n => inl n | StrKey s => inr s end)
            (fun x => match x with inl n => IntKey n | inr s => StrKey s end) _).
  intros []; reflexivity.
Defined.

(** What [json.dumps] followed by [json.loads] does to a dictionary: every
    key comes back as a string, an [int] key as its decimal numeral. *)
Definition json_key (k : key) : string :=
  match k with IntKey n => Py.str n | StrKey s => s end.

Definition json_roundtrip {V} (d : gmap key V) : gmap key V :=
  map_fold (fun k v acc => <[StrKey (json_key k) := v]> acc) ∅ d.

Module QuizQuestion.

(** A row of the question table.  The two timestamps of the model are not
    read by any view and are left out; the table itself is kept in the
    order of the model's [Meta.ordering]. *)
Record t := mk {
  id : Z;
  question_text : string;
  choice_a : string;
  choice_b : string;
  choice_c : string;
  choice_d : string;
  correct_answer : string;
  difficulty_level : string;
  is_active : bool
}.

Definition get_choices (self : t) : list (string * string) :=
  [("A", choice_a self); ("B", choice_b self);
   ("C", choice_c self); ("D", choice_d self)].

(** [QuizQuestion.get_correct_choice_text]: the text of the choice that
    [correct_answer] names, and the empty text when it names none. *)
Definition get_correct_choice_text (self : t) : string :=
  let choices_map : gmap string string :=
    <["D" := choice_d self]> (<["C" := choice_c self]>
      (<["B" := choice_b self]> (<["A" := choice_a self]> ∅))) in
  default "" (choices_map !! correct_answer self).

End QuizQuestion.

(** One entry of [UserScore.quiz_questions]: the dictionary with the keys
    ['id'], ['question'], ['choices'] and ['correct_answer'] that
    [quiz_view] builds for each question. *)
Module QuestionData.

Record t := mk {
  id : Z;
  question : string;
  choices : gmap string string;
  correct_answer : string
}.

End QuestionData.

Module UserScore.

(** An instance of the model.  [id] is [None] until the row is inserted and
    [percentage] is [None] until something assigns it ([completed_at] is
    not read by the views under study and is left out). *)
Record t := mk {
  id : option Z;
  user : Z;
  score : Z;
  total_questions : Z;
  percentage : option float;
  time_taken : option timedelta;
  user_answers : gmap key string;
  quiz_questions : list QuestionData.t
}.

Definition set_id (i : option Z) (self : t) : t :=
  mk i (user self) (score self) (total_questions self) (percentage self)
     (time_taken self) (user_answers self) (quiz_questions self).

Definition set_percentage (p : option float) (self : t) : t :=
  mk (id self) (user self) (score self) (total_questions self) p
     (time_taken self) (user_answers self) (quiz_questions self).

Definition set_user_answers (a : gmap key string) (self : t) : t :=
  mk (id self) (user self) (score self) (total_questions self)
     (percentage self) (time_taken self) a (quiz_questions self).

(** The table: rows by primary key, and the next value of the key's
    sequence. *)
Record table := mk_table {
  rows : gmap Z t;
  next_id : Z
}.

(** What the database hands back for a row it stored: the JSON column
    [user_answers] has gone through the serializer. *)
Definition to_row (self : t) : t :=
  set_user_answers (json_roundtrip (user_answers self)) self.

(** [models.Model.save]: an instance without a primary key is inserted
    under the next key, one with a key replaces (or creates) that row.
    The instance is returned with its key set. *)
Definition Model_save (self : t) (tbl : table) : t * table :=
  match id self with
  | None =>
      let self' := set_id (Some (next_id tbl)) self in
      (self', mk_table (<[next_id tbl := to_row self']> (rows tbl))
                       (next_id tbl + 1))
  | Some i => (self, mk_table (<[i := to_row self]> (rows tbl)) (next_id tbl))
  end.

(** The percentage that [save] assigns. *)
Definition computed_percentage (score total_questions : Z) : float :=
  if 0 <? total_questions
  then PrimFloat.mul (Py.truediv score total_questions) 100%float
  else 0%float.

(** [UserScore.save] *)
Definition save (self : t) (tbl : table) : t * table :=
  let self :=
    if 0 <? total_questions self
    then set_percentage
           (Some (PrimFloat.mul (Py.truediv (score self) (total_questions self))
                                100%float)) self
    else set_percentage (Some 0%float) self in
  Model_save self tbl.

(** [UserScore.objects.create]: build the instance and save it.
    [percentage] is the caller's keyword argument, when there is one. *)
Definition objects_create (user score total_questions : Z)
    (percentage : option float) (time_taken : option timedelta)
    (user_answers : gmap key string) (quiz_questions : list QuestionData.t)
    (tbl : table) : t * table :=
  save (mk None user score total_questions percentage time_taken
           user_answers quiz_questions) tbl.

(** [UserScore.get_grade]; [None] is the [TypeError] of comparing [None]
    with a number. *)
Definition get_grade (self : t) : option string :=
  p ← percentage self;
  Some (if PrimFloat.leb 90 p then "A"
        else if PrimFloat.leb 80 p then "B"
        else if PrimFloat.leb 70 p then "C"
        else if PrimFloat.leb 60 p then "D"
        else "F").

(** [UserScore.is_passed] *)
Definition is_passed (self : t) : option bool :=
  p ← percentage self;
  Some (PrimFloat.leb 60 p).

End UserScore.

(** ** forms.py *)

(** The result of cleaning one field: the cleaned value, or the messages
    of the [ValidationError]. *)
Definition cleaned (A : Type) : Type := A + list string.

(** Assignment [d[k] = v] in an insertion-ordered dictionary. *)
Fixpoint dict_set {V} (k : string) (v : V) (d : list (string * V))
  : list (string * V) :=
  match d with
  | [] => [(k, v)]
  | (k', v') :: d' =>
      if decide (k = k') then (k, v) :: d' else (k', v') :: dict_set k v d'
  end.

(** [d.get(k)] in an insertion-ordered dictionary. *)
Fixpoint dict_get {V} (k : string) (d : list (string * V)) : option V :=
  match d with
  | [] => None
  | (k', v') :: d' => if decide (k = k') then Some v' else dict_get k d'
  end.

Module ChoiceField.

Record t := mk {
  label : string;
  choices : list (string * string);
  required : bool;
  error_required : string
}.

Definition valid_value (self : t) (value : string) : bool :=
  bool_decide (value ∈ (choices self).*1).

(** [ChoiceField.clean] on the value the widget read from the submitted
    data ([None] when the name is absent): a missing or empty value of a
    required field is the field's ['required'] error, a value that is no
    choice is the ['invalid_choice'] error. *)
Definition clean (self : t) (raw : option string) : cleaned string :=
  let value := default "" raw in
  if decide (value = "") then
    if required self then inr [error_required self] else inl value
  else if valid_value self value then inl value
  else inr ["Select a valid choice. " +:+ value +:+
            " is not one of the available choices."].

End ChoiceField.

Module QuizForm.

(** The form: the submitted data, if it is bound, and its fields. *)
Record t := mk {
  data : option (gmap string string);
  fields : list (string * ChoiceField.t)
}.

Definition field_name (question : QuizQuestion.t) : string :=
  "question_" +:+ Py.str (QuizQuestion.id question).

Definition field_for (question : QuizQuestion.t) : ChoiceField.t :=
  ChoiceField.mk (QuizQuestion.question_text question)
    [("A", QuizQuestion.choice_a question);
     ("B", QuizQuestion.choice_b question);
     ("C", QuizQuestion.choice_c question);
     ("D", QuizQuestion.choice_d question)]
    true
    "Please select an answer for this question.".

(** [QuizForm.__init__]: one required radio field per question. *)
Definition init (data : option (gmap string string))
    (questions : list QuizQuestion.t) : t :=
  mk data
     (foldl (fun fields question =>
               dict_set (field_name question) (field_for question) fields)
            [] questions).

(** [Form.full_clean] on a bound form: the fields are cleaned in order;
    the value of a field goes to [cleaned_data], its errors to [errors]. *)
Fixpoint clean_fields (data : gmap string string)
    (fields : list (string * ChoiceField.t))
  : list (string * string) * list (string * list string) :=
  match fields with
  | [] => ([], [])
  | (name, field) :: rest =>
      let '(cleaned_data, errors) := clean_fields data rest in
      match ChoiceField.clean field (data !! name) with
      | inl value => ((name, value) :: cleaned_data, errors)
      | inr messages => (cleaned_data, (name, messages) :: errors)
      end
  end.

Definition cleaned_data (self : t) : list (string * string) :=
  match data self with
  | Some d => (clean_fields d (fields self)).1
  | None => []
  end.

Definition errors (self : t) : list (string * list string) :=
  match data self with
  | Some d => (clean_fields d (fields self)).2
  | None => []
  end.

(** [Form.is_valid]: bound and without errors. *)
Definition is_valid (self : t) : bool :=
  match data self with
  | Some _ => bool_decide (errors self = [])
  | None => false
  end.

(** [QuizForm.get_user_answers]; [None] is the [ValueError] of [int]. *)
Fixpoint answers_of (items : list (string * string)) (answers : gmap key string)
  : option (gmap key string) :=
  match items with
  | [] => Some answers
  | (field_name, value) :: rest =>
      if Py.startswith field_name "question_" then
        question_id ← Py.int (Py.replace field_name "question_" "");
        answers_of rest (<[IntKey question_id := value]> answers)
      else answers_of rest answers
  end.

Definition get_user_answers (self : t) : option (gmap key string) :=
  answers_of (cleaned_data self) ∅.

End QuizForm.

Module QuizSettingsForm.

Definition DIFFICULTY_CHOICES : list (string * string) :=
  [("ALL", "All Difficulties"); ("EASY", "Easy");
   ("MEDIUM", "Medium"); ("HARD", "Hard")].

Definition difficulty_field : ChoiceField.t :=
  ChoiceField.mk "Difficulty Level" DIFFICULTY_CHOICES true
                 "This field is required.".

(** The match of [IntegerField.re_decimal], the pattern [\.0*\s*$]: what
    follows the dot is zeros and then blanks, up to the end. *)
Fixpoint zeros_then_blanks (l : list Z) : bool :=
  match l with
  | [] => true
  | c :: l' => if c =? 48 then zeros_then_blanks l' else forallb Py.isspace l
  end.

(** [re_decimal.sub('', value)] on the code points of [value]: a dot
    with zeros and blanks after it, at the end, is cut off.  Only the last
    dot of a text can match, and the match runs to the end. *)
Fixpoint re_decimal_sub (l : list Z) : list Z :=
  match l with
  | [] => []
  | c :: l' =>
      if (c =? 46) && zeros_then_blanks l' then [] else c :: re_decimal_sub l'
  end.

(** [IntegerField.to_python] on a value that is not empty:
    [int(re_decimal.sub('', str(value)))]; [None] is the [ValueError]. *)
Definition IntegerField_to_python (value : string) : option Z :=
  cps ← Py.codepoints value; Py.int_codepoints (re_decimal_sub cps).

(** [IntegerField(min_value, max_value).clean]: required, a whole number,
    and within the two bounds; the error of the upper bound comes first. *)
Definition IntegerField_clean (min_value max_value : Z) (raw : option string)
  : cleaned Z :=
  let value := default "" raw in
  if decide (value = "") then inr ["This field is required."]
  else match IntegerField_to_python value with
       | None => inr ["Enter a whole number."]
       | Some n =>
           let too_big :=
             if max_value <? n
             then ["Ensure this value is less than or equal to " +:+
                   Py.str max_value +:+ "."]
             else [] in
           let too_small :=
             if n <? min_value
             then ["Ensure this value is greater than or equal to " +:+
                   Py.str min_value +:+ "."]
             else [] in
           match (too_big ++ too_small)%list with
           | [] => inl n
           | messages => inr messages
           end
       end.

(** [BooleanField(required=False)] behind a checkbox: an absent name is
    [False], the texts [true] and [false] in any case are themselves, and
    any other text is [True] unless it is empty. *)
Definition BooleanField_clean (raw : option string) : bool :=
  match raw with
  | None => false
  | Some value =>
      if decide (Py.lower value = "true") then true
      else if decide (Py.lower value = "false") then false
      else bool_decide (value ≠ "")
  end.

(** [QuizQuestion.objects.filter(is_active=True).count()] *)
Definition total_available (questions : list QuizQuestion.t) : Z :=
  Z.of_nat (length (filter (fun q => QuizQuestion.is_active q = true) questions)).

(** [QuizSettingsForm.clean_num_questions] *)
Definition clean_num_questions (num_questions : Z)
    (questions : list QuizQuestion.t) : cleaned Z :=
  if total_available questions <? num_questions
  then inr ["Only " +:+ Py.str (total_available questions) +:+
            " questions are available. Please choose a smaller number."]
  else inl num_questions.

(** The form after [full_clean]: the entries of [cleaned_data] that were
    set, and the errors by field in the order of the fields.  The method
    [clean_num_questions] runs only when the field itself was accepted. *)
Record t := mk {
  num_questions : option Z;
  difficulty : option string;
  random_order : option bool;
  errors : list (string * list string)
}.

Definition full_clean (data : gmap string string)
    (questions : list QuizQuestion.t) : t :=
  let num :=
    match IntegerField_clean 1 50 (data !! "num_questions") with
    | inl n => clean_num_questions n questions
    | inr messages => inr messages
    end in
  let diff := ChoiceField.clean difficulty_field (data !! "difficulty") in
  let rand := BooleanField_clean (data !! "random_order") in
  mk (match num with inl n => Some n | inr _ => None end)
     (match diff with inl d => Some d | inr _ => None end)
     (Some rand)
     ((match num with inl _ => [] | inr m => [("num_questions", m)] end) ++
      (match diff with inl _ => [] | inr m => [("difficulty", m)] end))%list.

Definition is_valid (self : t) : bool := bool_decide (errors self = []).

End QuizSettingsForm.

(** ** The world a view runs in *)

(** The dictionary stored under ['quiz_settings']. *)
Module QuizSettings.

Record t := mk {
  num_questions : Z;
  difficulty : string;
  random_order : bool
}.

End QuizSettings.

(** The three keys of [request.session] that the views use; [None] when
    the key is absent. *)
Module Session.

Record t := mk {
  quiz_settings : option QuizSettings.t;
  quiz_start_time : option datetime;
  quiz_result_id : option Z
}.

Definition empty : t := mk None None None.

Definition set_quiz_settings (v : option QuizSettings.t) (s : t) : t :=
  mk v (quiz_start_time s) (quiz_result_id s).

Definition set_quiz_start_time (v : option datetime) (s : t) : t :=
  mk (quiz_settings s) v (quiz_result_id s).

Definition set_quiz_result_id (v : option Z) (s : t) : t :=
  mk (quiz_settings s) (quiz_start_time s) v.

End Session.

Module World.

Record t := mk {
  questions : list QuizQuestion.t;
  userscores : UserScore.table;
  session : Session.t;
  messages : list string
}.

Definition set_questions (q : list QuizQuestion.t) (w : t) : t :=
  mk q (userscores w) (session w) (messages w).

Definition set_userscores (u : UserScore.table) (w : t) : t :=
  mk (questions w) u (session w) (messages w).

Definition set_session (s : Session.t) (w : t) : t :=
  mk (questions w) (userscores w) s (messages w).

(** [messages.error(request, text)] *)
Definition messages_error (text : string) (w : t) : t :=
  mk (questions w) (userscores w) (session w) (messages w ++ [text])%list.

End World.

Module Request.

Record t := mk {
  method : string;
  POST : gmap string string;
  user : option Z;
  clock : nat -> datetime;
  rand : list nat
}.

End Request.

(** One entry of [detailed_results] in the context of the results page. *)
Module DetailedResult.

Record t := mk {
  question : string;
  choices : gmap string string;
  user_answer : string;
  correct_answer : string;
  is_correct : bool;
  correct_text : string;
  user_text : string
}.

End DetailedResult.

(** The context a template is rendered with, one shape per page. *)
Inductive Context :=
  | SetupContext (form : option QuizSettingsForm.t) (total_questions : Z)
  | QuizContext (form : QuizForm.t) (questions : list QuizQuestion.t)
                (question_count : Z) (quiz_settings : QuizSettings.t)
  | ResultsContext (user_score : UserScore.t)
                   (detailed_results : list DetailedResult.t)
                   (percentage : float) (grade : string) (passed : bool).

Inductive HttpResponse :=
  | Redirect (to : string)
  | Render (template : string) (context : Context)
  | Http404
  | ServerError.

(** ** Query sets *)

Module QuerySet.

(** [order_by('?')]: a random order.  Each draw picks one of the rows that
    are left, by its position; a draw that is missing counts as 0. *)
Fixpoint shuffle {A} (n : nat) (rand : list nat) (l : list A) : list A :=
  match n with
  | O => []
  | S n' =>
      let i := (hd O rand mod length l)%nat in
      match l !! i with
      | Some x => x :: shuffle n' (tl rand) (delete i l)
      | None => []
      end
  end.

Definition order_by_random {A} (rand : list nat) (l : list A) : list A :=
  shuffle (length l) rand l.

(** [qs[:n]]; a negative bound is refused by Django ([None]). *)
Definition slice_to {A} (n : Z) (l : list A) : option (list A) :=
  if n <? 0 then None else Some (take (Z.to_nat n) l).

End QuerySet.

(** ** views.py *)

Module views.

Definition View := Request.t -> World.t -> HttpResponse * World.t.

(** [@login_required]: an anonymous request is sent to the login page and
    the view is not run. *)
Definition login_required (view : Z -> View) : View :=
  fun request w =>
    match Request.user request with
    | Some user => view user request w
    | None => (Redirect "login", w)
    end.

Definition active_questions (questions : list QuizQuestion.t)
  : list QuizQuestion.t :=
  filter (fun q => QuizQuestion.is_active q = true) questions.

(** [quiz_setup_view] *)
Definition quiz_setup_view : View :=
  login_required (fun user request w =>
    let total_questions :=
      Z.of_nat (length (active_questions (World.questions w))) in
    if decide (Request.method request = "POST") then
      let form :=
        QuizSettingsForm.full_clean (Request.POST request) (World.questions w) in
      if QuizSettingsForm.is_valid form then
        match QuizSettingsForm.num_questions form,
              QuizSettingsForm.difficulty form,
              QuizSettingsForm.random_order form with
        | Some n, Some d, Some r =>
            (Redirect "quiz",
             World.set_session
               (Session.set_quiz_settings (Some (QuizSettings.mk n d r))
                  (World.session w)) w)
        | _, _, _ => (ServerError, w)
        end
      else
        (Render "quiz_setup.html" (SetupContext (Some form) total_questions), w)
    else
      (Render "quiz_setup.html" (SetupContext None total_questions), w)).

(** The settings [quiz_view] falls back to. *)
Definition default_settings : QuizSettings.t := QuizSettings.mk 10 "ALL" true.

(** The questions of a request to [quiz_view]: the active ones, of the
    chosen difficulty unless it is ['ALL'], in random or stored order, cut
    to the requested number. *)
Definition select_questions (quiz_settings : QuizSettings.t) (rand : list nat)
    (questions : list QuizQuestion.t) : option (list QuizQuestion.t) :=
  let questions_query := active_questions questions in
  let questions_query :=
    if decide (QuizSettings.difficulty quiz_settings ≠ "ALL")
    then filter (fun q => QuizQuestion.difficulty_level q
                          = QuizSettings.difficulty quiz_settings)
                questions_query
    else questions_query in
  if QuizSettings.random_order quiz_settings
  then QuerySet.slice_to (QuizSettings.num_questions quiz_settings)
         (QuerySet.order_by_random rand questions_query)
  else QuerySet.slice_to (QuizSettings.num_questions quiz_settings)
         questions_query.

(** The scoring loop: one point per question whose submitted tag is its
    [correct_answer]. *)
Definition compute_score (user_answers : gmap key string)
    (questions : list QuizQuestion.t) : Z :=
  foldl (fun score question =>
           if decide (user_answers !! IntKey (QuizQuestion.id question)
                      = Some (QuizQuestion.correct_answer question))
           then score + 1 else score)
        0 questions.

(** The entry of [quiz_questions] built for one question. *)
Definition question_data (q : QuizQuestion.t) : QuestionData.t :=
  QuestionData.mk (QuizQuestion.id q) (QuizQuestion.question_text q)
    (list_to_map (QuizQuestion.get_choices q)) (QuizQuestion.correct_answer q).

(** [quiz_view] *)
Definition quiz_view : View :=
  login_required (fun user request w =>
    let quiz_settings :=
      default default_settings (Session.quiz_settings (World.session w)) in
    match select_questions quiz_settings (Request.rand request)
                           (World.questions w) with
    | None => (ServerError, w)
    | Some [] =>
        (Redirect "quiz_setup",
         World.messages_error
           "No questions available for the selected criteria." w)
    | Some questions =>
        if decide (Request.method request = "POST") then
          let form := QuizForm.init (Some (Request.POST request)) questions in
          if QuizForm.is_valid form then
            (* the start time, if the session has none yet *)
            let '(session, reads) :=
              match Session.quiz_start_time (World.session w) with
              | None =>
                  (Session.set_quiz_start_time
                     (Some (Request.clock request 0%nat)) (World.session w),
                   1%nat)
              | Some _ => (World.session w, 0%nat)
              end in
            match QuizForm.get_user_answers form with
            | None => (ServerError, w)
            | Some user_answers =>
                let score := compute_score user_answers questions in
                let time_taken :=
                  match Session.quiz_start_time session with
                  | Some start_time =>
                      Some (Request.clock request reads - start_time)
                  | None => None
                  end in
                let '(user_score, userscores) :=
                  UserScore.objects_create user score
                    (Z.of_nat (length questions)) None time_taken user_answers
                    (map question_data questions) (World.userscores w) in
                let session :=
                  Session.set_quiz_result_id (UserScore.id user_score) session in
                let session := Session.set_quiz_start_time None session in
                let session := Session.set_quiz_settings None session in
                (Redirect "quiz_results",
                 World.set_session session
                   (World.set_userscores userscores w))
            end
          else
            (Render "quiz.html"
               (QuizContext form questions (Z.of_nat (length questions))
                            quiz_settings), w)
        else
          let session :=
            Session.set_quiz_start_time (Some (Request.clock request 0%nat))
                                        (World.session w) in
          (Render "quiz.html"
             (QuizContext (QuizForm.init None questions) questions
                          (Z.of_nat (length questions)) quiz_settings),
           World.set_session session w)
    end).

(** [get_object_or_404(UserScore, id=result_id, user=request.user)] *)
Definition get_userscore (result_id user : Z) (tbl : UserScore.table)
  : option UserScore.t :=
  row ← UserScore.rows tbl !! result_id;
  if decide (UserScore.user row = user) then Some row else None.

(** The per-question entry of the results page. *)
Definition detailed_result (user_score : UserScore.t)
    (question_data : QuestionData.t) : DetailedResult.t :=
  let question_id := QuestionData.id question_data in
  let user_answer :=
    default "Not answered"
      (UserScore.user_answers user_score !! StrKey (Py.str question_id)) in
  let correct_answer := QuestionData.correct_answer question_data in
  DetailedResult.mk
    (QuestionData.question question_data)
    (QuestionData.choices question_data)
    user_answer
    correct_answer
    (bool_decide (user_answer = correct_answer))
    (default "Unknown" (QuestionData.choices question_data !! correct_answer))
    (default "Not answered" (QuestionData.choices question_data !! user_answer)).

(** [quiz_results_view] *)
Definition quiz_results_view : View :=
  login_required (fun user request w =>
    match Session.quiz_result_id (World.session w) with
    | None | Some 0 =>
        (Redirect "home",
         World.messages_error
           "No quiz results found. Please take a quiz first." w)
    | Some result_id =>
        match get_userscore result_id user (World.userscores w) with
        | None => (Http404, w)
        | Some user_score =>
            let detailed_results :=
              map (detailed_result user_score)
                  (UserScore.quiz_questions user_score) in
            match UserScore.percentage user_score,
                  UserScore.get_grade user_score,
                  UserScore.is_passed user_score with
            | Some percentage, Some grade, Some passed =>
                (Render "results.html"
                   (ResultsContext user_score detailed_results
                                   (Py.round1 percentage) grade passed),
                 World.set_session
                   (Session.set_quiz_result_id None (World.session w)) w)
            | _, _, _ => (ServerError, w)
            end
        end
    end).

End views.

(** ** admin.py: what an administrator can do to the questions *)

Module QuizQuestionAdmin.

Definition set_is_active (b : bool) (q : QuizQuestion.t) : QuizQuestion.t :=
  QuizQuestion.mk (QuizQuestion.id q) (QuizQuestion.question_text q)
    (QuizQuestion.choice_a q) (QuizQuestion.choice_b q)
    (QuizQuestion.choice_c q) (QuizQuestion.choice_d q)
    (QuizQuestion.correct_answer q) (QuizQuestion.difficulty_level q) b.

(** [queryset.update(is_active=b)] on the rows selected by primary key. *)
Definition update_is_active (b : bool) (selected : list Z) (w : World.t)
  : World.t :=
  World.set_questions
    (map (fun q => if decide (QuizQuestion.id q ∈ selected)
                   then set_is_active b q else q)
         (World.questions w)) w.

(** [activate_questions] and [deactivate_questions] *)
Definition activate_questions := update_is_active true.
Definition deactivate_questions := update_is_active false.

(** The change page of the admin site, on which the text, the choices, the
    correct answer, the difficulty and the active flag can be edited: the
    row with the key of [q] takes the submitted values. *)
Definition change_question (q : QuizQuestion.t) (w : World.t) : World.t :=
  World.set_questions
    (map (fun q0 => if decide (QuizQuestion.id q0 = QuizQuestion.id q)
                    then q else q0)
         (World.questions w)) w.

(** The delete page of the admin site. *)
Definition delete_question (question_id : Z) (w : World.t) : World.t :=
  World.set_questions
    (filter (fun q => QuizQuestion.id q ≠ question_id) (World.questions w)) w.

End QuizQuestionAdmin.

(** ** admin.py: the actions and the columns of the admin site *)

Module admin.

(** [self.message_user(request, text)] *)
Definition message_user (text : string) (w : World.t) : World.t :=
  World.mk (World.questions w) (World.userscores w) (World.session w)
           (World.messages w ++ [text])%list.

(** The query set an action receives: the rows whose keys were ticked, in
    the order of the change list, which is the stored order. *)
Definition queryset (selected : list Z) (w : World.t) : list QuizQuestion.t :=
  filter (fun q => QuizQuestion.id q ∈ selected) (World.questions w).

(** [QuizQuestionAdmin.activate_questions]: [update] returns the number of
    rows it matched. *)
Definition activate_questions (selected : list Z) (w : World.t) : World.t :=
  let updated := Z.of_nat (length (queryset selected w)) in
  message_user (Py.str updated +:+ " questions were successfully activated.")
    (QuizQuestionAdmin.update_is_active true selected w).

(** [QuizQuestionAdmin.deactivate_questions] *)
Definition deactivate_questions (selected : list Z) (w : World.t) : World.t :=
  let updated := Z.of_nat (length (queryset selected w)) in
  message_user (Py.str updated +:+ " questions were successfully deactivated.")
    (QuizQuestionAdmin.update_is_active false selected w).

(** The row that [duplicate_questions] saves for one question: the key is
    the next one of the table's sequence, the text is marked and the copy
    is inactive. *)
Definition copy_of (pk : Z) (question : QuizQuestion.t) : QuizQuestion.t :=
  QuizQuestion.mk pk ("[COPY] " +:+ QuizQuestion.question_text question)
    (QuizQuestion.choice_a question) (QuizQuestion.choice_b question)
    (QuizQuestion.choice_c question) (QuizQuestion.choice_d question)
    (QuizQuestion.correct_answer question)
    (QuizQuestion.difficulty_level question) false.

(** The loop of [duplicate_questions] over the rows read before it starts.
    [table] is the question table and [next_id] the next key of its
    sequence; a row that is saved is the newest, so it comes first in the
    stored order. *)
Fixpoint duplicate_loop (rows : list QuizQuestion.t) (table : list QuizQuestion.t)
    (next_id duplicated : Z) : list QuizQuestion.t * Z * Z :=
  match rows with
  | [] => (table, next_id, duplicated)
  | question :: rest =>
      duplicate_loop rest (copy_of next_id question :: table)
                     (next_id + 1) (duplicated + 1)
  end.

(** [QuizQuestionAdmin.duplicate_questions]; the sequence of the question
    table is passed in and handed back. *)
Definition duplicate_questions (selected : list Z) (next_id : Z) (w : World.t)
  : World.t * Z :=
  let '(table, next_id', duplicated) :=
    duplicate_loop (queryset selected w) (World.questions w) next_id 0 in
  (message_user
     (Py.str duplicated +:+
      " questions were successfully duplicated (marked as inactive).")
     (World.set_questions table w),
   next_id').

(** [QuizQuestionAdmin.question_preview] *)
Definition question_preview (obj : QuizQuestion.t) : string :=
  let preview := Py.slice_to 100 (QuizQuestion.question_text obj) in
  if (100 <? Py.len (QuizQuestion.question_text obj))%nat
  then preview +:+ "..."
  else preview.

End admin.

(** ** urls.py *)

Module urls.

(** The routes, each with its name. *)
Definition urlpatterns : list (string * string) :=
  [("", "home");
   ("register/", "register");
   ("login/", "login");
   ("logout/", "logout");
   ("quiz/setup/", "quiz_setup");
   ("quiz/", "quiz");
   ("quiz/results/", "quiz_results");
   ("profile/history/", "user_history");
   ("leaderboard/", "leaderboard");
   ("about/", "about");
   ("password_reset/", "password_reset");
   ("password_reset/done/", "password_reset_done");
   ("reset/<uidb64>/<token>/", "password_reset_confirm");
   ("reset/done/", "password_reset_complete");
   ("password_change/", "password_change");
   ("password_change/done/", "password_change_done")].

(** What [redirect(name)] resolves the name to, without arguments: the
    route of that name, unless the route has parameters to fill in;
    [None] is [NoReverseMatch]. *)
Definition reverse (name : string) : option string :=
  match list_find (fun route_name => route_name.2 = name) urlpatterns with
  | Some (_, (route, _)) => if Py.contains route "<" then None else Some route
  | None => None
  end.

End urls.

(** ** views.py: the history page *)

(** The context of the history page. *)
Module HistoryContext.

Record t := mk {
  user_scores : list UserScore.t;
  total_attempts : Z;
  best_score : option UserScore.t;
  average_score : float;
  total_questions_answered : Z;
  total_correct_answers : Z;
  overall_accuracy : float
}.

End HistoryContext.

Module history.

Section Database.

(** What the database computes for the view: the rows in the order of
    [order_by('-completed_at')], the first row of
    [order_by('-percentage')], and the aggregate [Avg('percentage')]. *)
Variable order_by_completed_at : list UserScore.t -> list UserScore.t.
Variable first_by_percentage : list UserScore.t -> option UserScore.t.
Variable Avg_percentage : list UserScore.t -> option float.

(** [UserScore.objects.filter(user=user)] *)
Definition filter_user (user : Z) (tbl : UserScore.table) : list UserScore.t :=
  filter (fun row => UserScore.user row = user)
         (map_to_list (UserScore.rows tbl)).*2.

(** [user_history_view]; [None] is the redirect of [login_required]. *)
Definition user_history_view (request : Request.t) (w : World.t)
  : option HistoryContext.t :=
  user ← Request.user request;
  let user_scores :=
    order_by_completed_at (filter_user user (World.userscores w)) in
  let total_attempts := Z.of_nat (length user_scores) in
  let '(best_score, average_score, total_questions_answered,
        total_correct_answers) :=
    if 0 <? total_attempts
    then (first_by_percentage user_scores,
          Avg_percentage user_scores,
          Py.sum (map UserScore.total_questions user_scores),
          Py.sum (map UserScore.score user_scores))
    else (None, Some 0%float, 0, 0) in
  Some (HistoryContext.mk
          user_scores
          total_attempts
          best_score
          (match average_score with
           | Some average =>
               if PrimFloat.eqb average 0 then 0%float else Py.round1 average
           | None => 0%float
           end)
          total_questions_answered
          total_correct_answers
          (if 0 <? total_questions_answered
           then Py.round1
                  (PrimFloat.mul
                     (Py.truediv total_correct_answers total_questions_answered)
                     100)
           else 0%float)).

End Database.

End history.

(** ** views.py: the home page *)

(** The context of the home page; a key that is not set is [None]. *)
Module HomeContext.

Record t := mk {
  total_questions : Z;
  user_attempts : option Z;
  best_score : option (option UserScore.t);
  average_score : option (option float);
  recent_scores : option (list UserScore.t)
}.

End HomeContext.

Module home.

Section Database.

Variable order_by_completed_at : list UserScore.t -> list UserScore.t.
Variable first_by_percentage : list UserScore.t -> option UserScore.t.
Variable Avg_percentage : list UserScore.t -> option float.

(** [HomeView.get_context_data]; the page is open to everybody. *)
Definition get_context_data (request : Request.t) (w : World.t)
  : HomeContext.t :=
  let total_questions :=
    Z.of_nat (length (views.active_questions (World.questions w))) in
  match Request.user request with
  | Some user =>
      let user_scores := history.filter_user user (World.userscores w) in
      let user_attempts := Z.of_nat (length user_scores) in
      match user_scores with
      | _ :: _ =>
          HomeContext.mk total_questions (Some user_attempts)
            (Some (first_by_percentage user_scores))
            (Some (Avg_percentage user_scores))
            (Some (take 5 (order_by_completed_at user_scores)))
      | [] =>
          HomeContext.mk total_questions (Some user_attempts) None None None
      end
  | None => HomeContext.mk total_questions None None None None
  end.

End Database.

End home.

(** ** Notions the statements are phrased with *)

(** The settings a request to [quiz_view] runs with, and its questions. *)
Definition settings_of (w : World.t) : QuizSettings.t :=
  default views.default_settings (Session.quiz_settings (World.session w)).

Definition questions_of (request : Request.t) (w : World.t)
  : option (list QuizQuestion.t) :=
  views.select_questions (settings_of w) (Request.rand request)
                         (World.questions w).

(** The form a submission is validated with. *)
Definition form_of (request : Request.t) (questions : list QuizQuestion.t)
  : QuizForm.t :=
  QuizForm.init (Some (Request.POST request)) questions.

(** The time a valid submission is charged with: from the start time of
    the session, or, when the session has none, from the submission's own
    first reading of the clock. *)
Definition charged_time (request : Request.t) (w : World.t) : timedelta :=
  match Session.quiz_start_time (World.session w) with
  | Some start_time => Request.clock request 0%nat - start_time
  | None => Request.clock request 1%nat - Request.clock request 0%nat
  end.

(** The row a valid submission leaves in the table. *)
Definition scored_row (request : Request.t) (w : World.t) (user : Z)
    (questions : list QuizQuestion.t) (user_answers : gmap key string)
  : UserScore.t :=
  UserScore.mk
    (Some (UserScore.next_id (World.userscores w)))
    user
    (views.compute_score user_answers questions)
    (Z.of_nat (length questions))
    (Some (UserScore.computed_percentage
             (views.compute_score user_answers questions)
             (Z.of_nat (length questions))))
    (Some (charged_time request w))
    (json_roundtrip user_answers)
    (map views.question_data questions).

(** The number of questions a submitted settings form asks for. *)
Definition requested_count (data : gmap string string) : option Z :=
  text ← data !! "num_questions"; QuizSettingsForm.IntegerField_to_python text.

(** The interpreter may refuse to read a numeral of more than 4300 digits
    ([sys.int_max_str_digits]); a text of at most 4300 bytes has no
    more. *)
Definition numeral_is_short (data : gmap string string) : Prop :=
  forall text,
    data !! "num_questions" = Some text -> (String.length text <= 4300)%nat.

(** The ASCII codes of the digits of a numeral. *)
Fixpoint codes (d : Decimal.uint) : list Z :=
  match d with
  | Decimal.Nil => []
  | Decimal.D0 d => 48 :: codes d | Decimal.D1 d => 49 :: codes d
  | Decimal.D2 d => 50 :: codes d | Decimal.D3 d => 51 :: codes d
  | Decimal.D4 d => 52 :: codes d | Decimal.D5 d => 53 :: codes d
  | Decimal.D6 d => 54 :: codes d | Decimal.D7 d => 55 :: codes d
  | Decimal.D8 d => 56 :: codes d | Decimal.D9 d => 57 :: codes d
  end.

(** The bytes of a text all continue a character. *)
Fixpoint continuations (s : string) : bool :=
  match s with
  | EmptyString => true
  | String c s' => Py.continuation (Py.byte c) && continuations s'
  end.

(** The order of the grades, F lowest. *)
Definition grade_points (grade : option string) : Z :=
  match grade with
  | Some g =>
      if decide (g = "A") then 4 else if decide (g = "B") then 3
      else if decide (g = "C") then 2 else if decide (g = "D") then 1 else 0
  | None => 0
  end.

(** The invariant of the score table: the percentage of every row is the
    one computed from its score and its number of questions. *)
Definition percentage_is_computed (tbl : UserScore.table) : Prop :=
  forall i row,
    UserScore.rows tbl !! i = Some row ->
    UserScore.percentage row
    = Some (UserScore.computed_percentage (UserScore.score row)
                                          (UserScore.total_questions row)).

(** The questions that match the settings: active, and of the chosen
    difficulty unless it is ['ALL']. *)
Definition matches (quiz_settings : QuizSettings.t) (q : QuizQuestion.t) : Prop :=
  QuizQuestion.is_active q = true /\
  (QuizSettings.difficulty quiz_settings = "ALL" \/
   QuizQuestion.difficulty_level q = QuizSettings.difficulty quiz_settings).

#[global] Instance matches_dec quiz_settings q : Decision (matches quiz_settings q).
Proof. unfold matches. apply _. Defined.

(** The characters of a numeral: none is the letter q. *)
Fixpoint no_q (s : string) : bool :=
  match s with
  | EmptyString => true
  | String c s' => negb (Ascii.eqb c "q") && no_q s'
  end.

(** The three views of a quiz attempt. *)
Definition quiz_views : list views.View :=
  [views.quiz_setup_view; views.quiz_view; views.quiz_results_view].

(** A score within the number of questions, which is the number of the
    questions stored with the record and is not zero. *)
Definition score_is_bounded (tbl : UserScore.table) : Prop :=
  forall i row,
    UserScore.rows tbl !! i = Some row ->
    0 <= UserScore.score row <= UserScore.total_questions row /\
    0 < UserScore.total_questions row /\
    UserScore.total_questions row
    = Z.of_nat (length (UserScore.quiz_questions row)).

(** The keys in use were issued by the sequence of the table. *)
Definition keys_are_issued (tbl : UserScore.table) : Prop :=
  forall i row, UserScore.rows tbl !! i = Some row -> i < UserScore.next_id tbl.

(** What the views rely on not to raise: a percentage in every record, and
    no negative number of questions in the settings of the session. *)
Definition views_can_run (w : World.t) : Prop :=
  (forall i row, UserScore.rows (World.userscores w) !! i = Some row ->
                 is_Some (UserScore.percentage row)) /\
  (forall quiz_settings,
      Session.quiz_settings (World.session w) = Some quiz_settings ->
      0 <= QuizSettings.num_questions quiz_settings).

(** The four tags of a question's choices. *)
Definition tags : list string := ["A"; "B"; "C"; "D"].

(** ** Worked scenario *)

(** A question table of three active questions, a user, and the requests
    of one attempt. *)
Module Scenario.

Definition question (id : Z) (text correct : string) : QuizQuestion.t :=
  QuizQuestion.mk id text "first" "second" "third" "fourth" correct "EASY" true.

Definition q1 : QuizQuestion.t := question 3 "Which planet is the largest?" "A".
Definition q2 : QuizQuestion.t := question 2 "Which planet is the smallest?" "B".
Definition q3 : QuizQuestion.t := question 1 "Which planet is the hottest?" "C".

Definition user : Z := 7.

(** Nothing stored yet, nothing in the session. *)
Definition fresh : World.t :=
  World.mk [q1; q2; q3] (UserScore.mk_table ∅ 1) Session.empty [].

(** A clock that starts at [t] and advances by one at each reading. *)
Definition clock_from (t : Z) : nat -> datetime := fun k => t + Z.of_nat k.

Definition get (t : Z) : Request.t :=
  Request.mk "GET" ∅ (Some user) (clock_from t) [].

Definition post (data : list (string * string)) (t : Z) : Request.t :=
  Request.mk "POST" (list_to_map data) (Some user) (clock_from t) [].

(** Three questions in stored order. *)
Definition settings : list (string * string) :=
  [("num_questions", "3"); ("difficulty", "ALL")].

(** The session after the settings were accepted. *)
Definition configured : World.t := (views.quiz_setup_view (post settings 0) fresh).2.

(** The quiz page was loaded at time 100. *)
Definition presented : World.t := (views.quiz_view (get 100) configured).2.

(** The same settings with the questions in random order, and the world
    after they were accepted. *)
Definition settings_random : list (string * string) :=
  [("num_questions", "3"); ("difficulty", "ALL"); ("random_order", "on")].

Definition configured_random : World.t :=
  (views.quiz_setup_view (post settings_random 0) fresh).2.

(** Two correct answers and a wrong one. *)
Definition answers : list (string * string) :=
  [("question_3", "A"); ("question_2", "B"); ("question_1", "A")].

(** The last question is left without a selection. *)
Definition incomplete : list (string * string) :=
  [("question_3", "A"); ("question_2", "B")].

(** The questions a response presents. *)
Definition presented_questions (response : HttpResponse) : list QuizQuestion.t :=
  match response with
  | Render _ (QuizContext _ questions _ _) => questions
  | _ => []
  end.

(** What the results page says about passing. *)
Definition shown_passed (response : HttpResponse) : option bool :=
  match response with
  | Render _ (ResultsContext _ _ _ _ passed) => Some passed
  | _ => None
  end.

(** A table of [n] active questions. *)
Definition many (n : nat) : list QuizQuestion.t :=
  map (fun i => question (Z.of_nat i) "Which planet is this?" "A") (seq 1 n).

(** The answers were submitted at time 500 and scored. *)
Definition scored : World.t := (views.quiz_view (post answers 500) presented).2.

(** The session of somebody else points at the record of [user]. *)
Definition visitor : Z := 8.

Definition visiting : Request.t :=
  Request.mk "GET" ∅ (Some visitor) (clock_from 600) [].

(** The settings ask for hard questions, and there is none. *)
Definition configured_hard : World.t :=
  World.set_session
    (Session.set_quiz_settings (Some (QuizSettings.mk 3 "HARD" false))
                               Session.empty) fresh.

(** A question whose text has 60 accented letters, two bytes each. *)
Definition accented : QuizQuestion.t :=
  question 4
    "éééééééééééééééééééééééééééééééééééééééééééééééééééééééééééé"
    "A".

(** A table with one record of [user]: 2 of 3. *)
Definition record : UserScore.t :=
  UserScore.mk (Some 1) user 2 3 (Some (UserScore.computed_percentage 2 3))
               (Some 400) ∅ (map views.question_data [q1; q2; q3]).

Definition recorded : World.t :=
  World.mk [q1; q2; q3] (UserScore.mk_table (<[1 := record]> ∅) 2)
           Session.empty [].

End Scenario.

(** ** The specification's wording, where the code differs from it *)

(** C2 as the specification words it: the snapshot stored with the score
    is the one of the questions as they were presented, whatever happened
    to the question store in between. *)
Definition snapshot_is_of_presentation (w : World.t) (present submit : Request.t)
    (edit : World.t -> World.t) : Prop :=
  let presented := views.quiz_view present w in
  let scored := views.quiz_view submit (edit presented.2) in
  forall i record,
    Session.quiz_result_id (World.session scored.2) = Some i ->
    UserScore.rows (World.userscores scored.2) !! i = Some record ->
    UserScore.quiz_questions record
    = map views.question_data (Scenario.presented_questions presented.1).

(** C3 as the specification words it: the attempt is shown as not
    passed. *)
Definition shown_as_failed (response : HttpResponse) : Prop :=
  exists record detailed_results,
    response
    = Render "results.html"
        (ResultsContext record detailed_results 66.7%float "D" false) /\
    UserScore.score record = 2 /\
    UserScore.total_questions record = 3.

(** C5 as the specification words it: rendering the same unanswered quiz
    again leaves the recorded start time as it was. *)
Definition start_time_is_kept (w : World.t) (first again : Request.t) : Prop :=
  let presented := views.quiz_view first w in
  let rendered_again := views.quiz_view again presented.2 in
  Scenario.presented_questions rendered_again.1
  = Scenario.presented_questions presented.1 ->
  Session.quiz_start_time (World.session rendered_again.2)
  = Session.quiz_start_time (World.session presented.2).

(** C7 as the specification words it: whenever the settings are refused,
    some error names the number of active questions. *)
Definition refusal_names_available (w : World.t) (request : Request.t) : Prop :=
  let form :=
    QuizSettingsForm.full_clean (Request.POST request) (World.questions w) in
  let available :=
    Z.of_nat (length (views.active_questions (World.questions w))) in
  QuizSettingsForm.is_valid form = false ->
  exists name messages message,
    (name, messages) ∈ QuizSettingsForm.errors form /\
    message ∈ messages /\
    Py.contains message (Py.str available) = true.

(** C6 as the specification words it: a submission without a tag for one
    of the questions that were presented stores no score record, whatever
    happened to the question store in between. *)
Definition unanswered_presented_question_is_rejected (w : World.t)
    (present submit : Request.t) (edit : World.t -> World.t) : Prop :=
  let presented := views.quiz_view present w in
  let submitted := views.quiz_view submit (edit presented.2) in
  forall q,
    q ∈ Scenario.presented_questions presented.1 ->
    Request.POST submit !! QuizForm.field_name q = None ->
    World.userscores submitted.2 = World.userscores (edit presented.2).

(** C10 as the specification words it: without settings in the session
    the quiz goes on with the defaults and the user is not sent to the
    setup page. *)
Definition defaults_present_a_quiz (w : World.t) (request : Request.t) : Prop :=
  Session.quiz_settings (World.session w) = None ->
  is_Some (Request.user request) ->
  (views.quiz_view request w).1 <> ServerError /\
  (views.quiz_view request w).1 <> Redirect "quiz_setup".

(** C9 as the specification words it: the elapsed time is null exactly
    when the session held no start time for the attempt. *)
Definition null_without_start (w : World.t) (submit : Request.t) : Prop :=
  let scored := views.quiz_view submit w in
  forall i record,
    Session.quiz_result_id (World.session scored.2) = Some i ->
    UserScore.rows (World.userscores scored.2) !! i = Some record ->
    (UserScore.time_taken record = None
     <-> Session.quiz_start_time (World.session w) = None).

(** Arithmetic with the outcomes of the boolean comparisons at hand. *)
Ltac ltb_lia :=
  repeat match goal with
         | H : (_ <? _) = true |- _ => apply Z.ltb_lt in H
         | H : (_ <? _) = false |- _ => apply Z.ltb_ge in H
         end;
  lia.

(** * Properties *)

(** ** Numerals and field names *)

Section Numerals.

Lemma codepoints_uint (d : Decimal.uint) :
  Py.codepoints (NilEmpty.string_of_uint d) = Some (codes d).
Proof.
  induction d; [done|..];
    cbn [NilEmpty.string_of_uint codes];
    unfold Py.codepoints; fold Py.codepoints; by rewrite IHd.
Qed.

Lemma to_ascii_codes (d : Decimal.uint) :
  mapM Py.to_ascii (codes d) = Some (codes d).
Proof. induction d; [done|..]; cbn [codes mapM]; by rewrite IHd. Qed.

Lemma digits_codes (b : bool) (d : Decimal.uint) :
  Py.digits b (codes d)
  = match d with
    | Decimal.Nil => if b then Some Decimal.Nil else None
    | _ => Some d
    end.
Proof.
  revert b. induction d; intros b; [done|..];
    cbn [codes Py.digits]; rewrite IHd; by destruct d.
Qed.

Lemma int_codepoints_codes (d : Decimal.uint) :
  d <> Decimal.Nil ->
  Py.int_codepoints (codes d) = Some (Z.of_int (Decimal.Pos d)).
Proof.
  intros Hd. unfold Py.int_codepoints. rewrite to_ascii_codes.
  cbn [mbind option_bind].
  pose proof (digits_codes false d) as Hdigits.
  destruct d; [done|..]; cbn [codes] in *; cbn [Py.lstrip];
    change (Py.ascii_isspace _) with false; cbv iota;
    change (_ =? 43) with false; change (_ =? 45) with false; cbv iota;
    by rewrite Hdigits.
Qed.

Lemma int_codepoints_minus (d : Decimal.uint) :
  d <> Decimal.Nil ->
  Py.int_codepoints (45 :: codes d) = Some (Z.of_int (Decimal.Neg d)).
Proof.
  intros Hd. unfold Py.int_codepoints.
  assert (mapM Py.to_ascii (45 :: codes d) = Some (45 :: codes d)) as ->.
  { change (mapM Py.to_ascii (45 :: codes d))
      with (l ← mapM Py.to_ascii (codes d); Some (45 :: l)).
    by rewrite to_ascii_codes. }
  change (Some (45 :: codes d) ≫= _)
    with ((fun u => Z.of_int (Decimal.Neg u)) <$> Py.digits false (codes d)).
  rewrite digits_codes. by destruct d.
Qed.

Lemma codepoints_minus (s : string) :
  Py.codepoints (String "-" s) = cons 45 <$> Py.codepoints s.
Proof. reflexivity. Qed.

Lemma int_str (n : Z) : Py.int (Py.str n) = Some n.
Proof.
  rewrite <- (DecimalZ.of_to n) at 2. unfold Py.str, Py.int.
  destruct (Z.to_int n) as [d|d] eqn:Hn.
  - assert (d <> Decimal.Nil) as Hd.
    { destruct n; simpl in Hn; try discriminate; injection Hn as <-;
        try discriminate; apply DecimalPos.Unsigned.to_uint_nonnil. }
    assert (NilZero.string_of_int (Decimal.Pos d) = NilEmpty.string_of_uint d)
      as -> by by destruct d.
    rewrite codepoints_uint. cbn [mbind option_bind].
    by apply int_codepoints_codes.
  - assert (d <> Decimal.Nil) as Hd.
    { destruct n; simpl in Hn; try discriminate; injection Hn as <-;
        apply DecimalPos.Unsigned.to_uint_nonnil. }
    assert (NilZero.string_of_int (Decimal.Neg d)
            = String "-" (NilEmpty.string_of_uint d)) as -> by by destruct d.
    rewrite codepoints_minus, codepoints_uint.
    cbn [fmap option_fmap option_map mbind option_bind].
    by apply int_codepoints_minus.
Qed.

Lemma str_inj (n m : Z) : Py.str n = Py.str m -> n = m.
Proof.
  intros H. generalize (int_str n). rewrite H, int_str. congruence.
Qed.

Lemma no_q_uint (d : Decimal.uint) : no_q (NilEmpty.string_of_uint d) = true.
Proof. induction d; simpl; auto. Qed.

Lemma no_q_str (n : Z) : no_q (Py.str n) = true.
Proof.
  unfold Py.str.
  destruct (Z.to_int n) as [d|d]; simpl;
    destruct d; simpl; auto using no_q_uint.
Qed.

Lemma replace_from_no_q (new s : string) :
  no_q s = true -> Py.replace_from "question_" new O s = s.
Proof.
  induction s as [|c s IH]; simpl; [done|].
  intros [Hc Hs]%andb_prop.
  destruct (Ascii.eqb_spec c "q") as [->|Hne]; [done|].
  rewrite IH by done.
  destruct (Ascii.ascii_dec "q" c) as [E|_]; [congruence|].
  destruct c as [[] [] [] [] [] [] [] []]; try reflexivity; congruence.
Qed.

Lemma prefix_append (p t : string) : String.prefix p (p +:+ t) = true.
Proof.
  induction p as [|c p IH]; simpl.
  - by destruct t.
  - destruct (Ascii.ascii_dec c c); [done|congruence].
Qed.

Lemma replace_from_skip (old new s t : string) :
  Py.replace_from old new (String.length s) (s +:+ t)
  = Py.replace_from old new O t.
Proof. induction s as [|c s IH]; simpl; [|done]. by destruct t. Qed.

Lemma replace_field_name (n : Z) :
  Py.replace ("question_" +:+ Py.str n) "question_" "" = Py.str n.
Proof.
  unfold Py.replace.
  change ("question_" +:+ Py.str n)
    with (String "q" ("uestion_" +:+ Py.str n)).
  unfold Py.replace_from at 1; fold Py.replace_from.
  change (String "q" ("uestion_" +:+ Py.str n))
    with ("question_" +:+ Py.str n).
  rewrite prefix_append.
  change (Nat.pred (String.length "question_")) with (String.length "uestion_").
  rewrite replace_from_skip.
  apply replace_from_no_q, no_q_str.
Qed.

Lemma startswith_field_name (n : Z) :
  Py.startswith ("question_" +:+ Py.str n) "question_" = true.
Proof. apply prefix_append. Qed.

Lemma field_name_inj (q1 q2 : QuizQuestion.t) :
  QuizForm.field_name q1 = QuizForm.field_name q2 ->
  QuizQuestion.id q1 = QuizQuestion.id q2.
Proof.
  unfold QuizForm.field_name. intros [= H]. by apply str_inj.
Qed.

End Numerals.

(** ** Characters and bytes *)

Section Characters.
Implicit Types (s t : string) (cps : list Z) (n : nat).

Lemma codepoints_String c0 s1 :
  Py.codepoints (String c0 s1)
  = let b0 := Py.byte c0 in
    if b0 <? 128 then cons b0 <$> Py.codepoints s1
    else if b0 <? 192 then None
    else if b0 <? 224 then
      match s1 with
      | String c1 s2 =>
          let cp := (b0 - 192) * 64 + (Py.byte c1 - 128) in
          if Py.continuation (Py.byte c1) && (128 <=? cp)
          then cons cp <$> Py.codepoints s2 else None
      | EmptyString => None
      end
    else if b0 <? 240 then
      match s1 with
      | String c1 (String c2 s3) =>
          let cp :=
            ((b0 - 224) * 64 + (Py.byte c1 - 128)) * 64 + (Py.byte c2 - 128) in
          if Py.continuation (Py.byte c1) && Py.continuation (Py.byte c2)
             && (2048 <=? cp) && negb ((55296 <=? cp) && (cp <=? 57343))
          then cons cp <$> Py.codepoints s3 else None
      | _ => None
      end
    else if b0 <? 248 then
      match s1 with
      | String c1 (String c2 (String c3 s4)) =>
          let cp :=
            (((b0 - 240) * 64 + (Py.byte c1 - 128)) * 64 + (Py.byte c2 - 128))
            * 64 + (Py.byte c3 - 128) in
          if Py.continuation (Py.byte c1) && Py.continuation (Py.byte c2)
             && Py.continuation (Py.byte c3)
             && (65536 <=? cp) && (cp <=? 1114111)
          then cons cp <$> Py.codepoints s4 else None
      | _ => None
      end
    else None.
Proof. reflexivity. Qed.

(** The first character of a text that decodes: a byte that continues
    none, the bytes that continue it, and the rest of the text. *)
Lemma codepoints_head c0 s1 cps :
  Py.codepoints (String c0 s1) = Some cps ->
  exists cp conts s' rest,
    s1 = conts +:+ s' /\
    Py.continuation (Py.byte c0) = false /\
    continuations conts = true /\
    (forall t, Py.codepoints (String c0 (conts +:+ t))
               = cons cp <$> Py.codepoints t) /\
    Py.codepoints s' = Some rest /\
    cps = cp :: rest.
Proof.
  rewrite codepoints_String. cbv zeta.
  assert (Hlead : 192 <= Py.byte c0 \/ Py.byte c0 < 128 ->
                  Py.continuation (Py.byte c0) = false).
  { unfold Py.continuation. intros [H|H].
    - apply andb_false_iff. right. by apply Z.ltb_ge.
    - apply andb_false_iff. left. by apply Z.leb_gt. }
  destruct (Py.byte c0 <? 128) eqn:E1.
  { destruct (Py.codepoints s1) as [rest|] eqn:Hrest; [|done].
    intros [= <-]. exists (Py.byte c0), "", s1, rest.
    split; [done|]. split; [apply Hlead; right; by apply Z.ltb_lt|].
    split; [done|]. split; [|done].
    intros t. rewrite codepoints_String. cbv zeta. by rewrite E1. }
  destruct (Py.byte c0 <? 192) eqn:E2; [done|].
  assert (Hc0 : Py.continuation (Py.byte c0) = false)
    by (apply Hlead; left; by apply Z.ltb_ge).
  destruct (Py.byte c0 <? 224) eqn:E3.
  { destruct s1 as [|c1 s2]; [done|].
    destruct (Py.continuation (Py.byte c1) && _) eqn:Hc; [|done].
    destruct (Py.codepoints s2) as [rest|] eqn:Hrest; [|done].
    intros [= <-]. eexists _, (String c1 ""), s2, rest.
    split; [done|]. split; [done|].
    split.
    { apply andb_prop in Hc as [H1 _]. cbn [continuations]. by rewrite H1. }
    split; [|done].
    intros t. change (String c1 "" +:+ t) with (String c1 t).
    rewrite codepoints_String. cbv zeta. by rewrite E1, E2, E3, Hc. }
  destruct (Py.byte c0 <? 240) eqn:E4.
  { destruct s1 as [|c1 [|c2 s3]]; [done..|].
    destruct (Py.continuation (Py.byte c1) && _ && _ && _) eqn:Hc; [|done].
    destruct (Py.codepoints s3) as [rest|] eqn:Hrest; [|done].
    intros [= <-]. eexists _, (String c1 (String c2 "")), s3, rest.
    split; [done|]. split; [done|]. split.
    { apply andb_prop in Hc as [Hc _]. apply andb_prop in Hc as [Hc _].
      apply andb_prop in Hc as [H1 H2]. cbn [continuations]. by rewrite H1, H2. }
    split; [|done].
    intros t. change (String c1 (String c2 "") +:+ t)
                with (String c1 (String c2 t)).
    rewrite codepoints_String. cbv zeta. by rewrite E1, E2, E3, E4, Hc. }
  destruct (Py.byte c0 <? 248) eqn:E5; [|done].
  destruct s1 as [|c1 [|c2 [|c3 s4]]]; [done..|].
  destruct (Py.continuation (Py.byte c1) && _ && _ && _ && _) eqn:Hc; [|done].
  destruct (Py.codepoints s4) as [rest|] eqn:Hrest; [|done].
  intros [= <-]. eexists _, (String c1 (String c2 (String c3 ""))), s4, rest.
  split; [done|]. split; [done|]. split.
  { apply andb_prop in Hc as [Hc _]. apply andb_prop in Hc as [Hc _].
    apply andb_prop in Hc as [Hc H3]. apply andb_prop in Hc as [H1 H2].
    cbn [continuations]. by rewrite H1, H2, H3. }
  split; [|done].
  intros t. change (String c1 (String c2 (String c3 "")) +:+ t)
              with (String c1 (String c2 (String c3 t))).
  rewrite codepoints_String. cbv zeta. by rewrite E1, E2, E3, E4, E5, Hc.
Qed.

Lemma length_append (s t : string) :
  String.length (s +:+ t) = (String.length s + String.length t)%nat.
Proof. induction s as [|c s IH]; simpl; [done|by rewrite <- IH]. Qed.

Lemma append_assoc (s t u : string) : (s +:+ t) +:+ u = s +:+ (t +:+ u).
Proof.
  induction s as [|c s IH]; [done|].
  change (String c ((s +:+ t) +:+ u) = String c (s +:+ (t +:+ u))).
  by rewrite IH.
Qed.

Lemma len_continuations s t :
  continuations s = true -> Py.len (s +:+ t) = Py.len t.
Proof.
  induction s as [|c s IH]; [done|]. cbn [continuations].
  intros [Hc Hs]%andb_prop.
  change (String c s +:+ t) with (String c (s +:+ t)).
  cbn [Py.len]. rewrite Hc. by apply IH.
Qed.

Lemma slice_to_continuations n s t :
  continuations s = true -> Py.slice_to n (s +:+ t) = s +:+ Py.slice_to n t.
Proof.
  induction s as [|c s IH]; [done|]. cbn [continuations].
  intros [Hc Hs]%andb_prop.
  change (String c s +:+ ?u) with (String c (s +:+ u)).
  cbn [Py.slice_to]. rewrite Hc. by rewrite IH.
Qed.

(** Induction on a text character by character. *)
Lemma codepoints_ind (P : string -> list Z -> Prop) :
  P "" [] ->
  (forall c0 conts s cp rest,
      Py.continuation (Py.byte c0) = false ->
      continuations conts = true ->
      (forall t, Py.codepoints (String c0 (conts +:+ t))
                 = cons cp <$> Py.codepoints t) ->
      Py.codepoints s = Some rest ->
      P s rest ->
      P (String c0 (conts +:+ s)) (cp :: rest)) ->
  forall s cps, Py.codepoints s = Some cps -> P s cps.
Proof.
  intros Hnil Hcons s.
  remember (String.length s) as k eqn:Hk. revert s Hk.
  induction k as [k IH] using lt_wf_ind. intros s Hk cps Hs.
  destruct s as [|c0 s1]; [by injection Hs as <-|].
  destruct (codepoints_head _ _ _ Hs)
    as (cp & conts & s' & rest & -> & Hc0 & Hconts & Hall & Hrest & ->).
  apply Hcons; try done.
  apply (IH (String.length s')); [|done..].
  rewrite Hk. cbn [String.length]. rewrite length_append. lia.
Qed.

(** [len] counts the code points... *)
Lemma len_codepoints s cps :
  Py.codepoints s = Some cps -> Py.len s = length cps.
Proof.
  revert s cps. apply codepoints_ind; [done|].
  intros c0 conts s cp rest Hc0 Hconts _ _ IH.
  cbn [Py.len length]. by rewrite Hc0, len_continuations, IH.
Qed.

(** ... and a slice is the text of the first code points. *)
Lemma slice_to_codepoints n s cps :
  Py.codepoints s = Some cps ->
  Py.codepoints (Py.slice_to n s) = Some (take n cps).
Proof.
  intros Hs. revert s cps Hs n. apply (codepoints_ind (fun s cps =>
    forall n, Py.codepoints (Py.slice_to n s) = Some (take n cps))).
  { by intros []. }
  intros c0 conts s cp rest Hc0 Hconts Hhead _ IH n.
  cbn [Py.slice_to]. rewrite Hc0. destruct n as [|n]; [done|].
  rewrite slice_to_continuations by done.
  by rewrite Hhead, IH.
Qed.

Lemma codepoints_append s t cps cpt :
  Py.codepoints s = Some cps -> Py.codepoints t = Some cpt ->
  Py.codepoints (s +:+ t) = Some (cps ++ cpt)%list.
Proof.
  intros Hs Ht. revert s cps Hs. apply codepoints_ind; [done|].
  intros c0 conts s cp rest _ _ Hhead _ IH.
  change (String c0 (conts +:+ s) +:+ t) with (String c0 ((conts +:+ s) +:+ t)).
  rewrite append_assoc. by rewrite Hhead, IH.
Qed.

Lemma slice_to_all n s : (Py.len s <= n)%nat -> Py.slice_to n s = s.
Proof.
  revert n. induction s as [|c s IH]; intros n Hn; [done|].
  cbn [Py.len Py.slice_to] in *.
  destruct (Py.continuation (Py.byte c)).
  - by rewrite IH.
  - destruct n as [|n]; [lia|]. rewrite IH; [done|lia].
Qed.

Lemma slice_to_prefix n s : String.prefix (Py.slice_to n s) s = true.
Proof.
  revert n. induction s as [|c s IH]; intros n; [done|].
  cbn [Py.slice_to].
  destruct (Py.continuation (Py.byte c)); [|destruct n as [|n]; [done|]];
    simpl; rewrite IH; by destruct (ascii_dec c c).
Qed.

(** What [int] and the integer field read, on texts that are no plain
    numerals. *)
Lemma int_reads :
  Py.int " 7 " = Some 7 /\ Py.int "+5" = Some 5 /\ Py.int "1_0" = Some 10 /\
  Py.int "٣" = Some 3 /\ Py.int "１２" = Some 12 /\ Py.int "-0" = Some 0 /\
  Py.int "010" = Some 10 /\
  Py.int "" = None /\ Py.int " " = None /\ Py.int "1__0" = None /\
  Py.int "_1" = None /\ Py.int "1_" = None /\ Py.int "- 5" = None /\
  Py.int "+-5" = None /\ Py.int "5 5" = None /\ Py.int "²" = None /\
  Py.int "10.0" = None /\
  QuizSettingsForm.IntegerField_to_python "10.0" = Some 10 /\
  QuizSettingsForm.IntegerField_to_python "10." = Some 10 /\
  QuizSettingsForm.IntegerField_to_python "10.00 " = Some 10 /\
  QuizSettingsForm.IntegerField_to_python " 7 " = Some 7 /\
  QuizSettingsForm.IntegerField_to_python "1.0.0" = None /\
  QuizSettingsForm.IntegerField_to_python "10.5" = None /\
  QuizSettingsForm.IntegerField_to_python ".0" = None.
Proof. repeat split. Qed.

End Characters.

(** ** Ordered dictionaries *)

Section Dict.
Context {V : Type}.
Implicit Types (d : list (string * V)) (k : string) (v : V).

Lemma elem_of_dict_set k v d k' v' :
  (k', v') ∈ dict_set k v d -> (k', v') = (k, v) \/ (k', v') ∈ d.
Proof.
  induction d as [|[k0 v0] d IH]; simpl.
  - intros ->%list_elem_of_singleton. by left.
  - destruct (decide (k = k0)) as [->|Hne].
    + intros [->|H]%elem_of_cons; [by left|]. right. by apply elem_of_cons; right.
    + intros [->|H]%elem_of_cons.
      * right. apply elem_of_cons. by left.
      * destruct (IH H) as [->|H']; [by left|].
        right. apply elem_of_cons. by right.
Qed.

Lemma dict_set_key k v d : k ∈ (dict_set k v d).*1.
Proof.
  induction d as [|[k0 v0] d IH]; simpl.
  - apply elem_of_cons. by left.
  - destruct (decide (k = k0)) as [->|Hne]; simpl.
    + apply elem_of_cons. by left.
    + apply elem_of_cons. by right.
Qed.

Lemma dict_set_keys_mono k v d k' : k' ∈ d.*1 -> k' ∈ (dict_set k v d).*1.
Proof.
  induction d as [|[k0 v0] d IH]; simpl.
  - by intros ?%elem_of_nil.
  - destruct (decide (k = k0)) as [->|Hne]; simpl; [done|].
    intros [->|H]%elem_of_cons; apply elem_of_cons; [by left|right; auto].
Qed.

Lemma dict_set_fresh k v d : k ∉ d.*1 -> dict_set k v d = (d ++ [(k, v)])%list.
Proof.
  induction d as [|[k0 v0] d IH]; simpl; [done|].
  intros H. apply not_elem_of_cons in H as [Hne Hd].
  destruct (decide (k = k0)); [done|]. by rewrite IH.
Qed.

End Dict.

(** ** The quiz form *)

Section QuizFormFacts.
Implicit Types (questions : list QuizQuestion.t) (q : QuizQuestion.t).
Implicit Types (data : gmap string string) (fields : list (string * ChoiceField.t)).

Let add_field fields q :=
  dict_set (QuizForm.field_name q) (QuizForm.field_for q) fields.

(** Every field of the form is the field of one of its questions... *)
Lemma init_fields_sound odata questions name field :
  (name, field) ∈ QuizForm.fields (QuizForm.init odata questions) ->
  exists q, q ∈ questions /\ name = QuizForm.field_name q
            /\ field = QuizForm.field_for q.
Proof.
  unfold QuizForm.init; simpl. fold add_field.
  assert (G : forall acc,
    (name, field) ∈ foldl add_field acc questions ->
    (name, field) ∈ acc \/
    exists q, q ∈ questions /\ name = QuizForm.field_name q
              /\ field = QuizForm.field_for q).
  { induction questions as [|q0 qs IH]; simpl; intros acc H; [by left|].
    destruct (IH _ H) as [H'|(q & Hq & ? & ?)].
    - apply elem_of_dict_set in H' as [[= -> ->]|H']; [|by left].
      right. exists q0. split; [apply elem_of_cons; by left|done].
    - right. exists q. split; [apply elem_of_cons; by right|done]. }
  intros H. destruct (G _ H) as [?%elem_of_nil|?]; done.
Qed.

(** ... and every question has its field. *)
Lemma init_fields_complete odata questions q :
  q ∈ questions ->
  QuizForm.field_name q ∈ (QuizForm.fields (QuizForm.init odata questions)).*1.
Proof.
  unfold QuizForm.init; simpl. fold add_field.
  assert (G : forall acc name,
    name ∈ acc.*1 \/ (exists q, q ∈ questions /\ name = QuizForm.field_name q) ->
    name ∈ (foldl add_field acc questions).*1).
  { induction questions as [|q0 qs IH]; simpl; intros acc name H.
    - destruct H as [H|(q' & ?%elem_of_nil & _)]; done.
    - apply IH. destruct H as [H|(q' & [->|Hq]%elem_of_cons & ->)].
      + left. by apply dict_set_keys_mono.
      + left. apply dict_set_key.
      + right. by exists q'. }
  intros Hq. apply G. right. by exists q.
Qed.

(** With distinct primary keys the fields follow the questions one to one. *)
Lemma init_fields_NoDup odata questions :
  NoDup (QuizQuestion.id <$> questions) ->
  QuizForm.fields (QuizForm.init odata questions)
  = (fun q => (QuizForm.field_name q, QuizForm.field_for q)) <$> questions.
Proof.
  unfold QuizForm.init; simpl. fold add_field.
  set (f := fun q => (QuizForm.field_name q, QuizForm.field_for q)).
  assert (G : forall done_ todo,
    NoDup (QuizQuestion.id <$> (done_ ++ todo)%list) ->
    foldl add_field (f <$> done_) todo = f <$> (done_ ++ todo)%list).
  { intros done_ todo. revert done_.
    induction todo as [|q0 qs IH]; intros done_ Hnd; simpl.
    - by rewrite app_nil_r.
    - unfold add_field at 2. rewrite dict_set_fresh.
      + replace ((f <$> done_) ++ [(QuizForm.field_name q0, QuizForm.field_for q0)])%list
          with (f <$> (done_ ++ [q0])%list) by by rewrite fmap_app.
        rewrite IH; rewrite <- app_assoc; done.
      + rewrite <- list_fmap_compose. intros Hin.
        apply list_elem_of_fmap in Hin as (q' & Hname & Hq').
        simpl in Hname. apply field_name_inj in Hname.
        rewrite fmap_app, fmap_cons in Hnd.
        apply NoDup_app in Hnd as (_ & Hdisj & _).
        apply (Hdisj (QuizQuestion.id q')).
        * apply list_elem_of_fmap. by exists q'.
        * rewrite <- Hname. apply elem_of_cons. by left. }
  intros Hnd. apply (G [] questions Hnd).
Qed.

(** What cleaning the fields yields, entry by entry. *)
Lemma clean_fields_errors data fields name field messages :
  (name, field) ∈ fields ->
  ChoiceField.clean field (data !! name) = inr messages ->
  (name, messages) ∈ (QuizForm.clean_fields data fields).2.
Proof.
  induction fields as [|[n0 f0] fields IH]; simpl; [by intros ?%elem_of_nil|].
  intros Hin Hclean.
  destruct (QuizForm.clean_fields data fields) as [cd errs] eqn:E.
  apply elem_of_cons in Hin as [[= <- <-]|Hin].
  - rewrite Hclean. simpl. apply elem_of_cons. by left.
  - specialize (IH Hin Hclean). simpl in IH.
    destruct (ChoiceField.clean f0 (data !! n0)); simpl; [done|].
    apply elem_of_cons. by right.
Qed.

Lemma clean_fields_valid data fields :
  (QuizForm.clean_fields data fields).2 = [] ->
  (QuizForm.clean_fields data fields).1
  = (fun nf => (nf.1, default "" (data !! nf.1))) <$> fields /\
  Forall (fun nf => ChoiceField.clean nf.2 (data !! nf.1)
                    = inl (default "" (data !! nf.1))) fields.
Proof.
  induction fields as [|[n0 f0] fields IH]; simpl; [done|].
  destruct (QuizForm.clean_fields data fields) as [cd errs] eqn:E.
  destruct (ChoiceField.clean f0 (data !! n0)) as [v|m] eqn:Hc; simpl; [|done].
  simpl in IH. intros He. destruct (IH He) as [-> HF].
  assert (v = default "" (data !! n0)) as ->.
  { unfold ChoiceField.clean in Hc.
    repeat case_match; simplify_eq; done. }
  split; [done|]. constructor; done.
Qed.

Lemma clean_fields_all_valid data fields :
  Forall (fun nf => exists v, ChoiceField.clean nf.2 (data !! nf.1) = inl v) fields ->
  (QuizForm.clean_fields data fields).2 = [].
Proof.
  induction 1 as [|[n0 f0] fields [v Hv] _ IH]; simpl; [done|].
  destruct (QuizForm.clean_fields data fields) as [cd errs].
  simpl in *. rewrite Hv. done.
Qed.

(** A tag among A, B, C and D is accepted by the field of any question. *)
Lemma clean_field_for_tag q (a : string) :
  a ∈ ["A"; "B"; "C"; "D"] ->
  ChoiceField.clean (QuizForm.field_for q) (Some a) = inl a.
Proof.
  intros H. unfold ChoiceField.clean, ChoiceField.valid_value. simpl.
  rewrite bool_decide_eq_true_2 by done.
  destruct (decide (a = "")) as [->|_]; [|done].
  rewrite !elem_of_cons, elem_of_nil in H. by destruct H as [|[|[|[|]]]].
Qed.

(** A missing or empty selection is the ['required'] error of the field. *)
Lemma clean_field_for_missing q (raw : option string) :
  raw = None \/ raw = Some "" ->
  ChoiceField.clean (QuizForm.field_for q) raw
  = inr ["Please select an answer for this question."].
Proof. by intros [-> | ->]. Qed.

End QuizFormFacts.

(** ** Collected answers *)

Section AnswersFacts.
Implicit Types (questions : list QuizQuestion.t) (acc : gmap key string).
Implicit Types (data : gmap string string) (fields : list (string * ChoiceField.t)).

Lemma clean_fields_names data fields name value :
  (name, value) ∈ (QuizForm.clean_fields data fields).1 -> name ∈ fields.*1.
Proof.
  induction fields as [|[n0 f0] fields IH]; simpl; [by intros ?%elem_of_nil|].
  destruct (QuizForm.clean_fields data fields) as [cd errs].
  destruct (ChoiceField.clean f0 (data !! n0)); simpl in *.
  - intros [[= -> ->]|H]%elem_of_cons; apply elem_of_cons; [by left|right; auto].
  - intros H. apply elem_of_cons. right; auto.
Qed.

Lemma answers_of_field (n : Z) (v : string) items acc :
  QuizForm.answers_of (("question_" +:+ Py.str n, v) :: items) acc
  = QuizForm.answers_of items (<[IntKey n := v]> acc).
Proof.
  change (QuizForm.answers_of (("question_" +:+ Py.str n, v) :: items) acc)
    with (if Py.startswith ("question_" +:+ Py.str n) "question_"
          then question_id ←
                 Py.int (Py.replace ("question_" +:+ Py.str n) "question_" "");
               QuizForm.answers_of items (<[IntKey question_id := v]> acc)
          else QuizForm.answers_of items acc).
  by rewrite startswith_field_name, replace_field_name, int_str.
Qed.

Lemma answers_of_total items acc :
  Forall (fun nv => exists n : Z, nv.1 = "question_" +:+ Py.str n) items ->
  is_Some (QuizForm.answers_of items acc).
Proof.
  intros H. revert acc.
  induction H as [|[name v] items [n Hn] _ IH]; intros acc; [by eexists|].
  simpl in Hn. subst name. rewrite answers_of_field. apply IH.
Qed.

(** [get_user_answers] never raises on a quiz form. *)
Lemma get_user_answers_total odata questions :
  is_Some (QuizForm.get_user_answers (QuizForm.init odata questions)).
Proof.
  unfold QuizForm.get_user_answers. apply answers_of_total.
  apply Forall_forall. intros [name v] Hin. simpl.
  unfold QuizForm.cleaned_data in Hin.
  destruct (QuizForm.data (QuizForm.init odata questions)) as [d|] eqn:Hd;
    [|by apply elem_of_nil in Hin].
  apply clean_fields_names in Hin.
  apply list_elem_of_fmap in Hin as ([n f] & -> & Hin).
  apply init_fields_sound in Hin as (q & _ & -> & _).
  by exists (QuizQuestion.id q).
Qed.

Lemma answers_of_questions data questions acc :
  QuizForm.answers_of
    ((fun q => (QuizForm.field_name q,
                default "" (data !! QuizForm.field_name q))) <$> questions) acc
  = Some (foldl (fun acc q =>
                   <[IntKey (QuizQuestion.id q)
                     := default "" (data !! QuizForm.field_name q)]> acc)
                acc questions).
Proof.
  revert acc. induction questions as [|q qs IH]; intros acc; [done|].
  rewrite fmap_cons. unfold QuizForm.field_name at 1.
  rewrite answers_of_field. apply IH.
Qed.

(** With distinct primary keys, the answers of a valid form are the
    submitted values of the questions' fields. *)
Lemma get_user_answers_valid data questions :
  NoDup (QuizQuestion.id <$> questions) ->
  QuizForm.is_valid (QuizForm.init (Some data) questions) = true ->
  QuizForm.get_user_answers (QuizForm.init (Some data) questions)
  = Some (foldl (fun acc q =>
                   <[IntKey (QuizQuestion.id q)
                     := default "" (data !! QuizForm.field_name q)]> acc)
                ∅ questions).
Proof.
  intros Hnd Hvalid.
  unfold QuizForm.get_user_answers, QuizForm.cleaned_data.
  unfold QuizForm.is_valid, QuizForm.errors in Hvalid.
  change (QuizForm.data (QuizForm.init (Some data) questions)) with (Some data) in *.
  apply bool_decide_eq_true_1 in Hvalid.
  apply clean_fields_valid in Hvalid as [-> _].
  rewrite init_fields_NoDup by done.
  rewrite <- list_fmap_compose.
  apply answers_of_questions.
Qed.

End AnswersFacts.

(** ** Comparison of floats *)

Section FloatOrder.

Lemma SFleb_trans (x y z : spec_float) :
  SFleb x y = true -> SFleb y z = true -> SFleb x z = true.
Proof.
  unfold SFleb.
  destruct x as [sx|sx| |sx mx ex], y as [sy|sy| |sy my ey],
           z as [sz|sz| |sz mz ez]; simpl;
    repeat match goal with s : bool |- _ => destruct s end; simpl;
    try done.
  all: change (Pos.compare_cont Eq) with Pos.compare.
  all: destruct (Z.compare_spec ex ey), (Z.compare_spec ey ez),
         (Z.compare_spec ex ez); try lia; simpl; try done.
  all: destruct (Pos.compare_spec mx my), (Pos.compare_spec my mz),
         (Pos.compare_spec mx mz); simpl; try done; lia.
Qed.

Lemma leb_trans (x y z : float) :
  PrimFloat.leb x y = true -> PrimFloat.leb y z = true ->
  PrimFloat.leb x z = true.
Proof. rewrite !FloatAxioms.leb_spec. apply SFleb_trans. Qed.

(** A threshold that the larger number misses is missed by the smaller. *)
Lemma leb_below (c x y : float) :
  PrimFloat.leb x y = true -> PrimFloat.leb c y = false ->
  PrimFloat.leb c x = false.
Proof.
  intros Hxy Hcy. destruct (PrimFloat.leb c x) eqn:Hcx; [|done].
  by rewrite (leb_trans c x y) in Hcy.
Qed.

(** A number that misses a threshold misses every higher one. *)
Lemma leb_above (c c' x : float) :
  PrimFloat.leb c c' = true -> PrimFloat.leb c x = false ->
  PrimFloat.leb c' x = false.
Proof.
  intros Hcc Hcx. destruct (PrimFloat.leb c' x) eqn:Hx; [|done].
  by rewrite (leb_trans c c' x) in Hcx.
Qed.

End FloatOrder.

(** ** Selection of the questions *)

Section Selection.
Context {A : Type}.
Implicit Types (l : list A) (rand : list nat).

Lemma shuffle_Permutation n rand l :
  length l = n -> QuerySet.shuffle n rand l ≡ₚ l.
Proof.
  revert rand l. induction n as [|n IH]; intros rand l Hlen; simpl.
  - by destruct l.
  - destruct (lookup_lt_is_Some_2 l (hd O rand mod length l)%nat) as [x Hx].
    { apply Nat.mod_upper_bound. lia. }
    rewrite Hx. etrans; [|symmetry; exact (delete_Permutation l _ x Hx)].
    constructor. apply IH.
    rewrite length_delete by by eexists. lia.
Qed.

Lemma order_by_random_Permutation rand l :
  QuerySet.order_by_random rand l ≡ₚ l.
Proof. by apply shuffle_Permutation. Qed.

Lemma slice_to_nonneg (n : Z) l :
  0 <= n -> QuerySet.slice_to n l = Some (take (Z.to_nat n) l).
Proof. intros H. unfold QuerySet.slice_to. by rewrite (proj2 (Z.ltb_ge n 0)). Qed.

End Selection.

(** ** Score records: percentage and grade *)

Section ScoreRecord.
Implicit Types (self : UserScore.t) (tbl : UserScore.table) (p : float).

Lemma save_spec self tbl :
  UserScore.save self tbl
  = UserScore.Model_save
      (UserScore.set_percentage
         (Some (UserScore.computed_percentage (UserScore.score self)
                                              (UserScore.total_questions self)))
         self) tbl.
Proof.
  unfold UserScore.save, UserScore.computed_percentage.
  by destruct (0 <? UserScore.total_questions self).
Qed.

(** The row that [Model_save] leaves in the table is the instance it
    returns, as the database stores it. *)
Lemma Model_save_row self tbl :
  exists i,
    UserScore.id (UserScore.Model_save self tbl).1 = Some i /\
    UserScore.rows (UserScore.Model_save self tbl).2 !! i
    = Some (UserScore.to_row (UserScore.Model_save self tbl).1).
Proof.
  unfold UserScore.Model_save.
  destruct (UserScore.id self) as [i|] eqn:Hid; simpl.
  - exists i. split; [done|]. apply lookup_insert_eq.
  - eexists. split; [done|]. apply lookup_insert_eq.
Qed.

Lemma Model_save_fields self tbl :
  let saved := (UserScore.Model_save self tbl).1 in
  UserScore.user saved = UserScore.user self /\
  UserScore.score saved = UserScore.score self /\
  UserScore.total_questions saved = UserScore.total_questions self /\
  UserScore.percentage saved = UserScore.percentage self /\
  UserScore.time_taken saved = UserScore.time_taken self /\
  UserScore.user_answers saved = UserScore.user_answers self /\
  UserScore.quiz_questions saved = UserScore.quiz_questions self.
Proof.
  unfold UserScore.Model_save.
  by destruct (UserScore.id self).
Qed.

(** C1: whenever a score record is written, its percentage is recomputed
    from [score] and [total_questions] -- [score / total_questions * 100]
    when [total_questions > 0], and 0 otherwise -- whatever percentage the
    caller supplied: the instance returned and the row stored carry the
    recomputed value, and [save] and [objects.create] do not depend on the
    supplied one. *)
Theorem save_recomputes_percentage
    (self : UserScore.t) (supplied : option float) (tbl : UserScore.table) :
  let written := UserScore.save (UserScore.set_percentage supplied self) tbl in
  let recomputed :=
    if 0 <? UserScore.total_questions self
    then PrimFloat.mul (Py.truediv (UserScore.score self)
                                   (UserScore.total_questions self)) 100%float
    else 0%float in
  UserScore.percentage written.1 = Some recomputed /\
  (exists i row,
      UserScore.id written.1 = Some i /\
      UserScore.rows written.2 !! i = Some row /\
      UserScore.score row = UserScore.score self /\
      UserScore.total_questions row = UserScore.total_questions self /\
      UserScore.percentage row = Some recomputed) /\
  written = UserScore.save self tbl /\
  UserScore.objects_create (UserScore.user self) (UserScore.score self)
    (UserScore.total_questions self) supplied (UserScore.time_taken self)
    (UserScore.user_answers self) (UserScore.quiz_questions self) tbl
  = UserScore.objects_create (UserScore.user self) (UserScore.score self)
      (UserScore.total_questions self) None (UserScore.time_taken self)
      (UserScore.user_answers self) (UserScore.quiz_questions self) tbl.
Proof.
  cbv zeta.
  change (if 0 <? UserScore.total_questions self
          then PrimFloat.mul (Py.truediv (UserScore.score self)
                                (UserScore.total_questions self)) 100%float
          else 0%float)
    with (UserScore.computed_percentage (UserScore.score self)
                                        (UserScore.total_questions self)).
  rewrite !save_spec.
  set (self' := UserScore.set_percentage _ (UserScore.set_percentage _ _)).
  destruct (Model_save_fields self' tbl) as (_ & Hs & Ht & Hp & _).
  destruct (Model_save_row self' tbl) as (i & Hi & Hrow).
  split; [by rewrite Hp|]. split; [|split].
  - exists i, (UserScore.to_row (UserScore.Model_save self' tbl).1).
    repeat split; simpl; [done|done|by rewrite Hs|by rewrite Ht|by rewrite Hp].
  - reflexivity.
  - unfold UserScore.objects_create. by rewrite !save_spec.
Qed.

(** C4: the grade is a function of the percentage alone; it follows the
    thresholds -- at least 90 is A, else at least 80 is B, else at least 70
    is C, else at least 60 is D, else F; it is monotone in the percentage;
    the boundary values 90, 80, 70, 60 and 59.999 give A, B, C, D and F;
    and the record is passed exactly when the percentage is at least 60. *)
Theorem grade_follows_thresholds :
  (forall self self',
      UserScore.percentage self = UserScore.percentage self' ->
      UserScore.get_grade self = UserScore.get_grade self' /\
      UserScore.is_passed self = UserScore.is_passed self') /\
  (forall self p,
      UserScore.percentage self = Some p ->
      (PrimFloat.leb 90 p = true -> UserScore.get_grade self = Some "A") /\
      (PrimFloat.leb 90 p = false -> PrimFloat.leb 80 p = true ->
       UserScore.get_grade self = Some "B") /\
      (PrimFloat.leb 80 p = false -> PrimFloat.leb 70 p = true ->
       UserScore.get_grade self = Some "C") /\
      (PrimFloat.leb 70 p = false -> PrimFloat.leb 60 p = true ->
       UserScore.get_grade self = Some "D") /\
      (PrimFloat.leb 60 p = false -> UserScore.get_grade self = Some "F") /\
      UserScore.is_passed self = Some (PrimFloat.leb 60 p)) /\
  (forall self self' p p',
      UserScore.percentage self = Some p ->
      UserScore.percentage self' = Some p' ->
      PrimFloat.leb p p' = true ->
      grade_points (UserScore.get_grade self)
      <= grade_points (UserScore.get_grade self')) /\
  (forall self,
      UserScore.get_grade (UserScore.set_percentage (Some 90%float) self)
      = Some "A" /\
      UserScore.get_grade (UserScore.set_percentage (Some 80%float) self)
      = Some "B" /\
      UserScore.get_grade (UserScore.set_percentage (Some 70%float) self)
      = Some "C" /\
      UserScore.get_grade (UserScore.set_percentage (Some 60%float) self)
      = Some "D" /\
      UserScore.get_grade (UserScore.set_percentage (Some 59.999%float) self)
      = Some "F" /\
      UserScore.is_passed (UserScore.set_percentage (Some 60%float) self)
      = Some true /\
      UserScore.is_passed (UserScore.set_percentage (Some 59.999%float) self)
      = Some false).
Proof.
  split; [|split; [|split]].
  - intros self self' H. unfold UserScore.get_grade, UserScore.is_passed.
    by rewrite H.
  - intros self p H. unfold UserScore.get_grade, UserScore.is_passed.
    rewrite H. simpl.
    repeat split.
    + by intros ->.
    + by intros -> ->.
    + intros H80 ->. by rewrite (leb_above 80 90 p), H80.
    + intros H70 ->.
      by rewrite (leb_above 70 90 p), (leb_above 70 80 p), H70.
    + intros H60.
      by rewrite (leb_above 60 90 p), (leb_above 60 80 p),
                 (leb_above 60 70 p), H60.
  - intros self self' p p' H H' Hle.
    unfold UserScore.get_grade. rewrite H, H'. simpl.
    destruct (PrimFloat.leb 90 p') eqn:E90.
    { repeat case_match; simpl; done. }
    rewrite (leb_below 90 p p' Hle E90).
    destruct (PrimFloat.leb 80 p') eqn:E80.
    { repeat case_match; simpl; done. }
    rewrite (leb_below 80 p p' Hle E80).
    destruct (PrimFloat.leb 70 p') eqn:E70.
    { repeat case_match; simpl; done. }
    rewrite (leb_below 70 p p' Hle E70).
    destruct (PrimFloat.leb 60 p') eqn:E60.
    { repeat case_match; simpl; done. }
    by rewrite (leb_below 60 p p' Hle E60).
  - intros self. repeat split; reflexivity.
Qed.

End ScoreRecord.

(** ** The quiz view, branch by branch *)

Section QuizView.
Implicit Types (request : Request.t) (w : World.t) (user : Z).
Implicit Types (questions : list QuizQuestion.t).

(** A request that is not a submission renders the quiz and stores the
    time of the request as the start time. *)
Lemma quiz_view_get request w user questions :
  Request.user request = Some user ->
  Request.method request <> "POST" ->
  questions_of request w = Some questions ->
  questions <> [] ->
  views.quiz_view request w
  = (Render "quiz.html"
       (QuizContext (QuizForm.init None questions) questions
                    (Z.of_nat (length questions)) (settings_of w)),
     World.set_session
       (Session.set_quiz_start_time (Some (Request.clock request 0%nat))
                                    (World.session w)) w).
Proof.
  intros Hu Hm Hq Hne. unfold views.quiz_view, views.login_required.
  rewrite Hu. fold (settings_of w). fold (questions_of request w). rewrite Hq.
  destruct questions as [|q qs]; [done|].
  by destruct (decide (Request.method request = "POST")).
Qed.

(** A submission that does not validate renders the quiz again, with the
    errors, and changes nothing. *)
Lemma quiz_view_post_invalid request w user questions :
  Request.user request = Some user ->
  Request.method request = "POST" ->
  questions_of request w = Some questions ->
  questions <> [] ->
  QuizForm.is_valid (form_of request questions) = false ->
  views.quiz_view request w
  = (Render "quiz.html"
       (QuizContext (form_of request questions) questions
                    (Z.of_nat (length questions)) (settings_of w)), w).
Proof.
  intros Hu Hm Hq Hne Hv. unfold views.quiz_view, views.login_required.
  rewrite Hu. fold (settings_of w). fold (questions_of request w). rewrite Hq.
  destruct questions as [|q qs]; [done|].
  destruct (decide (Request.method request = "POST")); [|done].
  fold (form_of request (q :: qs)). by rewrite Hv.
Qed.

(** A submission that validates is scored and stored. *)
Lemma quiz_view_post_valid request w user questions :
  Request.user request = Some user ->
  Request.method request = "POST" ->
  questions_of request w = Some questions ->
  questions <> [] ->
  QuizForm.is_valid (form_of request questions) = true ->
  exists user_answers,
    QuizForm.get_user_answers (form_of request questions) = Some user_answers /\
    views.quiz_view request w
    = let created :=
        UserScore.objects_create user
          (views.compute_score user_answers questions)
          (Z.of_nat (length questions)) None (Some (charged_time request w))
          user_answers (map views.question_data questions)
          (World.userscores w) in
      (Redirect "quiz_results",
       World.set_session
         (Session.mk None None (UserScore.id created.1))
         (World.set_userscores created.2 w)).
Proof.
  intros Hu Hm Hq Hne Hv.
  destruct (get_user_answers_total (Some (Request.POST request)) questions)
    as [user_answers Hua].
  exists user_answers. split; [done|].
  unfold views.quiz_view, views.login_required.
  rewrite Hu. fold (settings_of w). fold (questions_of request w). rewrite Hq.
  destruct questions as [|q qs]; [done|].
  destruct (decide (Request.method request = "POST")); [|done].
  fold (form_of request (q :: qs)). rewrite Hv.
  unfold form_of in *. rewrite Hua. unfold charged_time.
  destruct (Session.quiz_start_time (World.session w)) as [t0|] eqn:Ht;
    cbv beta iota zeta; rewrite ?Ht;
    change (Session.quiz_start_time
              (Session.set_quiz_start_time (Some (Request.clock request 0%nat))
                                           (World.session w)))
      with (Some (Request.clock request 0%nat));
    cbv beta iota zeta;
    match goal with
    | |- context [UserScore.objects_create ?a ?b ?c ?d ?e ?f ?g ?h] =>
        by destruct (UserScore.objects_create a b c d e f g h)
    end.
Qed.

(** The record that [objects.create] stores for a submission. *)
Lemma objects_create_row user score total time_taken user_answers
    quiz_questions tbl :
  let created :=
    UserScore.objects_create user score total None time_taken user_answers
                             quiz_questions tbl in
  UserScore.id created.1 = Some (UserScore.next_id tbl) /\
  UserScore.rows created.2 !! UserScore.next_id tbl
  = Some (UserScore.mk (Some (UserScore.next_id tbl)) user score total
            (Some (UserScore.computed_percentage score total)) time_taken
            (json_roundtrip user_answers) quiz_questions) /\
  (forall i, i <> UserScore.next_id tbl ->
             UserScore.rows created.2 !! i = UserScore.rows tbl !! i).
Proof.
  cbv zeta. unfold UserScore.objects_create. rewrite save_spec.
  unfold UserScore.Model_save. simpl. split; [done|]. split.
  - by rewrite lookup_insert_eq.
  - intros i Hi. by rewrite lookup_insert_ne.
Qed.

End QuizView.

(** ** Submissions *)

Section Submission.
Implicit Types (request : Request.t) (w : World.t) (user : Z).
Implicit Types (questions : list QuizQuestion.t) (q : QuizQuestion.t).

Lemma quiz_view_scores request w user questions :
  Request.user request = Some user ->
  Request.method request = "POST" ->
  questions_of request w = Some questions ->
  questions <> [] ->
  QuizForm.is_valid (form_of request questions) = true ->
  exists user_answers,
    QuizForm.get_user_answers (form_of request questions) = Some user_answers /\
    views.quiz_view request w
    = (Redirect "quiz_results",
       World.mk (World.questions w)
         (UserScore.mk_table
            (<[UserScore.next_id (World.userscores w)
               := scored_row request w user questions user_answers]>
               (UserScore.rows (World.userscores w)))
            (UserScore.next_id (World.userscores w) + 1))
         (Session.mk None None (Some (UserScore.next_id (World.userscores w))))
         (World.messages w)).
Proof.
  intros Hu Hm Hq Hne Hv.
  destruct (quiz_view_post_valid request w user questions Hu Hm Hq Hne Hv)
    as (user_answers & Hua & ->).
  exists user_answers. split; [done|].
  cbv zeta. unfold UserScore.objects_create. rewrite save_spec.
  reflexivity.
Qed.

(** C6, as the code has it: the questions that need a tag are those that
    the submitting request itself selects, which the form is built from.
    A submission in which one of them has no selected tag is rejected: the
    quiz page is rendered again with the selection error on that question's
    field, the session still holds the settings and the start time of the
    quiz, and no score record is written.  A question that was presented
    and is not selected again when the answers arrive needs no tag. *)
Theorem unanswered_question_rejects_submission request w user questions q :
  Request.user request = Some user ->
  Request.method request = "POST" ->
  questions_of request w = Some questions ->
  q ∈ questions ->
  Request.POST request !! QuizForm.field_name q = None \/
  Request.POST request !! QuizForm.field_name q = Some "" ->
  (QuizForm.field_name q, ["Please select an answer for this question."])
    ∈ QuizForm.errors (form_of request questions) /\
  (views.quiz_view request w).1
  = Render "quiz.html"
      (QuizContext (form_of request questions) questions
                   (Z.of_nat (length questions)) (settings_of w)) /\
  World.session (views.quiz_view request w).2 = World.session w /\
  World.userscores (views.quiz_view request w).2 = World.userscores w.
Proof.
  intros Hu Hm Hq Hin Hraw.
  assert (Herr : (QuizForm.field_name q,
                  ["Please select an answer for this question."])
                   ∈ QuizForm.errors (form_of request questions)).
  { unfold QuizForm.errors, form_of.
    change (QuizForm.data (QuizForm.init (Some (Request.POST request)) questions))
      with (Some (Request.POST request)).
    pose proof (init_fields_complete (Some (Request.POST request)) questions q Hin)
      as Hkey.
    apply list_elem_of_fmap in Hkey as ([name field] & Hname & Hfield).
    simpl in Hname. subst name.
    destruct (init_fields_sound _ _ _ _ Hfield) as (q' & _ & _ & ->).
    eapply clean_fields_errors; [exact Hfield|].
    by apply clean_field_for_missing. }
  split; [done|].
  rewrite (quiz_view_post_invalid request w user questions); try done.
  - intros ->. by apply elem_of_nil in Hin.
  - unfold QuizForm.is_valid.
    change (QuizForm.data (form_of request questions))
      with (Some (Request.POST request)).
    apply bool_decide_eq_false_2. intros E. rewrite E in Herr.
    by apply elem_of_nil in Herr.
Qed.

(** C2, as the code has it: the snapshot stored with a scored submission
    is built from the questions that the submitting request itself selects
    from the question store -- the rows the score is computed against --
    with, for each, its id, text, choice map and correct tag. *)
Theorem snapshot_is_built_when_scoring request w user questions :
  Request.user request = Some user ->
  Request.method request = "POST" ->
  questions_of request w = Some questions ->
  questions <> [] ->
  QuizForm.is_valid (form_of request questions) = true ->
  exists i record user_answers,
    (views.quiz_view request w).1 = Redirect "quiz_results" /\
    Session.quiz_result_id (World.session (views.quiz_view request w).2)
    = Some i /\
    UserScore.rows (World.userscores (views.quiz_view request w).2) !! i
    = Some record /\
    UserScore.quiz_questions record
    = map (fun q => QuestionData.mk (QuizQuestion.id q)
                      (QuizQuestion.question_text q)
                      (list_to_map (QuizQuestion.get_choices q))
                      (QuizQuestion.correct_answer q)) questions /\
    QuizForm.get_user_answers (form_of request questions) = Some user_answers /\
    UserScore.score record = views.compute_score user_answers questions /\
    UserScore.total_questions record = Z.of_nat (length questions).
Proof.
  intros Hu Hm Hq Hne Hv.
  destruct (quiz_view_scores request w user questions Hu Hm Hq Hne Hv)
    as (user_answers & Hua & ->).
  exists (UserScore.next_id (World.userscores w)),
         (scored_row request w user questions user_answers), user_answers.
  simpl. by rewrite lookup_insert_eq.
Qed.

(** C9, as the code has it: the elapsed time of a scored submission is the
    time of scoring minus the start time held by the session; when the
    session holds none, the submission first records its own arrival as the
    start, so the elapsed time is the difference of its two readings of the
    clock.  It is never null. *)
Theorem time_taken_is_never_null request w user questions :
  Request.user request = Some user ->
  Request.method request = "POST" ->
  questions_of request w = Some questions ->
  questions <> [] ->
  QuizForm.is_valid (form_of request questions) = true ->
  exists i record,
    Session.quiz_result_id (World.session (views.quiz_view request w).2)
    = Some i /\
    UserScore.rows (World.userscores (views.quiz_view request w).2) !! i
    = Some record /\
    UserScore.time_taken record
    = Some match Session.quiz_start_time (World.session w) with
           | Some start_time => Request.clock request 0%nat - start_time
           | None => Request.clock request 1%nat - Request.clock request 0%nat
           end.
Proof.
  intros Hu Hm Hq Hne Hv.
  destruct (quiz_view_scores request w user questions Hu Hm Hq Hne Hv)
    as (user_answers & Hua & ->).
  exists (UserScore.next_id (World.userscores w)),
         (scored_row request w user questions user_answers).
  simpl. by rewrite lookup_insert_eq.
Qed.

(** C5, as the code has it: every request that presents the quiz stores
    its own time as the start time, replacing the one of an earlier
    presentation; a rejected submission leaves the stored start time as it
    is; a scored submission removes it. *)
Theorem start_time_is_set_by_each_presentation request w user questions :
  Request.user request = Some user ->
  questions_of request w = Some questions ->
  questions <> [] ->
  let after := World.session (views.quiz_view request w).2 in
  if decide (Request.method request = "POST") then
    if QuizForm.is_valid (form_of request questions)
    then Session.quiz_start_time after = None
    else after = World.session w
  else Session.quiz_start_time after = Some (Request.clock request 0%nat).
Proof.
  intros Hu Hq Hne. cbv zeta.
  destruct (decide (Request.method request = "POST")) as [Hm|Hm].
  - destruct (QuizForm.is_valid (form_of request questions)) eqn:Hv.
    + destruct (quiz_view_scores request w user questions Hu Hm Hq Hne Hv)
        as (user_answers & _ & ->). done.
    + by rewrite (quiz_view_post_invalid request w user questions).
  - by rewrite (quiz_view_get request w user questions).
Qed.

End Submission.

(** ** The results page *)

Section Results.
Implicit Types (request : Request.t) (w : World.t).

Lemma quiz_results_view_questions request w questions' :
  views.quiz_results_view request (World.set_questions questions' w)
  = ((views.quiz_results_view request w).1,
     World.set_questions questions' (views.quiz_results_view request w).2).
Proof.
  unfold views.quiz_results_view, views.login_required.
  destruct (Request.user request) as [user|]; [|done]. simpl.
  destruct (Session.quiz_result_id (World.session w)) as [[|i|i]|]; try done.
  all: destruct (views.get_userscore _ user (World.userscores w))
         as [user_score|]; [|done].
  all: by destruct (UserScore.percentage user_score),
            (UserScore.get_grade user_score),
            (UserScore.is_passed user_score).
Qed.

(** C8: the results page is computed from the score record alone.  It is
    the same whatever the question table holds, so changing, deactivating,
    activating or deleting questions after the attempt changes nothing of
    what is shown; and those operations do not touch the score records. *)
Theorem results_do_not_read_the_questions request w :
  (forall questions',
      (views.quiz_results_view request (World.set_questions questions' w)).1
      = (views.quiz_results_view request w).1) /\
  (forall q,
      (views.quiz_results_view request (QuizQuestionAdmin.change_question q w)).1
      = (views.quiz_results_view request w).1 /\
      World.userscores (QuizQuestionAdmin.change_question q w)
      = World.userscores w) /\
  (forall selected,
      (views.quiz_results_view request
         (QuizQuestionAdmin.deactivate_questions selected w)).1
      = (views.quiz_results_view request w).1 /\
      World.userscores (QuizQuestionAdmin.deactivate_questions selected w)
      = World.userscores w) /\
  (forall question_id,
      (views.quiz_results_view request
         (QuizQuestionAdmin.delete_question question_id w)).1
      = (views.quiz_results_view request w).1 /\
      World.userscores (QuizQuestionAdmin.delete_question question_id w)
      = World.userscores w) /\
  (forall user_score detailed_results percentage grade passed,
      (views.quiz_results_view request w).1
      = Render "results.html"
          (ResultsContext user_score detailed_results percentage grade passed) ->
      detailed_results
      = map (views.detailed_result user_score)
            (UserScore.quiz_questions user_score)).
Proof.
  split; [|split; [|split; [|split]]].
  - intros questions'. by rewrite quiz_results_view_questions.
  - intros q. unfold QuizQuestionAdmin.change_question.
    by rewrite quiz_results_view_questions.
  - intros selected.
    unfold QuizQuestionAdmin.deactivate_questions,
           QuizQuestionAdmin.update_is_active.
    by rewrite quiz_results_view_questions.
  - intros question_id. unfold QuizQuestionAdmin.delete_question.
    by rewrite quiz_results_view_questions.
  - intros user_score detailed_results percentage grade passed.
    unfold views.quiz_results_view, views.login_required.
    destruct (Request.user request) as [user|]; [|done]. simpl.
    destruct (Session.quiz_result_id (World.session w)) as [[|i|i]|]; try done.
    all: destruct (views.get_userscore _ user (World.userscores w))
           as [row|]; [|done].
    all: destruct (UserScore.percentage row), (UserScore.get_grade row),
           (UserScore.is_passed row); try done.
    all: by intros [= <- <- _ _ _].
Qed.

End Results.

(** ** Settings *)


Section Settings.
Implicit Types (request : Request.t) (w : World.t) (user : Z).
Implicit Types (data : gmap string string).

Lemma total_available_active (questions : list QuizQuestion.t) :
  QuizSettingsForm.total_available questions
  = Z.of_nat (length (views.active_questions questions)).
Proof. reflexivity. Qed.

Lemma IntegerField_clean_count data (n : Z) :
  requested_count data = Some n ->
  QuizSettingsForm.IntegerField_clean 1 50 (data !! "num_questions")
  = if 50 <? n
    then inr ["Ensure this value is less than or equal to 50."]
    else if n <? 1
         then inr ["Ensure this value is greater than or equal to 1."]
         else inl n.
Proof.
  unfold requested_count, QuizSettingsForm.IntegerField_clean.
  destruct (data !! "num_questions") as [text|]; [|done].
  cbn [mbind option_bind]. change (default "" (Some text)) with text.
  intros Hn. destruct (decide (text = "")) as [->|_]; [done|].
  rewrite Hn.
  destruct (50 <? n) eqn:E50, (n <? 1) eqn:E1; try done. ltb_lia.
Qed.

Lemma IntegerField_clean_accepts data (n : Z) :
  QuizSettingsForm.IntegerField_clean 1 50 (data !! "num_questions") = inl n ->
  requested_count data = Some n /\ 1 <= n <= 50.
Proof.
  unfold requested_count, QuizSettingsForm.IntegerField_clean.
  destruct (data !! "num_questions") as [text|]; [|done].
  cbn [mbind option_bind]. change (default "" (Some text)) with text.
  destruct (decide (text = "")) as [->|_]; [done|].
  destruct (QuizSettingsForm.IntegerField_to_python text) as [m|]; [|done].
  destruct (50 <? m) eqn:E50, (m <? 1) eqn:E1; try done.
  intros [= ->]. split; [done|ltb_lia].
Qed.

(** C7, as the code has it: the settings are accepted only if the
    requested count lies in 1..50 and does not exceed the number of active
    questions, and then the quiz is started with them; otherwise the setup
    page is rendered again and nothing is stored.  A count within 1..50
    above the number of active questions is refused with the error that
    names that number; a count outside 1..50 is refused by the bounds of
    the field, with the error of the bound, and the number of active
    questions is not looked at.  The count is what the field reads in the
    submitted text: blanks around the numeral, a sign, underscores between
    digits, the digits of any script and a dot with zeros after the numeral
    are all read.  The text is taken to be within the length up to which
    every interpreter reads numerals. *)
Theorem settings_count_is_validated request w user :
  Request.user request = Some user ->
  Request.method request = "POST" ->
  numeral_is_short (Request.POST request) ->
  let data := Request.POST request in
  let form := QuizSettingsForm.full_clean data (World.questions w) in
  let available :=
    Z.of_nat (length (views.active_questions (World.questions w))) in
  (if QuizSettingsForm.is_valid form then
     exists n d r,
       requested_count data = Some n /\ 1 <= n <= 50 /\ n <= available /\
       views.quiz_setup_view request w
       = (Redirect "quiz",
          World.set_session
            (Session.set_quiz_settings (Some (QuizSettings.mk n d r))
                                       (World.session w)) w)
   else
     views.quiz_setup_view request w
     = (Render "quiz_setup.html" (SetupContext (Some form) available), w)) /\
  (forall n,
      requested_count data = Some n -> 1 <= n <= 50 -> available < n ->
      QuizSettingsForm.is_valid form = false /\
      dict_get "num_questions" (QuizSettingsForm.errors form)
      = Some ["Only " +:+ Py.str available +:+
              " questions are available. Please choose a smaller number."]) /\
  (forall n,
      requested_count data = Some n -> 50 < n ->
      QuizSettingsForm.is_valid form = false /\
      dict_get "num_questions" (QuizSettingsForm.errors form)
      = Some ["Ensure this value is less than or equal to 50."]) /\
  (forall n,
      requested_count data = Some n -> n < 1 ->
      QuizSettingsForm.is_valid form = false /\
      dict_get "num_questions" (QuizSettingsForm.errors form)
      = Some ["Ensure this value is greater than or equal to 1."]).
Proof.
  intros Hu Hm _. cbv zeta.
  split; [|split; [|split]].
  - unfold views.quiz_setup_view, views.login_required. rewrite Hu.
    destruct (decide (Request.method request = "POST")); [|done].
    destruct (QuizSettingsForm.is_valid _) eqn:Hv; [|done].
    revert Hv.
    unfold QuizSettingsForm.is_valid, QuizSettingsForm.full_clean. simpl.
    destruct (QuizSettingsForm.IntegerField_clean 1 50 _) as [n|m] eqn:Hn;
      [|by intros [=]%bool_decide_eq_true_1].
    apply IntegerField_clean_accepts in Hn as [Hreq Hrange].
    unfold QuizSettingsForm.clean_num_questions.
    rewrite !total_available_active.
    destruct (_ <? n) eqn:Hav; [by intros [=]%bool_decide_eq_true_1|].
    destruct (ChoiceField.clean _ _) as [d|m];
      [|by intros [=]%bool_decide_eq_true_1].
    intros _. eexists n, d, _. repeat split; try done; ltb_lia.
  - intros n Hreq Hrange Hav.
    unfold QuizSettingsForm.is_valid, QuizSettingsForm.full_clean. simpl.
    rewrite (IntegerField_clean_count _ n Hreq).
    destruct (50 <? n) eqn:E50; [ltb_lia|]. destruct (n <? 1) eqn:E1; [ltb_lia|].
    unfold QuizSettingsForm.clean_num_questions.
    rewrite !total_available_active.
    rewrite (proj2 (Z.ltb_lt _ _) Hav). simpl.
    split; [first [done|by apply bool_decide_eq_false_2]|done].
  - intros n Hreq Hbig.
    unfold QuizSettingsForm.is_valid, QuizSettingsForm.full_clean. simpl.
    rewrite (IntegerField_clean_count _ n Hreq).
    destruct (50 <? n) eqn:E50; [|ltb_lia]. simpl.
    split; [first [done|by apply bool_decide_eq_false_2]|done].
  - intros n Hreq Hsmall.
    unfold QuizSettingsForm.is_valid, QuizSettingsForm.full_clean. simpl.
    rewrite (IntegerField_clean_count _ n Hreq).
    destruct (50 <? n) eqn:E50; [ltb_lia|]. destruct (n <? 1) eqn:E1; [|ltb_lia].
    simpl. split; [first [done|by apply bool_decide_eq_false_2]|done].
Qed.

End Settings.

(** ** A quiz without settings *)

Section Defaults.
Implicit Types (request : Request.t) (w : World.t) (user : Z).

Lemma select_default (rand : list nat) (questions : list QuizQuestion.t) :
  views.select_questions views.default_settings rand questions
  = Some (take 10 (QuerySet.order_by_random rand
                     (views.active_questions questions))).
Proof. reflexivity. Qed.

(** C10, as the code has it: with no settings in the session,
    [quiz_view] runs with the defaults -- 10 questions, all difficulties,
    random order.  It selects a random selection of the questions whose
    active flag is set, as many as there are up to 10.  When there is at
    least one, it does not fail or go back to the setup page, and a page
    load presents the selection.  When there is none, the user is sent to
    the setup page with the message that no questions are available, as
    with stored settings.  The bound of the setup form is not checked on
    this path: with fewer than 10 active questions the setup form refuses a
    request for 10, and the quiz is presented all the same. *)
Theorem quiz_without_settings_uses_defaults request w user :
  Request.user request = Some user ->
  Session.quiz_settings (World.session w) = None ->
  let active :=
    filter (fun q => QuizQuestion.is_active q = true) (World.questions w) in
  let questions :=
    take 10 (QuerySet.order_by_random (Request.rand request) active) in
  questions_of request w = Some questions /\
  length questions = Nat.min 10 (length active) /\
  (forall q, q ∈ questions ->
             q ∈ World.questions w /\ QuizQuestion.is_active q = true) /\
  (active = [] ->
   views.quiz_view request w
   = (Redirect "quiz_setup",
      World.messages_error
        "No questions available for the selected criteria." w)) /\
  (active <> [] ->
   (views.quiz_view request w).1 <> ServerError /\
   (views.quiz_view request w).1 <> Redirect "quiz_setup" /\
   (Request.method request <> "POST" ->
    views.quiz_view request w
    = (Render "quiz.html"
         (QuizContext (QuizForm.init None questions) questions
                      (Z.of_nat (length questions)) views.default_settings),
       World.set_session
         (Session.set_quiz_start_time (Some (Request.clock request 0%nat))
                                      (World.session w)) w))) /\
  ((length active < 10)%nat ->
   QuizSettingsForm.is_valid
     (QuizSettingsForm.full_clean
        (<["num_questions" := "10"]> (<["difficulty" := "ALL"]> ∅))
        (World.questions w)) = false).
Proof.
  intros Hu Hs. cbv zeta.
  change (filter (fun q => QuizQuestion.is_active q = true) (World.questions w))
    with (views.active_questions (World.questions w)).
  set (active := views.active_questions (World.questions w)) in *.
  set (shuffled := QuerySet.order_by_random (Request.rand request) active).
  assert (Hperm : shuffled ≡ₚ active) by apply order_by_random_Permutation.
  assert (Hq : questions_of request w = Some (take 10 shuffled)).
  { unfold questions_of, settings_of. rewrite Hs. apply select_default. }
  assert (Hsettings : settings_of w = views.default_settings)
    by (unfold settings_of; by rewrite Hs).
  split; [done|]. split; [|split; [|split; [|split]]].
  - by rewrite length_take, Hperm.
  - intros q Hin. apply subseteq_take in Hin. rewrite Hperm in Hin.
    unfold active, views.active_questions in Hin.
    apply list_elem_of_filter in Hin as [? ?]. by split.
  - intros Hnone. rewrite Hnone in Hperm. apply Permutation_nil_r in Hperm.
    rewrite Hperm in Hq.
    unfold views.quiz_view, views.login_required. rewrite Hu.
    fold (settings_of w). fold (questions_of request w). by rewrite Hq.
  - intros Hact.
    assert (take 10 shuffled <> []) as Hne.
    { assert (length shuffled <> 0)%nat as Hlen.
      { rewrite Hperm. by destruct active. }
      by destruct shuffled. }
    split; [|split].
    + destruct (decide (Request.method request = "POST")) as [Hm|Hm].
      * destruct (QuizForm.is_valid (form_of request (take 10 shuffled)))
          eqn:Hv.
        -- destruct (quiz_view_scores request w user (take 10 shuffled))
             as (user_answers & _ & ->); done.
        -- by rewrite (quiz_view_post_invalid request w user (take 10 shuffled)).
      * by rewrite (quiz_view_get request w user (take 10 shuffled)).
    + destruct (decide (Request.method request = "POST")) as [Hm|Hm].
      * destruct (QuizForm.is_valid (form_of request (take 10 shuffled)))
          eqn:Hv.
        -- destruct (quiz_view_scores request w user (take 10 shuffled))
             as (user_answers & _ & ->); done.
        -- by rewrite (quiz_view_post_invalid request w user (take 10 shuffled)).
      * by rewrite (quiz_view_get request w user (take 10 shuffled)).
    + intros Hm.
      rewrite (quiz_view_get request w user (take 10 shuffled)); try done.
      by rewrite Hsettings.
  - intros Hfew.
    unfold QuizSettingsForm.is_valid, QuizSettingsForm.full_clean.
    change (QuizSettingsForm.IntegerField_clean 1 50
              (<["num_questions" := "10"]> (<["difficulty" := "ALL"]> ∅)
                 !! "num_questions"))
      with (@inl Z (list string) 10).
    unfold QuizSettingsForm.clean_num_questions.
    rewrite total_available_active. fold active.
    assert ((Z.of_nat (length active) <? 10) = true) as ->
      by (apply Z.ltb_lt; lia).
    done.
Qed.

End Defaults.

(** ** A whole attempt *)

Section Attempt.
Implicit Types (request : Request.t) (w : World.t) (user : Z).
Implicit Types (questions : list QuizQuestion.t) (q : QuizQuestion.t).

(** Settings that pass every check start the quiz. *)
Lemma quiz_setup_view_accepts request w user (n : Z) (d : string) :
  Request.user request = Some user ->
  Request.method request = "POST" ->
  QuizSettingsForm.IntegerField_clean 1 50
    (Request.POST request !! "num_questions") = inl n ->
  n <= Z.of_nat (length (views.active_questions (World.questions w))) ->
  ChoiceField.clean QuizSettingsForm.difficulty_field
    (Request.POST request !! "difficulty") = inl d ->
  views.quiz_setup_view request w
  = (Redirect "quiz",
     World.set_session
       (Session.set_quiz_settings
          (Some (QuizSettings.mk n d
                   (QuizSettingsForm.BooleanField_clean
                      (Request.POST request !! "random_order"))))
          (World.session w)) w).
Proof.
  intros Hu Hm Hn Hav Hd.
  unfold views.quiz_setup_view, views.login_required. rewrite Hu.
  destruct (decide (Request.method request = "POST")); [|done].
  unfold QuizSettingsForm.is_valid, QuizSettingsForm.full_clean.
  rewrite Hn, Hd. unfold QuizSettingsForm.clean_num_questions.
  rewrite total_available_active.
  by rewrite (proj2 (Z.ltb_ge _ _) Hav).
Qed.

(** The results page of a stored record. *)
Lemma quiz_results_view_shows request w user (i : Z) record p grade passed :
  Request.user request = Some user ->
  Session.quiz_result_id (World.session w) = Some i ->
  i <> 0 ->
  UserScore.rows (World.userscores w) !! i = Some record ->
  UserScore.user record = user ->
  UserScore.percentage record = Some p ->
  UserScore.get_grade record = Some grade ->
  UserScore.is_passed record = Some passed ->
  views.quiz_results_view request w
  = (Render "results.html"
       (ResultsContext record
          (map (views.detailed_result record) (UserScore.quiz_questions record))
          (Py.round1 p) grade passed),
     World.set_session
       (Session.set_quiz_result_id None (World.session w)) w).
Proof.
  intros Hu Hi Hi0 Hrow Huser Hp Hg Hpass.
  unfold views.quiz_results_view, views.login_required, views.get_userscore.
  rewrite Hu, Hi, Hrow. simpl.
  rewrite decide_True by done. rewrite Hp, Hg, Hpass.
  by destruct i.
Qed.

(** A form whose every question carries one of the four tags is valid. *)
Lemma form_with_tags_is_valid (data : gmap string string) questions :
  NoDup (QuizQuestion.id <$> questions) ->
  Forall (fun q => exists a, data !! QuizForm.field_name q = Some a
                             /\ a ∈ ["A"; "B"; "C"; "D"]) questions ->
  QuizForm.is_valid (QuizForm.init (Some data) questions) = true.
Proof.
  intros Hnd Hall. unfold QuizForm.is_valid, QuizForm.errors.
  change (QuizForm.data (QuizForm.init (Some data) questions)) with (Some data).
  apply bool_decide_eq_true_2, clean_fields_all_valid.
  rewrite init_fields_NoDup by done.
  apply Forall_fmap. eapply Forall_impl; [exact Hall|].
  intros q (a & Ha & Htag). simpl. rewrite Ha.
  exists a. by apply clean_field_for_tag.
Qed.

(** The score of three questions with distinct keys. *)
Lemma compute_score_three (data : gmap string string) q1 q2 q3 (a1 a2 a3 : string) :
  NoDup [QuizQuestion.id q1; QuizQuestion.id q2; QuizQuestion.id q3] ->
  data !! QuizForm.field_name q1 = Some a1 ->
  data !! QuizForm.field_name q2 = Some a2 ->
  data !! QuizForm.field_name q3 = Some a3 ->
  views.compute_score
    (foldl (fun acc q =>
              <[IntKey (QuizQuestion.id q)
                := default "" (data !! QuizForm.field_name q)]> acc)
           ∅ [q1; q2; q3])
    [q1; q2; q3]
  = Z.of_nat (length (filter (fun aq => aq.1 = QuizQuestion.correct_answer aq.2)
                             [(a1, q1); (a2, q2); (a3, q3)])).
Proof.
  intros Hnd H1 H2 H3.
  apply NoDup_cons in Hnd as [Hn1 Hnd]. apply NoDup_cons in Hnd as [Hn2 _].
  apply not_elem_of_cons in Hn1 as [H12 Hn1].
  apply not_elem_of_cons in Hn1 as [H13 _].
  apply not_elem_of_cons in Hn2 as [H23 _].
  unfold views.compute_score. simpl. rewrite H1, H2, H3. simpl.
  rewrite lookup_insert_eq.
  rewrite (lookup_insert_ne _ (IntKey (QuizQuestion.id q3))
             (IntKey (QuizQuestion.id q2))) by congruence.
  rewrite lookup_insert_eq.
  rewrite (lookup_insert_ne _ (IntKey (QuizQuestion.id q3))
             (IntKey (QuizQuestion.id q1))) by congruence.
  rewrite (lookup_insert_ne _ (IntKey (QuizQuestion.id q2))
             (IntKey (QuizQuestion.id q1))) by congruence.
  rewrite lookup_insert_eq.
  rewrite !filter_cons, filter_nil. simpl.
  repeat case_decide; simplify_eq; done.
Qed.

End Attempt.

Section EndToEnd.

(** C3, as the code has it: with exactly three active questions, settings
    asking for 3 questions in stored order present all three in stored
    order; answering two of them correctly and one incorrectly yields a
    record with score 2 out of 3, shown with the percentage 66.7 and the
    grade D -- and, 66.7 being above the pass mark of 60, as passed.  The
    keys of the score table are positive, as the database hands them out:
    the results view takes the key 0 for no result. *)
Theorem three_question_quiz (w : World.t) (user : Z)
    (q1 q2 q3 : QuizQuestion.t) (a1 a2 a3 : string)
    (answers : gmap string string)
    (clock1 clock2 clock3 clock4 : nat -> datetime)
    (rand1 rand2 rand3 rand4 : list nat) :
  views.active_questions (World.questions w) = [q1; q2; q3] ->
  NoDup [QuizQuestion.id q1; QuizQuestion.id q2; QuizQuestion.id q3] ->
  0 < UserScore.next_id (World.userscores w) ->
  answers !! QuizForm.field_name q1 = Some a1 ->
  answers !! QuizForm.field_name q2 = Some a2 ->
  answers !! QuizForm.field_name q3 = Some a3 ->
  Forall (fun a => a ∈ ["A"; "B"; "C"; "D"]) [a1; a2; a3] ->
  length (filter (fun aq => aq.1 = QuizQuestion.correct_answer aq.2)
                 [(a1, q1); (a2, q2); (a3, q3)]) = 2%nat ->
  let settings : gmap string string :=
    <["num_questions" := "3"]> (<["difficulty" := "ALL"]> ∅) in
  let configured :=
    views.quiz_setup_view (Request.mk "POST" settings (Some user) clock1 rand1)
                          w in
  let presented :=
    views.quiz_view (Request.mk "GET" ∅ (Some user) clock2 rand2)
                    configured.2 in
  let scored :=
    views.quiz_view (Request.mk "POST" answers (Some user) clock3 rand3)
                    presented.2 in
  let shown :=
    views.quiz_results_view (Request.mk "GET" ∅ (Some user) clock4 rand4)
                            scored.2 in
  configured.1 = Redirect "quiz" /\
  Session.quiz_settings (World.session configured.2)
  = Some (QuizSettings.mk 3 "ALL" false) /\
  (exists form,
      presented.1
      = Render "quiz.html"
          (QuizContext form [q1; q2; q3] 3 (QuizSettings.mk 3 "ALL" false))) /\
  scored.1 = Redirect "quiz_results" /\
  exists record detailed_results,
    shown.1
    = Render "results.html"
        (ResultsContext record detailed_results 66.7%float "D" true) /\
    UserScore.score record = 2 /\
    UserScore.total_questions record = 3.
Proof.
  intros Hact Hnd Hnext H1 H2 H3 Htags Hcount settings.
  set (request1 := Request.mk "POST" settings (Some user) clock1 rand1).
  set (request2 := Request.mk "GET" ∅ (Some user) clock2 rand2).
  set (request3 := Request.mk "POST" answers (Some user) clock3 rand3).
  set (request4 := Request.mk "GET" ∅ (Some user) clock4 rand4).
  set (quiz_settings := QuizSettings.mk 3 "ALL" false).
  set (w1 := World.set_session
               (Session.set_quiz_settings (Some quiz_settings) (World.session w))
               w).
  set (w2 := World.set_session
               (Session.set_quiz_start_time (Some (clock2 0%nat))
                                            (World.session w1)) w1).
  assert (Hs1 : views.quiz_setup_view request1 w = (Redirect "quiz", w1)).
  { rewrite (quiz_setup_view_accepts request1 w user 3 "ALL");
      [done|done|done|done| |done].
    rewrite Hact. simpl. lia. }
  assert (Hsel : forall request w',
             World.questions w' = World.questions w ->
             Session.quiz_settings (World.session w') = Some quiz_settings ->
             questions_of request w' = Some [q1; q2; q3]).
  { intros request w' Hqs Hset.
    unfold questions_of, settings_of, views.select_questions.
    rewrite Hset, Hqs, Hact. reflexivity. }
  assert (Hs2 : views.quiz_view request2 w1
                = (Render "quiz.html"
                     (QuizContext (QuizForm.init None [q1; q2; q3]) [q1; q2; q3]
                                  3 quiz_settings), w2)).
  { rewrite (quiz_view_get request2 w1 user [q1; q2; q3]); try done.
    by apply Hsel. }
  assert (Hvalid : QuizForm.is_valid (form_of request3 [q1; q2; q3]) = true).
  { apply form_with_tags_is_valid; [done|].
    apply Forall_cons in Htags as [T1 Htags].
    apply Forall_cons in Htags as [T2 Htags].
    apply Forall_cons in Htags as [T3 _].
    repeat constructor; eauto. }
  destruct (quiz_view_scores request3 w2 user [q1; q2; q3])
    as (user_answers & Hua & Hs3); try done.
  { by apply Hsel. }
  unfold form_of in Hua. rewrite get_user_answers_valid in Hua by done.
  injection Hua as <-.
  assert (Hscore := compute_score_three answers q1 q2 q3 a1 a2 a3 Hnd H1 H2 H3).
  rewrite Hcount in Hscore.
  cbv zeta. rewrite Hs1. cbn [fst snd]. rewrite Hs2. cbn [fst snd].
  rewrite Hs3. cbn [fst snd].
  split; [done|]. split; [done|]. split; [by eexists|]. split; [done|].
  set (record := scored_row request3 w2 user [q1; q2; q3] _).
  assert (Hp : UserScore.percentage record
               = Some (UserScore.computed_percentage 2 3)).
  { exact (f_equal (fun s => Some (UserScore.computed_percentage s 3)) Hscore). }
  exists record,
    (map (views.detailed_result record) (UserScore.quiz_questions record)).
  split; [|split; [exact Hscore|done]].
  rewrite (quiz_results_view_shows request4 _ user
             (UserScore.next_id (World.userscores w)) record
             (UserScore.computed_percentage 2 3) "D" true); cbn [fst].
  - reflexivity.
  - done.
  - done.
  - lia.
  - cbn. apply lookup_insert_eq.
  - done.
  - exact Hp.
  - unfold UserScore.get_grade. by rewrite Hp.
  - unfold UserScore.is_passed. by rewrite Hp.
Qed.

End EndToEnd.

(** ** Further properties of the views *)

Section Reachable.
Implicit Types (request : Request.t) (w : World.t).

Lemma quiz_setup_view_userscores request w :
  World.userscores (views.quiz_setup_view request w).2 = World.userscores w.
Proof.
  unfold views.quiz_setup_view, views.login_required.
  destruct (Request.user request); [|done].
  destruct (decide (Request.method request = "POST")); [|done].
  set (form := QuizSettingsForm.full_clean _ _).
  destruct (QuizSettingsForm.is_valid form); [|done].
  by destruct (QuizSettingsForm.num_questions form),
       (QuizSettingsForm.difficulty form), (QuizSettingsForm.random_order form).
Qed.

Lemma quiz_results_view_userscores request w :
  World.userscores (views.quiz_results_view request w).2 = World.userscores w.
Proof.
  unfold views.quiz_results_view, views.login_required.
  destruct (Request.user request) as [user|]; [|done].
  destruct (Session.quiz_result_id (World.session w)) as [[|i|i]|]; try done.
  all: destruct (views.get_userscore _ user (World.userscores w))
         as [user_score|]; [|done].
  all: by destruct (UserScore.percentage user_score),
            (UserScore.get_grade user_score),
            (UserScore.is_passed user_score).
Qed.

(** [quiz_view] leaves the score table as it is or adds the row of the
    submission it scored. *)
Lemma quiz_view_userscores request w :
  World.userscores (views.quiz_view request w).2 = World.userscores w \/
  exists user questions user_answers,
    World.userscores (views.quiz_view request w).2
    = UserScore.mk_table
        (<[UserScore.next_id (World.userscores w)
           := scored_row request w user questions user_answers]>
           (UserScore.rows (World.userscores w)))
        (UserScore.next_id (World.userscores w) + 1).
Proof.
  destruct (Request.user request) as [user|] eqn:Hu.
  2:{ left. unfold views.quiz_view, views.login_required. by rewrite Hu. }
  destruct (questions_of request w) as [[|q qs]|] eqn:Hq.
  1,3: left; unfold views.quiz_view, views.login_required; rewrite Hu;
       fold (settings_of w); fold (questions_of request w); by rewrite Hq.
  destruct (decide (Request.method request = "POST")) as [Hm|Hm].
  - destruct (QuizForm.is_valid (form_of request (q :: qs))) eqn:Hv.
    + right.
      destruct (quiz_view_scores request w user (q :: qs))
        as (user_answers & _ & ->); try done.
      by exists user, (q :: qs), user_answers.
    + left. by rewrite (quiz_view_post_invalid request w user (q :: qs)).
  - left. by rewrite (quiz_view_get request w user (q :: qs)).
Qed.

(** X1: whatever the request, each view keeps the invariant of the score
    table: no view stores a percentage that was not computed from the score
    and the number of questions of its row. *)
Theorem views_keep_percentage_computed request w :
  percentage_is_computed (World.userscores w) ->
  percentage_is_computed (World.userscores (views.quiz_setup_view request w).2) /\
  percentage_is_computed (World.userscores (views.quiz_view request w).2) /\
  percentage_is_computed (World.userscores (views.quiz_results_view request w).2).
Proof.
  intros Hinv.
  rewrite quiz_setup_view_userscores, quiz_results_view_userscores.
  split; [done|]. split; [|done].
  destruct (quiz_view_userscores request w)
    as [->|(user & questions & user_answers & ->)]; [done|].
  intros i row. simpl.
  destruct (decide (i = UserScore.next_id (World.userscores w))) as [->|Hne].
  - rewrite lookup_insert_eq. by intros [= <-].
  - rewrite lookup_insert_ne by done. apply Hinv.
Qed.

(** X3: the results of an attempt are shown once: after the results page
    was rendered, the next visit finds no result and is sent to the home page
    with an error. *)
Theorem results_are_shown_once request again w user context :
  (views.quiz_results_view request w).1 = Render "results.html" context ->
  Request.user again = Some user ->
  views.quiz_results_view again (views.quiz_results_view request w).2
  = (Redirect "home",
     World.messages_error "No quiz results found. Please take a quiz first."
       (views.quiz_results_view request w).2).
Proof.
  intros Hshown Hu.
  assert (Hcleared : Session.quiz_result_id
                       (World.session (views.quiz_results_view request w).2)
                     = None).
  { revert Hshown. unfold views.quiz_results_view, views.login_required.
    destruct (Request.user request) as [user0|]; [|done].
    destruct (Session.quiz_result_id (World.session w)) as [[|i|i]|]; try done.
    all: destruct (views.get_userscore _ user0 (World.userscores w))
           as [user_score|]; [|done].
    all: by destruct (UserScore.percentage user_score),
              (UserScore.get_grade user_score),
              (UserScore.is_passed user_score). }
  unfold views.quiz_results_view at 1. unfold views.login_required.
  by rewrite Hu, Hcleared.
Qed.

End Reachable.

Section SelectionSpec.
Implicit Types (quiz_settings : QuizSettings.t) (rand : list nat).
Implicit Types (questions selected : list QuizQuestion.t).

(** The rows a query for the settings ranges over. *)
Lemma matching_questions quiz_settings questions :
  (if decide (QuizSettings.difficulty quiz_settings ≠ "ALL")
   then filter (fun q => QuizQuestion.difficulty_level q
                         = QuizSettings.difficulty quiz_settings)
               (views.active_questions questions)
   else views.active_questions questions)
  = filter (matches quiz_settings) questions.
Proof.
  unfold views.active_questions.
  destruct (decide (QuizSettings.difficulty quiz_settings ≠ "ALL")) as [Hd|Hd].
  - rewrite list_filter_filter. apply list_filter_iff.
    intros q. unfold matches. split.
    + intros [? ?]. split; [done|by right].
    + intros [? [?|?]]; done.
  - apply dec_stable in Hd. apply list_filter_iff.
    intros q. unfold matches. split.
    + intros ?. split; [done|by left].
    + by intros [? _].
Qed.

(** X2: the selection of questions.  Every selected question is one of the
    table that matches the settings; there are no more than asked for; a
    table without repeated rows gives a selection without repeats, in
    random order too; and in stored order the selection is the first rows
    that match, whatever the random source. *)
Theorem select_questions_spec quiz_settings rand questions selected :
  views.select_questions quiz_settings rand questions = Some selected ->
  (forall q, q ∈ selected -> q ∈ questions /\ matches quiz_settings q) /\
  Z.of_nat (length selected) <= QuizSettings.num_questions quiz_settings /\
  (NoDup questions -> NoDup selected) /\
  (QuizSettings.random_order quiz_settings = false ->
   selected
   = take (Z.to_nat (QuizSettings.num_questions quiz_settings))
          (filter (matches quiz_settings) questions) /\
   forall rand',
     views.select_questions quiz_settings rand' questions = Some selected).
Proof.
  unfold views.select_questions. rewrite matching_questions.
  set (query := filter (matches quiz_settings) questions).
  assert (Hslice : forall l, QuerySet.slice_to
                               (QuizSettings.num_questions quiz_settings) l
                             = Some selected ->
            selected = take (Z.to_nat (QuizSettings.num_questions quiz_settings)) l
            /\ 0 <= QuizSettings.num_questions quiz_settings).
  { intros l. unfold QuerySet.slice_to.
    destruct (_ <? 0) eqn:E; [done|]. intros [= <-]. split; [done|ltb_lia]. }
  intros Hsel.
  assert (exists l, l ≡ₚ query /\
            selected = take (Z.to_nat (QuizSettings.num_questions quiz_settings)) l
            /\ 0 <= QuizSettings.num_questions quiz_settings)
    as (l & Hperm & Htake & Hn).
  { destruct (QuizSettings.random_order quiz_settings).
    - eexists. split; [apply order_by_random_Permutation|by apply Hslice].
    - exists query. split; [done|by apply Hslice]. }
  split; [|split; [|split]].
  - intros q Hq. subst selected. apply subseteq_take in Hq.
    rewrite Hperm in Hq. by apply list_elem_of_filter in Hq as [? ?].
  - subst selected. rewrite length_take. lia.
  - intros H. subst selected.
    eapply sublist_NoDup; [|apply sublist_take].
    rewrite Hperm. by apply NoDup_filter.
  - intros Hstored. rewrite Hstored in Hsel.
    split; [exact (proj1 (Hslice _ Hsel))|].
    intros rand'. by rewrite Hstored.
Qed.

End SelectionSpec.

Section Reshuffle.
Implicit Types (request : Request.t) (w : World.t) (user : Z).
Implicit Types (presented questions : list QuizQuestion.t) (q : QuizQuestion.t).

(** The questions of a valid form all carry a value in the data. *)
Lemma valid_form_has_values (data : gmap string string) questions q :
  QuizForm.is_valid (QuizForm.init (Some data) questions) = true ->
  q ∈ questions ->
  exists value, data !! QuizForm.field_name q = Some value /\ value <> "".
Proof.
  intros Hvalid Hq. unfold QuizForm.is_valid, QuizForm.errors in Hvalid.
  change (QuizForm.data (QuizForm.init (Some data) questions))
    with (Some data) in Hvalid.
  apply bool_decide_eq_true_1, clean_fields_valid in Hvalid as [_ Hall].
  pose proof (init_fields_complete (Some data) questions q Hq) as Hkey.
  apply list_elem_of_fmap in Hkey as ([name field] & Hname & Hfield).
  simpl in Hname. subst name.
  rewrite Forall_forall in Hall. specialize (Hall _ Hfield). simpl in Hall.
  destruct (init_fields_sound _ _ _ _ Hfield) as (q' & _ & _ & ->).
  destruct (data !! QuizForm.field_name q) as [value|] eqn:Hv; [|done].
  exists value. split; [done|]. by intros ->.
Qed.

(** X4: the questions are selected anew when the answers arrive, in random
    order possibly other ones than were presented.  A submission that
    carries values for presented questions only, and lacks the one of a
    presented question, is rejected all the same when as many questions are
    selected as were presented: the page is rendered again and nothing is
    stored. *)
Theorem incomplete_submission_is_rejected_after_reshuffle
    request w user presented questions q :
  Request.user request = Some user ->
  Request.method request = "POST" ->
  questions_of request w = Some questions ->
  NoDup (QuizQuestion.id <$> questions) ->
  length questions = length presented ->
  q ∈ presented ->
  (forall name value,
      Request.POST request !! name = Some value -> value <> "" ->
      exists p, p ∈ presented /\ name = QuizForm.field_name p
                /\ QuizQuestion.id p <> QuizQuestion.id q) ->
  views.quiz_view request w
  = (Render "quiz.html"
       (QuizContext (form_of request questions) questions
                    (Z.of_nat (length questions)) (settings_of w)), w).
Proof.
  intros Hu Hm Hsel Hnd Hlen Hq Honly.
  apply (quiz_view_post_invalid request w user questions); try done.
  { intros ->. destruct presented; [by apply elem_of_nil in Hq|done]. }
  destruct (QuizForm.is_valid (form_of request questions)) eqn:Hvalid; [|done].
  exfalso.
  set (others := filter (fun i => i <> QuizQuestion.id q)
                        (QuizQuestion.id <$> presented)).
  assert (Hsub : forall i, i ∈ QuizQuestion.id <$> questions -> i ∈ others).
  { intros i (s & -> & Hs)%list_elem_of_fmap.
    destruct (valid_form_has_values _ _ s Hvalid Hs) as (value & Hv & Hne).
    destruct (Honly _ _ Hv Hne) as (p & Hp & Hname & Hpq).
    apply field_name_inj in Hname. rewrite Hname.
    apply list_elem_of_filter. split; [done|].
    apply list_elem_of_fmap. by exists p. }
  pose proof (submseteq_length _ _ (NoDup_submseteq _ _ Hnd Hsub)) as Hle.
  assert (length others < length (QuizQuestion.id <$> presented))%nat as Hlt.
  { apply (length_filter_lt _ _ (QuizQuestion.id q)).
    - apply list_elem_of_fmap. by exists q.
    - by intros []. }
  rewrite !length_fmap in *. lia.
Qed.

End Reshuffle.

Section Judgments.
Implicit Types (request : Request.t) (w : World.t) (user : Z).
Implicit Types (questions : list QuizQuestion.t) (q : QuizQuestion.t).

(** A dictionary keyed by integers is found again under the numerals. *)
Lemma json_roundtrip_lookup {V} (d : gmap key V) (n : Z) :
  (forall k v, d !! k = Some v -> exists m, k = IntKey m) ->
  json_roundtrip d !! StrKey (Py.str n) = d !! IntKey n.
Proof.
  unfold json_roundtrip.
  apply (map_fold_weak_ind
           (fun r m => (forall k v, m !! k = Some v -> exists m0, k = IntKey m0) ->
                       r !! StrKey (Py.str n) = m !! IntKey n)).
  - intros _. by rewrite !lookup_empty.
  - intros i x m r Hfresh IH Hkeys.
    destruct (Hkeys i x) as [m0 ->]; [apply lookup_insert_eq|]. simpl.
    assert (Hm : forall k v, m !! k = Some v -> exists m1, k = IntKey m1).
    { intros k v Hk. apply (Hkeys k v). rewrite lookup_insert_ne; [done|].
      intros <-. by rewrite Hfresh in Hk. }
    destruct (decide (n = m0)) as [->|Hne].
    + by rewrite !lookup_insert_eq.
    + rewrite !lookup_insert_ne; [by apply IH| |].
      * intros [= E]. by apply Hne.
      * intros [= E%str_inj]. by apply Hne.
Qed.

Lemma collected_answer_stays (data : gmap string string) questions
    (acc : gmap key string) (i : Z) (v : string) :
  i ∉ QuizQuestion.id <$> questions ->
  foldl (fun acc q =>
           <[IntKey (QuizQuestion.id q)
             := default "" (data !! QuizForm.field_name q)]> acc)
        (<[IntKey i := v]> acc) questions !! IntKey i = Some v.
Proof.
  revert acc. induction questions as [|q qs IH]; intros acc Hnot; simpl.
  - apply lookup_insert_eq.
  - rewrite fmap_cons in Hnot. apply not_elem_of_cons in Hnot as [Hne Hnot].
    rewrite insert_insert_ne by congruence. by apply IH.
Qed.

(** The answers collected from the fields of the questions. *)
Lemma collected_answers (data : gmap string string) questions
    (acc : gmap key string) :
  let collected :=
    foldl (fun acc q =>
             <[IntKey (QuizQuestion.id q)
               := default "" (data !! QuizForm.field_name q)]> acc)
          acc questions in
  (forall q, q ∈ questions ->
             collected !! IntKey (QuizQuestion.id q)
             = Some (default "" (data !! QuizForm.field_name q))) /\
  ((forall k v, acc !! k = Some v -> exists m, k = IntKey m) ->
   forall k v, collected !! k = Some v -> exists m, k = IntKey m).
Proof.
  revert acc. induction questions as [|q0 qs IH]; intros acc; simpl.
  - split; [by intros q ?%elem_of_nil|done].
  - destruct (IH (<[IntKey (QuizQuestion.id q0)
                    := default "" (data !! QuizForm.field_name q0)]> acc))
      as [IH1 IH2].
    split.
    + intros q [->|Hq]%elem_of_cons; [|by apply IH1].
      destruct (decide (QuizQuestion.id q0 ∈ QuizQuestion.id <$> qs))
        as [(q' & Hid & Hq')%list_elem_of_fmap|Hnot].
      * pose proof (IH1 q' Hq') as H'.
        assert (QuizForm.field_name q' = QuizForm.field_name q0) as Hfn
          by (unfold QuizForm.field_name; by rewrite Hid).
        rewrite <- Hid, Hfn in H'. exact H'.
      * by apply collected_answer_stays.
    + intros Hacc. apply IH2. intros k v.
      destruct (decide (k = IntKey (QuizQuestion.id q0))) as [->|Hne].
      * by eexists.
      * rewrite lookup_insert_ne by done. apply Hacc.
Qed.

Lemma compute_score_from (user_answers : gmap key string) questions (s : Z) :
  foldl (fun score question =>
           if decide (user_answers !! IntKey (QuizQuestion.id question)
                      = Some (QuizQuestion.correct_answer question))
           then score + 1 else score) s questions
  = s + views.compute_score user_answers questions.
Proof.
  unfold views.compute_score. revert s.
  induction questions as [|q qs IH]; intros s; simpl; [lia|].
  rewrite IH, (IH (if decide _ then 0 + 1 else 0)).
  destruct (decide _); lia.
Qed.

Lemma judgments_count (row : UserScore.t) (user_answers : gmap key string)
    questions :
  (forall q, q ∈ questions ->
     DetailedResult.is_correct (views.detailed_result row (views.question_data q))
     = bool_decide (user_answers !! IntKey (QuizQuestion.id q)
                    = Some (QuizQuestion.correct_answer q))) ->
  views.compute_score user_answers questions
  = Z.of_nat
      (length
         (filter (fun r => DetailedResult.is_correct r = true)
                 (map (views.detailed_result row)
                      (map views.question_data questions)))).
Proof.
  induction questions as [|q qs IH]; intros Hall; [done|].
  unfold views.compute_score. cbn [foldl map].
  rewrite compute_score_from, filter_cons.
  rewrite Hall by (apply elem_of_cons; by left).
  rewrite IH by (intros q' Hq'; apply Hall, elem_of_cons; by right).
  destruct (decide (user_answers !! IntKey (QuizQuestion.id q)
                    = Some (QuizQuestion.correct_answer q))) as [E|E].
  - rewrite bool_decide_eq_true_2 by done.
    rewrite decide_True by done. cbn [length]. lia.
  - rewrite bool_decide_eq_false_2 by done.
    rewrite decide_False by done. lia.
Qed.

(** X5: the score of a stored attempt is the number of questions that its
    results page marks as answered correctly, although the page finds the
    answers under the numerals that the serializer turned the integer keys
    into. *)
Theorem results_judgments_match_score request w user questions :
  Request.user request = Some user ->
  Request.method request = "POST" ->
  questions_of request w = Some questions ->
  questions <> [] ->
  NoDup (QuizQuestion.id <$> questions) ->
  QuizForm.is_valid (form_of request questions) = true ->
  exists i row,
    Session.quiz_result_id (World.session (views.quiz_view request w).2)
    = Some i /\
    UserScore.rows (World.userscores (views.quiz_view request w).2) !! i
    = Some row /\
    UserScore.score row
    = Z.of_nat
        (length
           (filter (fun r => DetailedResult.is_correct r = true)
                   (map (views.detailed_result row)
                        (UserScore.quiz_questions row)))).
Proof.
  intros Hu Hm Hq Hne Hnd Hvalid.
  destruct (quiz_view_scores request w user questions Hu Hm Hq Hne Hvalid)
    as (user_answers & Hua & ->).
  unfold form_of in Hua. rewrite get_user_answers_valid in Hua by done.
  injection Hua as Hua.
  destruct (collected_answers (Request.POST request) questions ∅)
    as [Hfound Hkeys]. cbv zeta in Hfound, Hkeys. rewrite Hua in Hfound, Hkeys.
  exists (UserScore.next_id (World.userscores w)),
         (scored_row request w user questions user_answers).
  split; [done|]. split; [simpl; apply lookup_insert_eq|].
  cbn [scored_row UserScore.score UserScore.quiz_questions].
  apply judgments_count.
  intros q Hin. unfold views.detailed_result.
  cbn [scored_row UserScore.user_answers views.question_data QuestionData.id
       QuestionData.correct_answer DetailedResult.is_correct].
  rewrite json_roundtrip_lookup.
  - rewrite (Hfound q Hin). simpl. apply bool_decide_ext.
    split; [by intros ->|by intros [= ->]].
  - apply Hkeys. intros k v. by rewrite lookup_empty.
Qed.

End Judgments.

(** ** What the views do to the score table *)

Section ScoreTable.
Implicit Types (request : Request.t) (w : World.t) (user : Z).
Implicit Types (questions : list QuizQuestion.t) (view : views.View).

(** The two outcomes of [quiz_view]: a valid submission is scored and
    redirected to the results; anything else leaves the score table alone
    and is answered otherwise. *)
Lemma quiz_view_cases request w :
  ((views.quiz_view request w).1 <> Redirect "quiz_results" /\
   World.userscores (views.quiz_view request w).2 = World.userscores w /\
   World.questions (views.quiz_view request w).2 = World.questions w) \/
  exists user questions user_answers,
    Request.user request = Some user /\
    Request.method request = "POST" /\
    questions_of request w = Some questions /\
    questions <> [] /\
    QuizForm.is_valid (form_of request questions) = true /\
    QuizForm.get_user_answers (form_of request questions) = Some user_answers /\
    views.quiz_view request w
    = (Redirect "quiz_results",
       World.mk (World.questions w)
         (UserScore.mk_table
            (<[UserScore.next_id (World.userscores w)
               := scored_row request w user questions user_answers]>
               (UserScore.rows (World.userscores w)))
            (UserScore.next_id (World.userscores w) + 1))
         (Session.mk None None (Some (UserScore.next_id (World.userscores w))))
         (World.messages w)).
Proof.
  destruct (Request.user request) as [user|] eqn:Hu.
  2:{ left. unfold views.quiz_view, views.login_required. by rewrite Hu. }
  destruct (questions_of request w) as [[|q qs]|] eqn:Hq.
  1,3: left; unfold views.quiz_view, views.login_required; rewrite Hu;
       fold (settings_of w); fold (questions_of request w); by rewrite Hq.
  destruct (decide (Request.method request = "POST")) as [Hm|Hm].
  - destruct (QuizForm.is_valid (form_of request (q :: qs))) eqn:Hv.
    + right.
      destruct (quiz_view_scores request w user (q :: qs))
        as (user_answers & Hua & Heq); try done.
      by exists user, (q :: qs), user_answers.
    + left. by rewrite (quiz_view_post_invalid request w user (q :: qs)).
  - left. by rewrite (quiz_view_get request w user (q :: qs)).
Qed.

Lemma quiz_setup_view_cases request w :
  ((forall to, (views.quiz_setup_view request w).1 = Redirect to ->
                Request.user request = None /\ to = "login") /\
   (views.quiz_setup_view request w).1 <> ServerError /\
   (views.quiz_setup_view request w).2 = w) \/
  exists n d r,
    views.quiz_setup_view request w
    = (Redirect "quiz",
       World.set_session
         (Session.set_quiz_settings (Some (QuizSettings.mk n d r))
                                    (World.session w)) w) /\
    1 <= n <= 50 /\
    n <= Z.of_nat (length (views.active_questions (World.questions w))) /\
    d ∈ QuizSettingsForm.DIFFICULTY_CHOICES.*1.
Proof.
  unfold views.quiz_setup_view, views.login_required.
  destruct (Request.user request);
    [|left; split; [by intros to [= <-]|done]].
  destruct (decide (Request.method request = "POST"));
    [|left; split; [by intros to [=]|done]].
  destruct (QuizSettingsForm.is_valid _) eqn:Hv;
    [|left; split; [by intros to [=]|done]].
  revert Hv.
  unfold QuizSettingsForm.is_valid, QuizSettingsForm.full_clean. simpl.
  destruct (QuizSettingsForm.IntegerField_clean 1 50 _) as [n|m] eqn:Hn;
    [|by intros [=]%bool_decide_eq_true_1].
  apply IntegerField_clean_accepts in Hn as [Hreq Hrange].
  unfold QuizSettingsForm.clean_num_questions.
  rewrite !total_available_active.
  destruct (_ <? n) eqn:Hav; [by intros [=]%bool_decide_eq_true_1|].
  destruct (ChoiceField.clean _ _) as [d|m] eqn:Hd;
    [|by intros [=]%bool_decide_eq_true_1].
  intros _. simpl.
  right. eexists n, d, _. split; [done|]. split; [done|]. split; [ltb_lia|].
  revert Hd. unfold ChoiceField.clean.
  destruct (decide _); [done|].
  destruct (ChoiceField.valid_value _ _) eqn:Hvv; [|done].
  intros [= <-]. by apply bool_decide_eq_true_1 in Hvv.
Qed.

(** The setup view touches neither table. *)
Lemma quiz_setup_view_tables request w :
  (views.quiz_setup_view request w).1 <> Redirect "quiz_results" /\
  (views.quiz_setup_view request w).1 <> ServerError /\
  World.userscores (views.quiz_setup_view request w).2 = World.userscores w /\
  World.questions (views.quiz_setup_view request w).2 = World.questions w.
Proof.
  destruct (quiz_setup_view_cases request w)
    as [(Hto & ? & ->)|(n & d & r & -> & _)]; [|by repeat split].
  repeat split; try done. intros Heq. by destruct (Hto _ Heq).
Qed.

Lemma quiz_results_view_cases request w :
  (views.quiz_results_view request w).1 <> Redirect "quiz_results" /\
  World.userscores (views.quiz_results_view request w).2 = World.userscores w /\
  World.questions (views.quiz_results_view request w).2 = World.questions w /\
  Session.quiz_settings (World.session (views.quiz_results_view request w).2)
  = Session.quiz_settings (World.session w).
Proof.
  unfold views.quiz_results_view, views.login_required.
  destruct (Request.user request) as [user|]; [|done].
  destruct (Session.quiz_result_id (World.session w)) as [[|i|i]|]; try done.
  all: destruct (views.get_userscore _ user (World.userscores w))
         as [user_score|]; [|done].
  all: by destruct (UserScore.percentage user_score),
            (UserScore.get_grade user_score),
            (UserScore.is_passed user_score).
Qed.

Lemma compute_score_bounds (user_answers : gmap key string) questions :
  0 <= views.compute_score user_answers questions <= Z.of_nat (length questions).
Proof.
  induction questions as [|q qs IH]; [done|].
  unfold views.compute_score. cbn [foldl]. rewrite compute_score_from.
  cbn [length]. destruct (decide _); lia.
Qed.

(** X6: whatever the request, the views keep the scores of the table
    within bounds: a score is never negative nor above the number of
    questions of its record, which is the number of questions stored with
    it and is never zero. *)
Theorem views_keep_score_bounded view request w :
  view ∈ quiz_views ->
  score_is_bounded (World.userscores w) ->
  score_is_bounded (World.userscores (view request w).2).
Proof.
  intros Hview Hinv. unfold quiz_views in Hview.
  apply elem_of_cons in Hview as [->|Hview];
    [by rewrite (proj1 (proj2 (proj2 (quiz_setup_view_tables request w))))|].
  apply elem_of_cons in Hview as [->|Hview].
  2:{ apply list_elem_of_singleton in Hview as ->.
      by rewrite (proj1 (proj2 (quiz_results_view_cases request w))). }
  destruct (quiz_view_cases request w)
    as [(_ & -> & _)|(user & questions & user_answers & _ & _ & _ & Hne & _ & _ & ->)];
    [done|].
  intros i row. simpl.
  destruct (decide (i = UserScore.next_id (World.userscores w))) as [->|Hi].
  - rewrite lookup_insert_eq. intros [= <-]. simpl.
    pose proof (compute_score_bounds user_answers questions).
    rewrite length_map. repeat split; try lia.
    destruct questions; [done|simpl; lia].
  - rewrite lookup_insert_ne by done. apply Hinv.
Qed.

(** X7: score records are only ever added, one at a time and only by a
    submission that is redirected to its results.  No view changes or removes
    a record; any response other than that redirect leaves the table as it
    was; and with the redirect exactly one record is inserted, under the next
    key of the sequence, owned by the user of the request, and the session
    points at it. *)
Theorem score_records_are_only_added view request w :
  view ∈ quiz_views ->
  keys_are_issued (World.userscores w) ->
  let tbl := World.userscores w in
  let tbl' := World.userscores (view request w).2 in
  keys_are_issued tbl' /\
  (forall i row, UserScore.rows tbl !! i = Some row ->
                 UserScore.rows tbl' !! i = Some row) /\
  ((view request w).1 <> Redirect "quiz_results" -> tbl' = tbl) /\
  ((view request w).1 = Redirect "quiz_results" ->
   exists row,
     UserScore.rows tbl !! UserScore.next_id tbl = None /\
     UserScore.rows tbl' = <[UserScore.next_id tbl := row]> (UserScore.rows tbl) /\
     UserScore.next_id tbl' = UserScore.next_id tbl + 1 /\
     UserScore.id row = Some (UserScore.next_id tbl) /\
     Request.user request = Some (UserScore.user row) /\
     Session.quiz_result_id (World.session (view request w).2)
     = Some (UserScore.next_id tbl)).
Proof.
  intros Hview Hkeys. cbv zeta.
  assert (Hfree : UserScore.rows (World.userscores w)
                  !! UserScore.next_id (World.userscores w) = None).
  { destruct (UserScore.rows _ !! _) as [row|] eqn:E; [|done].
    apply Hkeys in E. lia. }
  assert (Hsame : (view request w).1 <> Redirect "quiz_results" /\
                  World.userscores (view request w).2 = World.userscores w ->
          keys_are_issued (World.userscores (view request w).2) /\
          (forall i row, UserScore.rows (World.userscores w) !! i = Some row ->
             UserScore.rows (World.userscores (view request w).2) !! i = Some row) /\
          ((view request w).1 <> Redirect "quiz_results" ->
           World.userscores (view request w).2 = World.userscores w) /\
          ((view request w).1 = Redirect "quiz_results" ->
           exists row,
             UserScore.rows (World.userscores w)
               !! UserScore.next_id (World.userscores w) = None /\
             UserScore.rows (World.userscores (view request w).2)
             = <[UserScore.next_id (World.userscores w) := row]>
                 (UserScore.rows (World.userscores w)) /\
             UserScore.next_id (World.userscores (view request w).2)
             = UserScore.next_id (World.userscores w) + 1 /\
             UserScore.id row = Some (UserScore.next_id (World.userscores w)) /\
             Request.user request = Some (UserScore.user row) /\
             Session.quiz_result_id (World.session (view request w).2)
             = Some (UserScore.next_id (World.userscores w)))).
  { intros [Hresp Heq]. rewrite Heq. by repeat split. }
  unfold quiz_views in Hview.
  apply elem_of_cons in Hview as [->|Hview].
  { apply Hsame. destruct (quiz_setup_view_tables request w) as (? & _ & ? & _).
    by split. }
  apply elem_of_cons in Hview as [->|Hview].
  2:{ apply list_elem_of_singleton in Hview as ->.
      apply Hsame. destruct (quiz_results_view_cases request w) as (? & ? & _).
      by split. }
  clear Hsame.
  destruct (quiz_view_cases request w)
    as [(Hresp & Heq & _)|(user & questions & user_answers & Hu & _ & _ & _ & _ & _ & ->)].
  { rewrite Heq. by repeat split. }
  simpl. split; [|split; [|split]].
  - intros i row. simpl.
    destruct (decide (i = UserScore.next_id (World.userscores w))) as [->|Hi].
    + intros _. lia.
    + rewrite lookup_insert_ne by done. intros Hrow%Hkeys. lia.
  - intros i row Hrow. rewrite lookup_insert_ne; [done|].
    intros <-. by rewrite Hfree in Hrow.
  - done.
  - intros _. by eexists.
Qed.

(** X8: in a world in which every record has a percentage and the stored
    settings ask for no negative number of questions, no view fails with an
    exception of those the model follows (a negative slice bound, a field
    name that is no key, a comparison of a missing percentage, a missing
    cleaned value), and the world it leaves is of that kind again. *)
Theorem views_do_not_fail view request w :
  view ∈ quiz_views ->
  views_can_run w ->
  (view request w).1 <> ServerError /\ views_can_run (view request w).2.
Proof.
  intros Hview [Hrows Hsettings]. unfold quiz_views in Hview.
  apply elem_of_cons in Hview as [->|Hview].
  { destruct (quiz_setup_view_cases request w)
      as [(_ & Hok & ->)|(n & d & r & -> & Hn & _)]; [done|].
    split; [done|]. split; [done|].
    intros s [= <-]. simpl. lia. }
  apply elem_of_cons in Hview as [->|Hview].
  2:{ apply list_elem_of_singleton in Hview as ->.
      destruct (quiz_results_view_cases request w) as (_ & Htbl & _ & Hs).
      split; [|split; [by rewrite Htbl|by rewrite Hs]].
      unfold views.quiz_results_view, views.login_required, views.get_userscore.
      destruct (Request.user request) as [user|]; [|done].
      destruct (Session.quiz_result_id (World.session w)) as [[|i|i]|]; try done.
      all: destruct (UserScore.rows (World.userscores w) !! _)
             as [row|] eqn:Hrow; [|done]; simpl.
      all: destruct (decide (UserScore.user row = user)); [|done].
      all: destruct (Hrows _ _ Hrow) as [p Hp].
      all: unfold UserScore.get_grade, UserScore.is_passed; by rewrite Hp. }
  destruct (Request.user request) as [user|] eqn:Hu.
  2:{ unfold views.quiz_view, views.login_required. rewrite Hu. by split. }
  destruct (questions_of request w) as [[|q qs]|] eqn:Hq.
  - unfold views.quiz_view, views.login_required. rewrite Hu.
    fold (settings_of w). fold (questions_of request w). rewrite Hq.
    by split.
  - destruct (decide (Request.method request = "POST")) as [Hm|Hm].
    + destruct (QuizForm.is_valid (form_of request (q :: qs))) eqn:Hv.
      * destruct (quiz_view_scores request w user (q :: qs))
          as (user_answers & Hua & ->); try done.
        split; [done|]. split; simpl; [|done].
        intros i row.
        destruct (decide (i = UserScore.next_id (World.userscores w))) as [->|Hi].
        -- rewrite lookup_insert_eq. by intros [= <-].
        -- rewrite lookup_insert_ne by done. apply Hrows.
      * rewrite (quiz_view_post_invalid request w user (q :: qs)) by done.
        by split.
    + rewrite (quiz_view_get request w user (q :: qs)) by done.
      by split.
  - exfalso. revert Hq. unfold questions_of, views.select_questions.
    assert (0 <= QuizSettings.num_questions (settings_of w)) as Hn.
    { unfold settings_of.
      destruct (Session.quiz_settings (World.session w)) as [s|] eqn:Hs.
      - by apply Hsettings.
      - simpl. lia. }
    unfold QuerySet.slice_to.
    rewrite (proj2 (Z.ltb_ge _ _) Hn). by destruct (QuizSettings.random_order _).
Qed.

End ScoreTable.

(** ** Who sees which record *)

Section Ownership.
Implicit Types (request : Request.t) (w : World.t) (user : Z).

(** X9: the results page shows a record only to its owner: whatever is
    rendered is the record that the session points at, and it belongs to the
    user of the request.  When the session points at a record of somebody
    else, or at none, the answer is the 404 page and nothing changes. *)
Theorem results_page_shows_own_record request w user :
  Request.user request = Some user ->
  (forall template context,
      (views.quiz_results_view request w).1 = Render template context ->
      exists i record detailed_results percentage grade passed,
        context = ResultsContext record detailed_results percentage grade passed /\
        Session.quiz_result_id (World.session w) = Some i /\
        UserScore.rows (World.userscores w) !! i = Some record /\
        UserScore.user record = user) /\
  (forall i,
      Session.quiz_result_id (World.session w) = Some i ->
      i <> 0 ->
      (forall record, UserScore.rows (World.userscores w) !! i = Some record ->
                      UserScore.user record <> user) ->
      views.quiz_results_view request w = (Http404, w)).
Proof.
  intros Hu. unfold views.quiz_results_view, views.login_required.
  rewrite Hu. split.
  - intros template context.
    destruct (Session.quiz_result_id (World.session w)) as [i|]; [|done].
    assert (match views.get_userscore i user (World.userscores w) with
            | Some user_score =>
                UserScore.rows (World.userscores w) !! i = Some user_score /\
                UserScore.user user_score = user
            | None => True
            end) as Hget.
    { unfold views.get_userscore.
      destruct (UserScore.rows (World.userscores w) !! i) as [row|]; [|done].
      simpl. by destruct (decide (UserScore.user row = user)). }
    destruct i as [|i|i]; [done| |].
    all: destruct (views.get_userscore _ user (World.userscores w))
           as [user_score|]; [|done].
    all: destruct Hget as [Hrow Howner].
    all: destruct (UserScore.percentage user_score),
           (UserScore.get_grade user_score),
           (UserScore.is_passed user_score); try done.
    all: intros [= <- <-]; by eexists _, _, _, _, _, _.
  - intros i -> Hi Hforeign.
    assert (views.get_userscore i user (World.userscores w) = None) as Hget.
    { unfold views.get_userscore.
      destruct (UserScore.rows (World.userscores w) !! i) as [row|] eqn:Hrow;
        [|done].
      simpl. destruct (decide (UserScore.user row = user)); [|done].
      by destruct (Hforeign row). }
    destruct i; [done| |]; by rewrite Hget.
Qed.

End Ownership.

(** ** No question to present *)

Section NoQuestion.
Implicit Types (request : Request.t) (w : World.t) (user : Z).
Implicit Types (quiz_settings : QuizSettings.t) (rand : list nat).
Implicit Types (questions selected : list QuizQuestion.t).

(** The selection is a prefix of the matching questions in some order. *)
Lemma select_questions_take quiz_settings rand questions selected :
  views.select_questions quiz_settings rand questions = Some selected ->
  exists l,
    l ≡ₚ filter (matches quiz_settings) questions /\
    selected = take (Z.to_nat (QuizSettings.num_questions quiz_settings)) l /\
    0 <= QuizSettings.num_questions quiz_settings.
Proof.
  unfold views.select_questions. rewrite matching_questions.
  set (query := filter (matches quiz_settings) questions).
  assert (Hslice : forall l, QuerySet.slice_to
                               (QuizSettings.num_questions quiz_settings) l
                             = Some selected ->
            selected = take (Z.to_nat (QuizSettings.num_questions quiz_settings)) l
            /\ 0 <= QuizSettings.num_questions quiz_settings).
  { intros l. unfold QuerySet.slice_to.
    destruct (_ <? 0) eqn:E; [done|]. intros [= <-]. split; [done|ltb_lia]. }
  destruct (QuizSettings.random_order quiz_settings); intros Hsel.
  - eexists. split; [apply order_by_random_Permutation|by apply Hslice].
  - exists query. split; [done|by apply Hslice].
Qed.

Lemma select_questions_is_Some quiz_settings rand questions :
  0 <= QuizSettings.num_questions quiz_settings ->
  is_Some (views.select_questions quiz_settings rand questions).
Proof.
  intros Hn. unfold views.select_questions, QuerySet.slice_to.
  rewrite (proj2 (Z.ltb_ge _ _) Hn).
  by destruct (QuizSettings.random_order quiz_settings).
Qed.

(** X10: with settings that ask for at least one question, a request to
    the quiz is sent back to the setup page exactly when no active question
    matches the settings; it is then told so in a message, and the session
    and the tables stay as they were, the start time included. *)
Theorem quiz_returns_to_setup_iff_no_question request w user :
  Request.user request = Some user ->
  0 < QuizSettings.num_questions (settings_of w) ->
  ((views.quiz_view request w).1 = Redirect "quiz_setup"
   <-> filter (matches (settings_of w)) (World.questions w) = []) /\
  ((views.quiz_view request w).1 = Redirect "quiz_setup" ->
   (views.quiz_view request w).2
   = World.messages_error
       "No questions available for the selected criteria." w).
Proof.
  intros Hu Hn.
  destruct (select_questions_is_Some (settings_of w) (Request.rand request)
              (World.questions w)) as [selected Hsel]; [lia|].
  destruct (select_questions_take _ _ _ _ Hsel) as (l & Hperm & Htake & _).
  assert (Hempty : selected = []
                   <-> filter (matches (settings_of w)) (World.questions w) = []).
  { split.
    - intros ->. apply Permutation_nil. rewrite <- Hperm.
      destruct l as [|x l]; [done|].
      destruct (Z.to_nat (QuizSettings.num_questions (settings_of w))) eqn:E;
        [lia|done].
    - intros Hnone. rewrite Hnone in Hperm. symmetry in Hperm.
      apply Permutation_nil in Hperm.
      subst l. subst selected. apply take_nil. }
  destruct selected as [|q qs].
  - assert (views.quiz_view request w
            = (Redirect "quiz_setup",
               World.messages_error
                 "No questions available for the selected criteria." w)) as ->.
    { unfold views.quiz_view, views.login_required. rewrite Hu.
      fold (settings_of w). by rewrite Hsel. }
    split; [|done]. split; [intros _; by apply Hempty|done].
  - assert ((views.quiz_view request w).1 <> Redirect "quiz_setup") as Hresp.
    { destruct (decide (Request.method request = "POST")) as [Hm|Hm].
      - destruct (QuizForm.is_valid (form_of request (q :: qs))) eqn:Hv.
        + destruct (quiz_view_scores request w user (q :: qs))
            as (user_answers & _ & ->); done.
        + by rewrite (quiz_view_post_invalid request w user (q :: qs)).
      - by rewrite (quiz_view_get request w user (q :: qs)). }
    split; [|done]. split; [done|].
    intros Hnone. by apply Hempty in Hnone.
Qed.

End NoQuestion.

(** ** Which submissions are valid *)

Section ValidSubmissions.
Implicit Types (questions : list QuizQuestion.t) (q : QuizQuestion.t).
Implicit Types (data : gmap string string).

Lemma clean_field_for_accepts q (raw : option string) (value : string) :
  ChoiceField.clean (QuizForm.field_for q) raw = inl value ->
  raw = Some value /\ value ∈ tags.
Proof.
  unfold ChoiceField.clean, ChoiceField.valid_value. simpl.
  destruct (decide (default "" raw = "")); [done|].
  destruct (bool_decide _) eqn:Hv; [|done].
  apply bool_decide_eq_true_1 in Hv. intros [= <-].
  destruct raw; [done|]. by destruct n.
Qed.

(** In a valid form every question of the quiz has its tag. *)
Lemma valid_form_has_tags data questions q :
  QuizForm.is_valid (QuizForm.init (Some data) questions) = true ->
  q ∈ questions ->
  exists tag, data !! QuizForm.field_name q = Some tag /\ tag ∈ tags.
Proof.
  intros Hvalid Hq. unfold QuizForm.is_valid, QuizForm.errors in Hvalid.
  change (QuizForm.data (QuizForm.init (Some data) questions))
    with (Some data) in Hvalid.
  apply bool_decide_eq_true_1, clean_fields_valid in Hvalid as [_ Hall].
  pose proof (init_fields_complete (Some data) questions q Hq) as Hkey.
  apply list_elem_of_fmap in Hkey as ([name field] & Hname & Hfield).
  simpl in Hname. subst name.
  rewrite Forall_forall in Hall. specialize (Hall _ Hfield). simpl in Hall.
  destruct (init_fields_sound _ _ _ _ Hfield) as (q' & _ & _ & ->).
  apply clean_field_for_accepts in Hall as [Hraw Htag].
  by eexists.
Qed.

(** X11: the submissions that the quiz form accepts are exactly those in
    which the field of every question of the quiz carries one of the tags
    A, B, C and D; an unbound form, as the one of a page load, is never
    valid. *)
Theorem quiz_form_accepts_exactly_tagged_answers data questions :
  (QuizForm.is_valid (QuizForm.init (Some data) questions) = true
   <-> forall q, q ∈ questions ->
         exists tag, data !! QuizForm.field_name q = Some tag /\ tag ∈ tags) /\
  QuizForm.is_valid (QuizForm.init None questions) = false.
Proof.
  split; [|done]. split.
  - intros Hvalid q Hq. by apply (valid_form_has_tags data questions).
  - intros Hall. unfold QuizForm.is_valid, QuizForm.errors.
    change (QuizForm.data (QuizForm.init (Some data) questions)) with (Some data).
    apply bool_decide_eq_true_2, clean_fields_all_valid.
    apply Forall_forall. intros [name field] Hfield. simpl.
    destruct (init_fields_sound _ _ _ _ Hfield) as (q & Hq & -> & ->).
    destruct (Hall q Hq) as (tag & -> & Htag).
    exists tag. by apply clean_field_for_tag.
Qed.

End ValidSubmissions.

(** ** From the submission to the results page *)

Section ResultsOfSubmission.
Implicit Types (request again : Request.t) (w : World.t) (user : Z).
Implicit Types (questions : list QuizQuestion.t) (q : QuizQuestion.t).

(** The choice map stored with a question holds the four choices. *)
Lemma choices_lookup q (tag text : string) :
  (tag, text) ∈ QuizQuestion.get_choices q ->
  QuestionData.choices (views.question_data q) !! tag = Some text.
Proof.
  intros Hin. unfold views.question_data. cbn [QuestionData.choices].
  apply elem_of_list_to_map_1; [|done].
  unfold QuizQuestion.get_choices. cbn [fmap list_fmap fst].
  compute_done.
Qed.

Lemma choices_lookup_tag q (tag : string) :
  tag ∈ tags ->
  exists text, (tag, text) ∈ QuizQuestion.get_choices q /\
               QuestionData.choices (views.question_data q) !! tag = Some text.
Proof.
  intros Htag. unfold tags in Htag.
  assert (exists text, (tag, text) ∈ QuizQuestion.get_choices q) as [text Hin].
  { unfold QuizQuestion.get_choices.
    rewrite !elem_of_cons, elem_of_nil in Htag.
    destruct Htag as [->|[->|[->|[->|[]]]]]; eexists.
    - apply elem_of_cons; by left.
    - do 1 (apply elem_of_cons; right). apply elem_of_cons; by left.
    - do 2 (apply elem_of_cons; right). apply elem_of_cons; by left.
    - do 3 (apply elem_of_cons; right). apply elem_of_cons; by left. }
  exists text. split; [done|by apply choices_lookup].
Qed.

(** [get_correct_choice_text] reads the same choices as the results page
    does. *)
Lemma get_correct_choice_text_lookup q :
  QuizQuestion.get_correct_choice_text q
  = default "" (QuestionData.choices (views.question_data q)
                  !! QuizQuestion.correct_answer q).
Proof.
  unfold QuizQuestion.get_correct_choice_text, views.question_data,
    QuizQuestion.get_choices. cbn [QuestionData.choices list_to_map foldr
    uncurry fst snd curry].
  reflexivity.
Qed.

(** X12: what the results page says about a submission that was scored.
    The page of the same user shows one entry per question of the quiz, in
    their order; the entry of a question has its text, the tag that was
    submitted for it and the text of that choice, the correct tag, and the
    judgment whether the two tags are the same.  The text of the correct
    choice is the one of [get_correct_choice_text] when the correct tag is
    one of A, B, C and D, and [Unknown] otherwise, where
    [get_correct_choice_text] has the empty text. *)
Theorem results_page_of_a_submission request again w user questions :
  Request.user request = Some user ->
  Request.method request = "POST" ->
  questions_of request w = Some questions ->
  questions <> [] ->
  NoDup (QuizQuestion.id <$> questions) ->
  QuizForm.is_valid (form_of request questions) = true ->
  UserScore.next_id (World.userscores w) <> 0 ->
  Request.user again = Some user ->
  exists record detailed_results percentage grade passed,
    (views.quiz_results_view again (views.quiz_view request w).2).1
    = Render "results.html"
        (ResultsContext record detailed_results percentage grade passed) /\
    UserScore.user record = user /\
    length detailed_results = length questions /\
    forall k q,
      questions !! k = Some q ->
      exists tag entry,
        Request.POST request !! QuizForm.field_name q = Some tag /\
        detailed_results !! k = Some entry /\
        DetailedResult.question entry = QuizQuestion.question_text q /\
        DetailedResult.user_answer entry = tag /\
        (tag, DetailedResult.user_text entry) ∈ QuizQuestion.get_choices q /\
        DetailedResult.correct_answer entry = QuizQuestion.correct_answer q /\
        DetailedResult.is_correct entry
        = bool_decide (tag = QuizQuestion.correct_answer q) /\
        DetailedResult.correct_text entry
        = if decide (QuizQuestion.correct_answer q ∈ tags)
          then QuizQuestion.get_correct_choice_text q
          else "Unknown".
Proof.
  intros Hu Hm Hq Hne Hnd Hvalid Hid Hagain.
  destruct (quiz_view_scores request w user questions Hu Hm Hq Hne Hvalid)
    as (user_answers & Hua & ->).
  unfold form_of in Hua. rewrite get_user_answers_valid in Hua by done.
  injection Hua as Hua.
  destruct (collected_answers (Request.POST request) questions ∅)
    as [Hfound Hkeys]. cbv zeta in Hfound, Hkeys. rewrite Hua in Hfound, Hkeys.
  set (record := scored_row request w user questions user_answers).
  assert (exists grade, UserScore.get_grade record = Some grade) as [grade Hg]
    by (eexists; reflexivity).
  assert (exists passed, UserScore.is_passed record = Some passed)
    as [passed Hp] by (eexists; reflexivity).
  cbn [snd].
  erewrite (quiz_results_view_shows again _ user
              (UserScore.next_id (World.userscores w)) record);
    [|done|done|done|apply lookup_insert_eq|done|reflexivity|exact Hg|exact Hp].
  eexists record, _, _, grade, passed. split; [reflexivity|].
  split; [done|]. split.
  { rewrite length_map. unfold record.
    cbn [scored_row UserScore.quiz_questions]. by rewrite length_map. }
  intros k q Hk.
  assert (q ∈ questions) as Hin by by eapply list_elem_of_lookup_2.
  destruct (valid_form_has_tags (Request.POST request) questions q Hvalid Hin)
    as (tag & Htag & Htags).
  destruct (choices_lookup_tag q tag Htags) as (text & Htext & Hchoice).
  exists tag, (views.detailed_result record (views.question_data q)).
  split; [done|]. split.
  { cbn [record scored_row UserScore.quiz_questions].
    by rewrite !list_lookup_fmap, Hk. }
  assert (default "Not answered"
            (UserScore.user_answers record
               !! StrKey (Py.str (QuestionData.id (views.question_data q))))
          = tag) as Hanswer.
  { cbn [record scored_row UserScore.user_answers views.question_data
         QuestionData.id].
    rewrite json_roundtrip_lookup.
    - by rewrite (Hfound q Hin), Htag.
    - apply Hkeys. intros k0 v. by rewrite lookup_empty. }
  unfold views.detailed_result. rewrite Hanswer.
  cbn [DetailedResult.question DetailedResult.user_answer
       DetailedResult.user_text DetailedResult.correct_answer
       DetailedResult.is_correct DetailedResult.correct_text].
  rewrite Hchoice. repeat split; try done.
  destruct (decide (QuizQuestion.correct_answer q ∈ tags)) as [Hc|Hc].
  - rewrite get_correct_choice_text_lookup.
    destruct (choices_lookup_tag q _ Hc) as (text' & _ & Hc').
    change (QuestionData.correct_answer (views.question_data q))
      with (QuizQuestion.correct_answer q).
    by rewrite Hc'.
  - change (QuestionData.correct_answer (views.question_data q))
      with (QuizQuestion.correct_answer q).
    destruct (QuestionData.choices (views.question_data q)
                !! QuizQuestion.correct_answer q) as [text'|] eqn:E; [|done].
    exfalso. apply Hc.
    apply elem_of_list_to_map_2 in E.
    change tags with (QuizQuestion.get_choices q).*1.
    apply list_elem_of_fmap. by exists (QuizQuestion.correct_answer q, text').
Qed.

End ResultsOfSubmission.

(** ** From the settings to the quiz, and a submission sent twice *)

Section Flow.
Implicit Types (request setup present : Request.t) (w : World.t) (user : Z).
Implicit Types (questions : list QuizQuestion.t) (q : QuizQuestion.t).

(** X13: settings that the setup form accepted are the settings of the
    quiz that follows.  They ask for 1 to 50 questions and for one of the
    four difficulties.  The quiz page that follows presents as many
    questions as were asked for, or all that match when these are fewer;
    for the difficulty ALL it is always as many as were asked for, since
    the form counted the active questions of every difficulty. *)
Theorem accepted_settings_are_served setup present w user :
  (views.quiz_setup_view setup w).1 = Redirect "quiz" ->
  Request.user present = Some user ->
  Request.method present <> "POST" ->
  let w1 := (views.quiz_setup_view setup w).2 in
  exists quiz_settings,
    Session.quiz_settings (World.session w1) = Some quiz_settings /\
    1 <= QuizSettings.num_questions quiz_settings <= 50 /\
    QuizSettings.difficulty quiz_settings
      ∈ QuizSettingsForm.DIFFICULTY_CHOICES.*1 /\
    (forall template form questions question_count quiz_settings',
        (views.quiz_view present w1).1
        = Render template
            (QuizContext form questions question_count quiz_settings') ->
        quiz_settings' = quiz_settings /\
        question_count = Z.of_nat (length questions) /\
        question_count
        = Z.min (QuizSettings.num_questions quiz_settings)
                (Z.of_nat (length (filter (matches quiz_settings)
                                          (World.questions w))))) /\
    (QuizSettings.difficulty quiz_settings = "ALL" ->
     exists form questions,
       (views.quiz_view present w1).1
       = Render "quiz.html"
           (QuizContext form questions
              (QuizSettings.num_questions quiz_settings) quiz_settings)).
Proof.
  intros Haccepted Hu Hm. cbv zeta.
  destruct (quiz_setup_view_cases setup w)
    as [(Hne & _)|(n & d & r & Heq & Hn & Hav & Hd)];
    [by destruct (Hne _ Haccepted)|].
  rewrite Heq. cbn [snd]. clear Haccepted Heq.
  set (quiz_settings := QuizSettings.mk n d r).
  set (w1 := World.set_session _ w).
  exists quiz_settings. split; [done|]. split; [done|]. split; [done|].
  assert (Hsettings : settings_of w1 = quiz_settings) by done.
  destruct (select_questions_is_Some quiz_settings (Request.rand present)
              (World.questions w)) as [questions Hsel]; [simpl; lia|].
  destruct (select_questions_take _ _ _ _ Hsel) as (l & Hperm & Htake & _).
  assert (Hlen : Z.of_nat (length questions)
                 = Z.min n (Z.of_nat (length (filter (matches quiz_settings)
                                                (World.questions w))))).
  { rewrite Htake, length_take, Hperm. simpl. lia. }
  assert (Hq : questions_of present w1 = Some questions).
  { unfold questions_of. by rewrite Hsettings. }
  assert (Hview : questions <> [] ->
            views.quiz_view present w1
            = (Render "quiz.html"
                 (QuizContext (QuizForm.init None questions) questions
                    (Z.of_nat (length questions)) quiz_settings),
               World.set_session
                 (Session.set_quiz_start_time (Some (Request.clock present 0%nat))
                                              (World.session w1)) w1)).
  { intros Hne. by rewrite (quiz_view_get present w1 user questions). }
  split.
  - intros template form questions' question_count quiz_settings'.
    destruct questions as [|q qs].
    + unfold views.quiz_view, views.login_required. rewrite Hu.
      fold (settings_of w1). fold (questions_of present w1). by rewrite Hq.
    + rewrite Hview by done. intros [= <- <- <- <- <-].
      split; [done|]. split; [done|exact Hlen].
  - intros Hall.
    assert (filter (matches quiz_settings) (World.questions w)
            = views.active_questions (World.questions w)) as Hmatch.
    { unfold views.active_questions. apply list_filter_iff.
      intros q. unfold matches. split; [by intros [? _]|].
      intros ?. split; [done|by left]. }
    rewrite Hmatch in Hlen.
    assert (Z.of_nat (length questions) = n) as Hexact by lia.
    eexists _, questions. rewrite Hview; [by rewrite Hexact|].
    intros ->. simpl in Hexact. lia.
Qed.

(** X14: a submission that is sent again is scored again.  After a
    submission was scored the session has no settings, so a second request
    with the same data runs with the defaults; when these select the same
    questions, which is so when the quiz ran with the defaults and the
    random order comes out the same, it is valid again and a second record
    is stored under the next key, with the same score, number of questions,
    answers and questions as the first, and the time between its own two
    readings of the clock. *)
Theorem repeated_submission_is_scored_again request again w user questions :
  Request.user request = Some user ->
  Request.method request = "POST" ->
  questions_of request w = Some questions ->
  questions <> [] ->
  QuizForm.is_valid (form_of request questions) = true ->
  Request.user again = Some user ->
  Request.method again = "POST" ->
  Request.POST again = Request.POST request ->
  views.select_questions views.default_settings (Request.rand again)
                         (World.questions w) = Some questions ->
  let tbl := World.userscores w in
  let once := views.quiz_view request w in
  let twice := views.quiz_view again once.2 in
  exists first second,
    once.1 = Redirect "quiz_results" /\
    twice.1 = Redirect "quiz_results" /\
    UserScore.rows (World.userscores twice.2)
    = <[UserScore.next_id tbl + 1 := second]>
        (<[UserScore.next_id tbl := first]> (UserScore.rows tbl)) /\
    Session.quiz_result_id (World.session twice.2)
    = Some (UserScore.next_id tbl + 1) /\
    UserScore.user second = user /\
    UserScore.score second = UserScore.score first /\
    UserScore.total_questions second = UserScore.total_questions first /\
    UserScore.percentage second = UserScore.percentage first /\
    UserScore.user_answers second = UserScore.user_answers first /\
    UserScore.quiz_questions second = UserScore.quiz_questions first /\
    UserScore.time_taken second
    = Some (Request.clock again 1%nat - Request.clock again 0%nat).
Proof.
  intros Hu Hm Hq Hne Hvalid Hu' Hm' Hdata Hdefault. cbv zeta.
  destruct (quiz_view_scores request w user questions Hu Hm Hq Hne Hvalid)
    as (user_answers & Hua & ->).
  cbn [fst snd].
  set (w1 := World.mk _ _ _ _).
  assert (Hq1 : questions_of again w1 = Some questions) by exact Hdefault.
  assert (Hform : form_of again questions = form_of request questions)
    by (unfold form_of; by rewrite Hdata).
  rewrite <- Hform in Hvalid, Hua.
  destruct (quiz_view_scores again w1 user questions Hu' Hm' Hq1 Hne Hvalid)
    as (user_answers' & Hua' & ->).
  rewrite Hua in Hua'. injection Hua' as <-.
  eexists _, _. split; [done|]. split; [done|].
  split; [reflexivity|]. by repeat split.
Qed.

End Flow.

(** ** The admin site *)

Section Admin.
Implicit Types (w : World.t) (selected : list Z) (q : QuizQuestion.t).
Implicit Types (questions rows table copies : list QuizQuestion.t).
Implicit Types (quiz_settings : QuizSettings.t) (rand : list nat).

(** The selection of a quiz reads the active questions only. *)
Lemma select_questions_active quiz_settings rand questions questions' :
  views.active_questions questions = views.active_questions questions' ->
  views.select_questions quiz_settings rand questions
  = views.select_questions quiz_settings rand questions'.
Proof. intros H. unfold views.select_questions. by rewrite H. Qed.

Lemma active_after_update selected questions :
  views.active_questions
    (map (fun q => if decide (QuizQuestion.id q ∈ selected)
                   then QuizQuestionAdmin.set_is_active false q else q)
         questions)
  = views.active_questions
      (filter (fun q => QuizQuestion.id q ∉ selected) questions).
Proof.
  unfold views.active_questions.
  induction questions as [|q qs IH]; [done|].
  cbn [map]. rewrite (filter_cons (fun q => QuizQuestion.id q ∉ selected)).
  destruct (decide (QuizQuestion.id q ∈ selected)) as [Hin|Hin].
  - rewrite decide_False by (intros H; by apply H).
    rewrite filter_cons. by rewrite decide_False by done.
  - rewrite decide_True by done. rewrite !filter_cons, IH. done.
Qed.

(** X15: deactivating questions takes them out of every quiz.  Whatever
    the settings and the random source, the selection after the action is
    the one from the table without the ticked rows; the other rows are as
    they were, no row is removed, the score table is untouched, and the
    message counts the ticked rows, those that were inactive before
    included. *)
Theorem deactivated_questions_are_not_presented selected w :
  let w' := admin.deactivate_questions selected w in
  (forall quiz_settings rand,
      views.select_questions quiz_settings rand (World.questions w')
      = views.select_questions quiz_settings rand
          (filter (fun q => QuizQuestion.id q ∉ selected) (World.questions w))) /\
  (forall quiz_settings rand questions q,
      views.select_questions quiz_settings rand (World.questions w')
      = Some questions ->
      q ∈ questions ->
      (QuizQuestion.id q ∉ selected) /\ q ∈ World.questions w) /\
  (QuizQuestion.id <$> World.questions w')
  = (QuizQuestion.id <$> World.questions w) /\
  filter (fun q => QuizQuestion.id q ∉ selected) (World.questions w')
  = filter (fun q => QuizQuestion.id q ∉ selected) (World.questions w) /\
  World.userscores w' = World.userscores w /\
  World.messages w'
  = (World.messages w ++
     [Py.str (Z.of_nat (length (filter (fun q => QuizQuestion.id q ∈ selected)
                                       (World.questions w))))
      +:+ " questions were successfully deactivated."])%list.
Proof.
  cbv zeta.
  assert (Hsel : forall quiz_settings rand,
      views.select_questions quiz_settings rand
        (World.questions (admin.deactivate_questions selected w))
      = views.select_questions quiz_settings rand
          (filter (fun q => QuizQuestion.id q ∉ selected) (World.questions w))).
  { intros quiz_settings rand. apply select_questions_active.
    apply active_after_update. }
  split; [done|]. split; [|split; [|split; [|split]]]; try done.
  - intros quiz_settings rand questions q Hq Hin. rewrite Hsel in Hq.
    destruct (select_questions_take _ _ _ _ Hq) as (l & Hperm & -> & _).
    apply subseteq_take in Hin. rewrite Hperm in Hin.
    apply list_elem_of_filter in Hin as [_ Hin].
    apply list_elem_of_filter in Hin as [Hnot Hin]. by split.
  - cbn [admin.deactivate_questions admin.message_user World.questions
         QuizQuestionAdmin.update_is_active World.set_questions].
    rewrite <- list_fmap_compose. apply list_fmap_ext.
    intros i q _. simpl. by destruct (decide _).
  - cbn [admin.deactivate_questions admin.message_user World.questions
         QuizQuestionAdmin.update_is_active World.set_questions].
    clear Hsel. induction (World.questions w) as [|q qs IH]; [done|].
    cbn [map]. rewrite !filter_cons.
    destruct (decide (QuizQuestion.id q ∈ selected)) as [Hin|Hin].
    + simpl. rewrite !decide_False by (intros H; by apply H). apply IH.
    + rewrite !decide_True by done. by rewrite IH.
Qed.

(** X16: activation undoes deactivation.  When the ticked questions were
    all active, deactivating and then activating the same selection gives
    the question table back as it was. *)
Theorem activation_undoes_deactivation selected w :
  (forall q, q ∈ World.questions w -> QuizQuestion.id q ∈ selected ->
             QuizQuestion.is_active q = true) ->
  World.questions
    (admin.activate_questions selected (admin.deactivate_questions selected w))
  = World.questions w.
Proof.
  intros Hactive.
  cbn [admin.activate_questions admin.deactivate_questions admin.message_user
       World.questions QuizQuestionAdmin.update_is_active World.set_questions].
  rewrite <- list_fmap_compose.
  transitivity (id <$> World.questions w); [|apply list_fmap_id].
  apply Forall_fmap_ext. apply Forall_forall. intros q Hq. simpl.
  destruct (decide (QuizQuestion.id q ∈ selected)) as [Hin|Hin].
  - simpl. rewrite decide_True by done.
    pose proof (Hactive q Hq Hin) as Ha. destruct q. simpl in *. by subst.
  - by rewrite decide_False by done.
Qed.

(** What the loop of [duplicate_questions] leaves. *)
Lemma duplicate_loop_spec rows table (next_id duplicated : Z) :
  exists copies,
    admin.duplicate_loop rows table next_id duplicated
    = ((copies ++ table)%list,
       next_id + Z.of_nat (length rows),
       duplicated + Z.of_nat (length rows)) /\
    length copies = length rows /\
    Forall (fun copy =>
              next_id <= QuizQuestion.id copy < next_id + Z.of_nat (length rows) /\
              exists q, q ∈ rows /\ copy = admin.copy_of (QuizQuestion.id copy) q)
           copies /\
    NoDup (QuizQuestion.id <$> copies).
Proof.
  revert table next_id duplicated.
  induction rows as [|q rest IH]; intros table next_id duplicated.
  { exists []. cbn [admin.duplicate_loop length]. rewrite !Z.add_0_r.
    repeat split; [constructor|constructor]. }
  destruct (IH (admin.copy_of next_id q :: table) (next_id + 1) (duplicated + 1))
    as (copies & Heq & Hlen & Hall & Hnd).
  exists (copies ++ [admin.copy_of next_id q])%list.
  cbn [admin.duplicate_loop]. rewrite Heq. split; [|split; [|split]].
  - rewrite <- app_assoc. cbn [length app]. f_equal; [f_equal|]; lia.
  - rewrite length_app. cbn [length]. lia.
  - apply Forall_app. split.
    + eapply Forall_impl; [exact Hall|].
      intros copy [Hrange (q' & Hq' & Hcopy)]. split; [cbn [length]; lia|].
      exists q'. split; [apply elem_of_cons; by right|done].
    + constructor; [|constructor]. split; [simpl; lia|].
      exists q. split; [apply elem_of_cons; by left|done].
  - rewrite fmap_app. apply NoDup_app. split; [done|]. split.
    + intros i Hi [->|[]%elem_of_nil]%elem_of_cons.
      apply list_elem_of_fmap in Hi as (copy & Hid & Hcopy).
      rewrite Forall_forall in Hall. destruct (Hall _ Hcopy) as [Hrange _].
      simpl in Hid. lia.
    + apply NoDup_singleton.
Qed.

(** X17: duplicating questions adds inactive copies and leaves the rest
    alone.  The table after the action is the old one with one copy per
    ticked row put in front; the sequence has advanced by their number,
    which the message reports; each copy is the copy of a ticked row under a
    key of its own, inactive and with the marked text; keys that were
    distinct and issued by the sequence stay so; and no quiz is selected
    differently, whatever the settings and the random source. *)
Theorem duplicates_are_inactive_copies selected (next_id : Z) w :
  (forall q, q ∈ World.questions w -> QuizQuestion.id q < next_id) ->
  let w' := (admin.duplicate_questions selected next_id w).1 in
  let next_id' := (admin.duplicate_questions selected next_id w).2 in
  exists copies,
    World.questions w' = (copies ++ World.questions w)%list /\
    length copies = length (admin.queryset selected w) /\
    next_id' = next_id + Z.of_nat (length copies) /\
    (forall copy, copy ∈ copies ->
       exists q, q ∈ World.questions w /\ QuizQuestion.id q ∈ selected /\
                 copy = admin.copy_of (QuizQuestion.id copy) q /\
                 QuizQuestion.is_active copy = false /\
                 QuizQuestion.question_text copy
                 = "[COPY] " +:+ QuizQuestion.question_text q /\
                 next_id <= QuizQuestion.id copy < next_id') /\
    (forall q, q ∈ World.questions w' -> QuizQuestion.id q < next_id') /\
    (NoDup (QuizQuestion.id <$> World.questions w) ->
     NoDup (QuizQuestion.id <$> World.questions w')) /\
    (forall quiz_settings rand,
        views.select_questions quiz_settings rand (World.questions w')
        = views.select_questions quiz_settings rand (World.questions w)) /\
    World.userscores w' = World.userscores w /\
    World.messages w'
    = (World.messages w ++
       [Py.str (Z.of_nat (length copies))
        +:+ " questions were successfully duplicated (marked as inactive)."])%list.
Proof.
  intros Hkeys. cbv zeta. unfold admin.duplicate_questions.
  destruct (duplicate_loop_spec (admin.queryset selected w) (World.questions w)
              next_id 0) as (copies & -> & Hlen & Hall & Hnd).
  cbn [fst snd admin.message_user World.set_questions World.questions
       World.userscores World.messages].
  rewrite Forall_forall in Hall.
  exists copies. rewrite Hlen.
  split; [done|]. split; [done|]. split; [done|].
  assert (Hcopy : forall copy, copy ∈ copies ->
            exists q, q ∈ World.questions w /\ QuizQuestion.id q ∈ selected /\
              copy = admin.copy_of (QuizQuestion.id copy) q /\
              QuizQuestion.is_active copy = false /\
              QuizQuestion.question_text copy
              = "[COPY] " +:+ QuizQuestion.question_text q /\
              next_id <= QuizQuestion.id copy
              < next_id + Z.of_nat (length (admin.queryset selected w))).
  { intros copy Hin. destruct (Hall copy Hin) as [Hrange (q & Hq & Heq)].
    apply list_elem_of_filter in Hq as [Hsel Hq].
    exists q. repeat split; try done; try lia; by rewrite Heq. }
  split; [done|]. split; [|split; [|split]].
  - intros q [Hin|Hin]%elem_of_app.
    + destruct (Hcopy q Hin) as (_ & _ & _ & _ & _ & _ & ?). lia.
    + apply Hkeys in Hin. lia.
  - intros Hold. rewrite fmap_app. apply NoDup_app. split; [done|].
    split; [|done].
    intros i (copy & -> & Hin)%list_elem_of_fmap (q & Hid & Hq)%list_elem_of_fmap.
    destruct (Hcopy copy Hin) as (_ & _ & _ & _ & _ & _ & Hrange & _).
    apply Hkeys in Hq. lia.
  - intros quiz_settings rand. apply select_questions_active.
    unfold views.active_questions. rewrite filter_app.
    assert (filter (fun q => QuizQuestion.is_active q = true) copies = [])
      as ->; [|done].
    clear Hall Hnd Hlen. induction copies as [|copy copies IH]; [done|].
    rewrite filter_cons.
    destruct (Hcopy copy) as (_ & _ & _ & _ & Hinactive & _);
      [apply elem_of_cons; by left|].
    rewrite decide_False by (by rewrite Hinactive).
    apply IH. intros copy' Hin. apply Hcopy, elem_of_cons. by right.
  - by rewrite Z.add_0_l.
Qed.

(** X18: the preview of a question in the change list, for a text of the
    characters [cps]: the text itself when it has at most 100 characters,
    and otherwise its first 100 characters followed by three dots, 103
    characters in all; it never has more than 103 characters.  Characters
    are counted, not bytes: a text of 60 accented letters is its own
    preview. *)
Theorem question_preview_is_bounded (obj : QuizQuestion.t) (cps : list Z) :
  Py.codepoints (QuizQuestion.question_text obj) = Some cps ->
  let text := QuizQuestion.question_text obj in
  let preview := admin.question_preview obj in
  ((length cps <= 100)%nat -> preview = text) /\
  ((100 < length cps)%nat ->
   preview = Py.slice_to 100 text +:+ "..." /\
   Py.codepoints preview = Some (take 100 cps ++ [46; 46; 46])%list /\
   String.prefix (Py.slice_to 100 text) text = true) /\
  exists shown,
    Py.codepoints preview = Some shown /\
    Py.len preview = length shown /\
    (length shown <= 103)%nat.
Proof.
  intros Hcps. cbv zeta. unfold admin.question_preview.
  set (text := QuizQuestion.question_text obj) in *.
  rewrite (len_codepoints text cps Hcps).
  assert (Hcut : Py.codepoints (Py.slice_to 100 text +:+ "...")
                 = Some (take 100 cps ++ [46; 46; 46])%list).
  { apply codepoints_append; [by apply slice_to_codepoints|done]. }
  destruct (100 <? length cps)%nat eqn:E.
  - apply Nat.ltb_lt in E.
    split; [lia|]. split.
    + intros _. split; [done|]. split; [done|apply slice_to_prefix].
    + eexists. split; [exact Hcut|]. split; [by apply len_codepoints|].
      rewrite length_app, length_take. cbn [length]. lia.
  - apply Nat.ltb_ge in E.
    rewrite slice_to_all by (by rewrite (len_codepoints text cps Hcps)).
    split; [done|]. split; [lia|].
    exists cps. split; [done|]. split; [by apply len_codepoints|lia].
Qed.

End Admin.

(** ** The history page *)

Section History.
Implicit Types (request viewer : Request.t) (w : World.t) (user : Z).
Implicit Types (questions : list QuizQuestion.t) (tbl : UserScore.table).
Implicit Types (l : list UserScore.t) (row : UserScore.t).

Variable order_by_completed_at : list UserScore.t -> list UserScore.t.
Variable first_by_percentage : list UserScore.t -> option UserScore.t.
Variable Avg_percentage : list UserScore.t -> option float.

(** Ordering a query set neither adds nor drops a row. *)
Hypothesis order_by_Permutation : forall l, order_by_completed_at l ≡ₚ l.

Let user_history_view :=
  history.user_history_view order_by_completed_at first_by_percentage
                            Avg_percentage.

Lemma sum_from (a : Z) (xs : list Z) : foldl Z.add a xs = a + Py.sum xs.
Proof.
  unfold Py.sum. revert a.
  induction xs as [|x xs IH]; intros a; cbn [foldl]; [lia|].
  rewrite (IH (a + x)), (IH (0 + x)). lia.
Qed.

Lemma sum_cons (x : Z) (xs : list Z) : Py.sum (x :: xs) = x + Py.sum xs.
Proof. unfold Py.sum at 1. cbn [foldl]. by rewrite sum_from. Qed.

Lemma sum_Permutation (xs ys : list Z) : xs ≡ₚ ys -> Py.sum xs = Py.sum ys.
Proof.
  induction 1 as [|x xs ys _ IH|x y xs|xs ys zs _ IH1 _ IH2]; [done| | |].
  - by rewrite !sum_cons, IH.
  - rewrite !sum_cons. lia.
  - by rewrite IH1.
Qed.

(** The numbers of the history page are those of the user's rows. *)
Lemma user_history_view_totals viewer w user :
  Request.user viewer = Some user ->
  exists context,
    user_history_view viewer w = Some context /\
    HistoryContext.user_scores context
      ≡ₚ history.filter_user user (World.userscores w) /\
    HistoryContext.total_attempts context
    = Z.of_nat (length (history.filter_user user (World.userscores w))) /\
    HistoryContext.total_questions_answered context
    = Py.sum (map UserScore.total_questions
                  (history.filter_user user (World.userscores w))) /\
    HistoryContext.total_correct_answers context
    = Py.sum (map UserScore.score
                  (history.filter_user user (World.userscores w))).
Proof.
  intros Hu. unfold user_history_view, history.user_history_view.
  rewrite Hu. cbn [mbind option_bind].
  set (rows := history.filter_user user (World.userscores w)).
  pose proof (order_by_Permutation rows) as Hperm.
  destruct (0 <? Z.of_nat (length (order_by_completed_at rows))) eqn:E.
  - eexists. split; [reflexivity|].
    cbn [HistoryContext.user_scores HistoryContext.total_attempts
         HistoryContext.total_questions_answered
         HistoryContext.total_correct_answers].
    split; [done|]. split; [by rewrite Hperm|].
    split; apply sum_Permutation; by apply Permutation_map.
  - eexists. split; [reflexivity|].
    cbn [HistoryContext.user_scores HistoryContext.total_attempts
         HistoryContext.total_questions_answered
         HistoryContext.total_correct_answers].
    assert (rows = []) as ->.
    { apply Z.ltb_ge in E. rewrite Hperm in E. destruct rows; [done|].
      simpl in E. lia. }
    split; [done|]. split; [by rewrite Hperm|]. done.
Qed.

(** The rows of a user after a record was inserted under a free key. *)
Lemma filter_user_insert user tbl (i next : Z) row :
  UserScore.rows tbl !! i = None ->
  history.filter_user user (UserScore.mk_table (<[i := row]> (UserScore.rows tbl)) next)
  ≡ₚ if decide (UserScore.user row = user)
      then row :: history.filter_user user tbl
      else history.filter_user user tbl.
Proof.
  intros Hfree. unfold history.filter_user. cbn [UserScore.rows].
  rewrite (map_to_list_insert _ _ _ Hfree). rewrite fmap_cons, filter_cons.
  cbn [snd]. by destruct (decide (UserScore.user row = user)).
Qed.

(** X19: a scored submission shows in the history of its user and in no
    other.  The page counts one attempt more, the questions of the quiz more
    questions answered and the score of the submission more correct answers;
    the page of any other user counts what it counted before. *)
Theorem history_counts_a_submission request viewer w user questions :
  Request.user request = Some user ->
  Request.method request = "POST" ->
  questions_of request w = Some questions ->
  questions <> [] ->
  QuizForm.is_valid (form_of request questions) = true ->
  keys_are_issued (World.userscores w) ->
  is_Some (Request.user viewer) ->
  exists before after user_answers,
    user_history_view viewer w = Some before /\
    user_history_view viewer (views.quiz_view request w).2 = Some after /\
    QuizForm.get_user_answers (form_of request questions) = Some user_answers /\
    let '(attempts, answered, correct) :=
      if decide (Request.user viewer = Some user)
      then (1, Z.of_nat (length questions),
            views.compute_score user_answers questions)
      else (0, 0, 0) in
    HistoryContext.total_attempts after
    = HistoryContext.total_attempts before + attempts /\
    HistoryContext.total_questions_answered after
    = HistoryContext.total_questions_answered before + answered /\
    HistoryContext.total_correct_answers after
    = HistoryContext.total_correct_answers before + correct.
Proof.
  intros Hu Hm Hq Hne Hvalid Hkeys [viewing Hviewer].
  destruct (quiz_view_scores request w user questions Hu Hm Hq Hne Hvalid)
    as (user_answers & Hua & ->).
  cbn [snd].
  destruct (user_history_view_totals viewer w viewing Hviewer)
    as (before & Hbefore & _ & Hn & Hq0 & Hc).
  set (w' := World.mk _ _ _ _).
  destruct (user_history_view_totals viewer w' viewing Hviewer)
    as (after & Hafter & _ & Hn' & Hq' & Hc').
  exists before, after, user_answers.
  split; [done|]. split; [done|]. split; [done|].
  assert (Hfree : UserScore.rows (World.userscores w)
                  !! UserScore.next_id (World.userscores w) = None).
  { destruct (UserScore.rows _ !! _) as [row|] eqn:E; [|done].
    apply Hkeys in E. lia. }
  pose proof (filter_user_insert viewing (World.userscores w)
                (UserScore.next_id (World.userscores w))
                (UserScore.next_id (World.userscores w) + 1)
                (scored_row request w user questions user_answers) Hfree)
    as Hrows.
  change (UserScore.user (scored_row request w user questions user_answers))
    with user in Hrows.
  change (World.userscores w')
    with (UserScore.mk_table
            (<[UserScore.next_id (World.userscores w)
               := scored_row request w user questions user_answers]>
               (UserScore.rows (World.userscores w)))
            (UserScore.next_id (World.userscores w) + 1)) in Hn', Hq', Hc'.
  rewrite Hn', Hq', Hc', Hn, Hq0, Hc. rewrite Hviewer.
  rewrite (sum_Permutation _ _ (Permutation_map UserScore.total_questions Hrows)).
  rewrite (sum_Permutation _ _ (Permutation_map UserScore.score Hrows)).
  rewrite (Permutation_length Hrows).
  destruct (decide (Some viewing = Some user)) as [[= ->]|Hother].
  - rewrite decide_True by done. cbn [map length]. rewrite !sum_cons.
    cbn [scored_row UserScore.total_questions UserScore.score]. lia.
  - rewrite decide_False by congruence. lia.
Qed.

(** X20: the totals of the history page agree with each other.  When
    the scores of the table are within their bounds, the correct answers
    that the page counts are no more than the questions it counts, which
    are at least as many as the attempts; and a user without attempts has
    no best record and an accuracy of zero. *)
Theorem history_totals_are_consistent viewer w user :
  score_is_bounded (World.userscores w) ->
  Request.user viewer = Some user ->
  exists context,
    user_history_view viewer w = Some context /\
    0 <= HistoryContext.total_correct_answers context
      <= HistoryContext.total_questions_answered context /\
    0 <= HistoryContext.total_attempts context
      <= HistoryContext.total_questions_answered context /\
    Forall (fun row => UserScore.user row = user)
           (HistoryContext.user_scores context) /\
    (HistoryContext.total_attempts context = 0 ->
     HistoryContext.user_scores context = [] /\
     HistoryContext.best_score context = None /\
     HistoryContext.average_score context = 0%float /\
     HistoryContext.overall_accuracy context = 0%float).
Proof.
  intros Hbounded Hu.
  destruct (user_history_view_totals viewer w user Hu)
    as (context & Hcontext & Hrows & Hn & Hq & Hc).
  exists context. split; [done|].
  assert (Hnone : HistoryContext.total_attempts context = 0 ->
            HistoryContext.user_scores context = [] /\
            HistoryContext.best_score context = None /\
            HistoryContext.average_score context = 0%float /\
            HistoryContext.overall_accuracy context = 0%float).
  { revert Hcontext. unfold user_history_view, history.user_history_view.
    rewrite Hu. cbn [mbind option_bind].
    destruct (0 <? _) eqn:E; intros [= <-];
      cbn [HistoryContext.total_attempts HistoryContext.user_scores
           HistoryContext.best_score HistoryContext.average_score
           HistoryContext.overall_accuracy]; intros Hzero; [ltb_lia|].
    split; [|done].
    by destruct (order_by_completed_at
                   (history.filter_user user (World.userscores w))). }
  assert (Hall : Forall (fun row =>
                           0 <= UserScore.score row <= UserScore.total_questions row
                           /\ 0 < UserScore.total_questions row
                           /\ UserScore.user row = user)
                        (history.filter_user user (World.userscores w))).
  { apply Forall_forall. intros row Hin. unfold history.filter_user in Hin.
    apply list_elem_of_filter in Hin as [Huser Hin].
    apply list_elem_of_fmap in Hin as ([i row'] & -> & Hin).
    apply elem_of_map_to_list in Hin.
    destruct (Hbounded _ _ Hin) as (? & ? & _). done. }
  set (rows := history.filter_user user (World.userscores w)) in *.
  clearbody rows.
  assert (0 <= Py.sum (map UserScore.score rows)
            <= Py.sum (map UserScore.total_questions rows) /\
          Z.of_nat (length rows) <= Py.sum (map UserScore.total_questions rows))
    as [Hscore Hcount].
  { clear Hn Hq Hc Hrows Hnone.
    induction Hall as [|row rows (? & ? & ?) _ IH]; [done|].
    cbn [map length]. rewrite !sum_cons. lia. }
  split; [|split; [|split]]; [| | |exact Hnone].
  - by rewrite Hq, Hc.
  - rewrite Hn, Hq. lia.
  - rewrite Hrows. eapply Forall_impl; [exact Hall|]. by intros row (_ & _ & ?).
Qed.

End History.

(** ** Routes *)

Section Routes.
Implicit Types (request : Request.t) (w : World.t) (user : Z).

(** X21: every redirect of the three views goes to a page that exists.
    For a logged-in user, a view that answers with a redirect names a route
    of [urls.py] that takes no argument, so that the name resolves: the
    setup page sends to the quiz, the quiz to the setup page or the results,
    and the results page to the home page. *)
Theorem redirects_of_the_views_resolve view request w user to :
  view ∈ quiz_views ->
  Request.user request = Some user ->
  (view request w).1 = Redirect to ->
  is_Some (urls.reverse to) /\
  to ∈ ["quiz"; "quiz_setup"; "quiz_results"; "home"].
Proof.
  intros Hview Hu. unfold quiz_views in Hview.
  assert (Hnames : to ∈ ["quiz"; "quiz_setup"; "quiz_results"; "home"] ->
                   is_Some (urls.reverse to) /\
                   to ∈ ["quiz"; "quiz_setup"; "quiz_results"; "home"]).
  { intros Hto. split; [|done].
    rewrite !elem_of_cons, elem_of_nil in Hto.
    destruct Hto as [->|[->|[->|[->|[]]]]]; by eexists. }
  intros Hto. apply Hnames. revert Hto. clear Hnames.
  apply elem_of_cons in Hview as [->|Hview].
  { destruct (quiz_setup_view_cases request w)
      as [(Hlogin & _)|(n & d & r & -> & _)].
    - intros Hto. destruct (Hlogin _ Hto) as [Hnone _]. congruence.
    - intros [= <-]. apply elem_of_cons; by left. }
  apply elem_of_cons in Hview as [->|Hview].
  2:{ apply list_elem_of_singleton in Hview as ->.
      unfold views.quiz_results_view, views.login_required. rewrite Hu.
      assert ("home" ∈ ["quiz"; "quiz_setup"; "quiz_results"; "home"]) as Hhome
        by (do 3 (apply elem_of_cons; right); apply elem_of_cons; by left).
      destruct (Session.quiz_result_id (World.session w)) as [[|i|i]|];
        try by intros [= <-].
      all: destruct (views.get_userscore _ user (World.userscores w))
             as [user_score|]; [|done].
      all: by destruct (UserScore.percentage user_score),
                (UserScore.get_grade user_score),
                (UserScore.is_passed user_score). }
  destruct (quiz_view_cases request w)
    as [(Hresp & _)|(user' & questions & user_answers & _ & _ & _ & _ & _ & _ & ->)].
  2:{ intros [= <-]. do 2 (apply elem_of_cons; right). apply elem_of_cons; by left. }
  destruct (questions_of request w) as [[|q qs]|] eqn:Hq.
  - unfold views.quiz_view, views.login_required. rewrite Hu.
    fold (settings_of w). fold (questions_of request w). rewrite Hq.
    intros [= <-]. apply elem_of_cons; right. apply elem_of_cons; by left.
  - destruct (decide (Request.method request = "POST")) as [Hm|Hm].
    + destruct (QuizForm.is_valid (form_of request (q :: qs))) eqn:Hv.
      * destruct (quiz_view_scores request w user (q :: qs))
          as (user_answers & _ & Heq); try done.
        by rewrite Heq in Hresp.
      * by rewrite (quiz_view_post_invalid request w user (q :: qs)).
    + by rewrite (quiz_view_get request w user (q :: qs)).
  - unfold views.quiz_view, views.login_required. rewrite Hu.
    fold (settings_of w). fold (questions_of request w). by rewrite Hq.
Qed.

End Routes.

(** ** Grade and passing on the results page *)

Section GradeAndPassing.
Implicit Types (request : Request.t) (w : World.t).

(** X22: the grade and the verdict of a results page agree.  The page
    shows one of the five grades, the attempt is shown as passed exactly
    when the grade is not F, and the percentage shown is the stored one
    rounded to one decimal. *)
Theorem results_page_grade_agrees_with_passing
    request w template record detailed_results percentage grade passed :
  (views.quiz_results_view request w).1
  = Render template
      (ResultsContext record detailed_results percentage grade passed) ->
  grade ∈ ["A"; "B"; "C"; "D"; "F"] /\
  (passed = true <-> grade <> "F") /\
  exists p, UserScore.percentage record = Some p /\
            percentage = Py.round1 p.
Proof.
  unfold views.quiz_results_view, views.login_required.
  destruct (Request.user request) as [user|]; [|done].
  destruct (Session.quiz_result_id (World.session w)) as [i|]; [|done].
  assert (forall user_score,
    match UserScore.percentage user_score, UserScore.get_grade user_score,
          UserScore.is_passed user_score with
    | Some percentage, Some grade, Some passed =>
        (Render "results.html"
           (ResultsContext user_score
              (map (views.detailed_result user_score)
                   (UserScore.quiz_questions user_score))
              (Py.round1 percentage) grade passed),
         World.set_session
           (Session.set_quiz_result_id None (World.session w)) w)
    | _, _, _ => (ServerError, w)
    end.1
    = Render template
        (ResultsContext record detailed_results percentage grade passed) ->
    grade ∈ ["A"; "B"; "C"; "D"; "F"] /\
    (passed = true <-> grade <> "F") /\
    exists p, UserScore.percentage record = Some p /\
              percentage = Py.round1 p) as Hshown.
  { intros user_score. unfold UserScore.get_grade, UserScore.is_passed.
    destruct (UserScore.percentage user_score) as [p|] eqn:Hp; [|done].
    cbn [mbind option_bind fst]. intros [= <- <- <- <- <- <-].
    split; [|split; [|by exists p]].
    - repeat case_match; rewrite !elem_of_cons; auto 10.
    - destruct (PrimFloat.leb 60 p) eqn:E60.
      + split; [|done]. intros _. by repeat case_match.
      + rewrite (leb_above 60 90 p), (leb_above 60 80 p),
          (leb_above 60 70 p) by done.
        split; [done|]. by intros []. }
  destruct i as [|i|i]; [done| |].
  all: destruct (views.get_userscore _ user (World.userscores w))
         as [user_score|]; [|done].
  all: apply Hshown.
Qed.

End GradeAndPassing.

(** ** The home page *)

Section Home.
Implicit Types (request : Request.t) (w : World.t) (user : Z).

Variable order_by_completed_at : list UserScore.t -> list UserScore.t.
Variable first_by_percentage : list UserScore.t -> option UserScore.t.
Variable Avg_percentage : list UserScore.t -> option float.

Hypothesis order_by_Permutation : forall l, order_by_completed_at l ≡ₚ l.

Lemma home_total_questions request w :
  HomeContext.total_questions
    (home.get_context_data order_by_completed_at first_by_percentage
                           Avg_percentage request w)
  = Z.of_nat (length (views.active_questions (World.questions w))).
Proof.
  unfold home.get_context_data.
  destruct (Request.user request) as [user|]; [|done].
  by destruct (history.filter_user user (World.userscores w)).
Qed.

(** X23: the home page agrees with the other pages.  The number of
    questions it announces is the number that the setup form enforces and
    the setup page shows; for a user who is logged in, the attempts it
    counts are those the history page counts, and its recent scores are the
    first of the history page, at most five; for anybody else it shows the
    number of questions and nothing of the scores. *)
Theorem home_page_agrees_with_the_other_pages request w :
  let context :=
    home.get_context_data order_by_completed_at first_by_percentage
                          Avg_percentage request w in
  HomeContext.total_questions context
  = QuizSettingsForm.total_available (World.questions w) /\
  (forall template form total_questions,
      (views.quiz_setup_view request w).1
      = Render template (SetupContext form total_questions) ->
      total_questions = HomeContext.total_questions context) /\
  (Request.user request = None ->
   HomeContext.user_attempts context = None /\
   HomeContext.best_score context = None /\
   HomeContext.average_score context = None /\
   HomeContext.recent_scores context = None) /\
  (forall history_context,
      history.user_history_view order_by_completed_at first_by_percentage
                                Avg_percentage request w
      = Some history_context ->
      HomeContext.user_attempts context
      = Some (HistoryContext.total_attempts history_context) /\
      default [] (HomeContext.recent_scores context)
      = take 5 (HistoryContext.user_scores history_context) /\
      (HomeContext.recent_scores context = None
       <-> HistoryContext.total_attempts history_context = 0)).
Proof.
  cbv zeta. rewrite home_total_questions.
  split; [done|]. split; [|split].
  - intros template form total_questions.
    unfold views.quiz_setup_view, views.login_required.
    destruct (Request.user request); [|done].
    destruct (decide (Request.method request = "POST")); [|by intros [= <- <- <-]].
    set (settings_form := QuizSettingsForm.full_clean _ _).
    destruct (QuizSettingsForm.is_valid settings_form);
      [|by intros [= <- <- <-]].
    by destruct (QuizSettingsForm.num_questions settings_form),
         (QuizSettingsForm.difficulty settings_form),
         (QuizSettingsForm.random_order settings_form).
  - unfold home.get_context_data. by intros ->.
  - unfold home.get_context_data.
    intros history_context. unfold history.user_history_view.
    destruct (Request.user request) as [user|]; [|done].
    cbn [mbind option_bind].
    set (rows := history.filter_user user (World.userscores w)).
    pose proof (order_by_Permutation rows) as Hperm.
    assert (length (order_by_completed_at rows) = length rows) as Hlen
      by by rewrite Hperm.
    rewrite Hlen.
    clearbody rows. destruct rows as [|row rest].
    + apply Permutation_nil_r in Hperm. rewrite Hperm.
      intros [= <-]. by repeat split.
    + assert ((0 <? Z.of_nat (length (row :: rest))) = true) as ->
        by (apply Z.ltb_lt; simpl; lia).
      intros [= <-].
      cbn [HomeContext.user_attempts HomeContext.recent_scores
           HistoryContext.total_attempts HistoryContext.user_scores default].
      split; [done|]. split; [done|].
      split; [done|]. simpl. lia.
Qed.

End Home.

(** ** Which settings are accepted *)

Section AcceptedSettings.
Implicit Types (data : gmap string string) (questions : list QuizQuestion.t).

(** X24: the settings form accepts exactly the submissions whose number
    of questions reads as a number between 1 and 50 that does not exceed
    the number of active questions, and whose difficulty is one of ALL,
    EASY, MEDIUM and HARD.  The number is read as the field reads it:
    blanks around the numeral, a sign, underscores between digits, the
    digits of any script and a dot with zeros after the numeral are all
    read.  The cleaned values are then that number, that difficulty and
    the state of the check box, which never makes a submission invalid.
    The text of the number is taken to be within the length up to which
    every interpreter reads numerals. *)
Theorem settings_form_accepts_exactly data questions :
  numeral_is_short data ->
  let form := QuizSettingsForm.full_clean data questions in
  (QuizSettingsForm.is_valid form = true
   <-> exists n d,
         requested_count data = Some n /\ 1 <= n <= 50 /\
         n <= QuizSettingsForm.total_available questions /\
         data !! "difficulty" = Some d /\
         d ∈ ["ALL"; "EASY"; "MEDIUM"; "HARD"]) /\
  (QuizSettingsForm.is_valid form = true ->
   QuizSettingsForm.num_questions form = requested_count data /\
   QuizSettingsForm.difficulty form = data !! "difficulty") /\
  QuizSettingsForm.random_order form
  = Some (QuizSettingsForm.BooleanField_clean (data !! "random_order")).
Proof.
  intros _. cbv zeta.
  assert (Hdifficulty : forall d,
    ChoiceField.clean QuizSettingsForm.difficulty_field (data !! "difficulty")
    = inl d
    <-> data !! "difficulty" = Some d /\ d ∈ ["ALL"; "EASY"; "MEDIUM"; "HARD"]).
  { intros d. unfold ChoiceField.clean, ChoiceField.valid_value. simpl.
    destruct (data !! "difficulty") as [value|]; simpl.
    - destruct (decide (value = "")) as [->|Hne].
      + split; [done|]. intros [[= <-] Hin].
        rewrite !elem_of_cons, elem_of_nil in Hin.
        by destruct Hin as [|[|[|[|]]]].
      + destruct (bool_decide _) eqn:Hv.
        * apply bool_decide_eq_true_1 in Hv.
          split; [by intros [= <-]|by intros [[= <-] _]].
        * apply bool_decide_eq_false_1 in Hv.
          split; [done|]. by intros [[= <-] Hin].
    - split; [done|]. by intros [? _]. }
  unfold QuizSettingsForm.is_valid, QuizSettingsForm.full_clean.
  cbn [QuizSettingsForm.errors QuizSettingsForm.num_questions
       QuizSettingsForm.difficulty QuizSettingsForm.random_order].
  split; [|split; [|done]].
  - split.
    + destruct (QuizSettingsForm.IntegerField_clean 1 50 _) as [n|m] eqn:Hn;
        [|by intros [=]%bool_decide_eq_true_1].
      apply IntegerField_clean_accepts in Hn as [Hreq Hrange].
      unfold QuizSettingsForm.clean_num_questions.
      destruct (_ <? n) eqn:Hav; [by intros [=]%bool_decide_eq_true_1|].
      destruct (ChoiceField.clean _ _) as [d|m] eqn:Hd;
        [|by intros [=]%bool_decide_eq_true_1].
      intros _. destruct (proj1 (Hdifficulty d) eq_refl) as [Hd' Hin].
      exists n, d. repeat split; try done; ltb_lia.
    + intros (n & d & Hreq & Hrange & Hav & Hd & Hin).
      rewrite (IntegerField_clean_count _ n Hreq).
      destruct (50 <? n) eqn:E50; [ltb_lia|].
      destruct (n <? 1) eqn:E1; [ltb_lia|].
      unfold QuizSettingsForm.clean_num_questions.
      rewrite (proj2 (Z.ltb_ge _ _) Hav).
      by rewrite (proj2 (Hdifficulty d) (conj Hd Hin)).
  - destruct (QuizSettingsForm.IntegerField_clean 1 50 _) as [n|m] eqn:Hn;
      [|by intros [=]%bool_decide_eq_true_1].
    apply IntegerField_clean_accepts in Hn as [Hreq Hrange].
    unfold QuizSettingsForm.clean_num_questions.
    destruct (_ <? n) eqn:Hav; [by intros [=]%bool_decide_eq_true_1|].
    destruct (ChoiceField.clean _ _) as [d|m] eqn:Hd;
      [|by intros [=]%bool_decide_eq_true_1].
    intros _. destruct (proj1 (Hdifficulty d) eq_refl) as [Hd' Hin].
    by rewrite Hreq, Hd'.
Qed.

End AcceptedSettings.

(** ** A complete submission in another order *)

Section Reordered.
Implicit Types (request : Request.t) (w : World.t) (user : Z).
Implicit Types (presented questions : list QuizQuestion.t) (q : QuizQuestion.t).

(** The score counts the questions answered with their correct tag. *)
Lemma compute_score_count (user_answers : gmap key string) questions
    (correct : QuizQuestion.t -> Prop) `{!forall q, Decision (correct q)} :
  (forall q, q ∈ questions ->
     user_answers !! IntKey (QuizQuestion.id q)
     = Some (QuizQuestion.correct_answer q) <-> correct q) ->
  views.compute_score user_answers questions
  = Z.of_nat (length (filter correct questions)).
Proof.
  induction questions as [|q qs IH]; intros Hall; [done|].
  unfold views.compute_score. cbn [foldl].
  rewrite compute_score_from, filter_cons.
  rewrite IH by (intros q' Hq'; apply Hall, elem_of_cons; by right).
  pose proof (Hall q (proj2 (elem_of_cons _ _ _) (or_introl eq_refl))) as Hq.
  destruct (decide (user_answers !! IntKey (QuizQuestion.id q)
                    = Some (QuizQuestion.correct_answer q))) as [E|E].
  - rewrite decide_True by by apply Hq. cbn [length]. lia.
  - rewrite decide_False by (intros Hc; by apply E, Hq). lia.
Qed.

(** X25: a complete submission is scored whatever order the questions are
    selected in when it arrives.  When the submission selects the presented
    questions, in any order, and its data has a tag for each of them, it is
    accepted and stored; the score is the number of presented questions
    whose tag is the correct one, the total is their number, and the
    questions stored are the presented ones in the order of the
    submission's own selection. *)
Theorem complete_submission_is_scored_in_any_order
    request w user presented questions :
  Request.user request = Some user ->
  Request.method request = "POST" ->
  questions_of request w = Some questions ->
  questions ≡ₚ presented ->
  presented <> [] ->
  NoDup (QuizQuestion.id <$> presented) ->
  (forall q, q ∈ presented ->
     exists tag, Request.POST request !! QuizForm.field_name q = Some tag /\
                 tag ∈ tags) ->
  exists row,
    (views.quiz_view request w).1 = Redirect "quiz_results" /\
    UserScore.rows (World.userscores (views.quiz_view request w).2)
      !! UserScore.next_id (World.userscores w) = Some row /\
    UserScore.score row
    = Z.of_nat
        (length
           (filter (fun q => Request.POST request !! QuizForm.field_name q
                             = Some (QuizQuestion.correct_answer q))
                   presented)) /\
    UserScore.total_questions row = Z.of_nat (length presented) /\
    UserScore.quiz_questions row = map views.question_data questions.
Proof.
  intros Hu Hm Hq Hperm Hne Hnd Htags.
  assert (Hnd' : NoDup (QuizQuestion.id <$> questions)) by by rewrite Hperm.
  assert (Hne' : questions <> []).
  { intros ->. by apply Permutation_nil in Hperm. }
  assert (Hvalid : QuizForm.is_valid (form_of request questions) = true).
  { apply form_with_tags_is_valid; [done|].
    apply Forall_forall. intros q Hin. rewrite Hperm in Hin.
    destruct (Htags q Hin) as (tag & ? & ?). by exists tag. }
  destruct (quiz_view_scores request w user questions Hu Hm Hq Hne' Hvalid)
    as (user_answers & Hua & ->).
  unfold form_of in Hua. rewrite get_user_answers_valid in Hua by done.
  injection Hua as Hua.
  destruct (collected_answers (Request.POST request) questions ∅)
    as [Hfound _]. cbv zeta in Hfound. rewrite Hua in Hfound.
  eexists. split; [done|]. split; [apply lookup_insert_eq|].
  cbn [scored_row UserScore.score UserScore.total_questions
       UserScore.quiz_questions].
  split; [|split; [by rewrite Hperm|done]].
  rewrite (compute_score_count user_answers questions
             (fun q => Request.POST request !! QuizForm.field_name q
                       = Some (QuizQuestion.correct_answer q))).
  - by rewrite Hperm.
  - intros q Hin. rewrite (Hfound q Hin).
    assert (q ∈ presented) as Hin' by by rewrite <- Hperm.
    destruct (Htags q Hin') as (tag & -> & _). done.
Qed.

End Reordered.

(** * Worked scenarios *)


Section Witnesses.

Lemma three_question_quiz_witness :
  exists record detailed_results,
    (views.quiz_results_view (Scenario.get 600)
       (views.quiz_view (Scenario.post Scenario.answers 500)
                        Scenario.presented).2).1
    = Render "results.html"
        (ResultsContext record detailed_results 66.7%float "D" true) /\
    UserScore.score record = 2 /\
    UserScore.total_questions record = 3.
Proof.
  refine (proj2 (proj2 (proj2 (proj2
    (three_question_quiz Scenario.fresh Scenario.user
       Scenario.q1 Scenario.q2 Scenario.q3 "A" "B" "A"
       (list_to_map Scenario.answers)
       (Scenario.clock_from 0) (Scenario.clock_from 100)
       (Scenario.clock_from 500) (Scenario.clock_from 600) [] [] [] []
       _ _ _ _ _ _ _ _))))).
  - reflexivity.
  - vm_compute. repeat constructor; compute_done.
  - reflexivity.
  - reflexivity.
  - reflexivity.
  - reflexivity.
  - repeat constructor; compute_done.
  - reflexivity.
Defined.

Lemma snapshot_is_built_when_scoring_witness :
  exists i record user_answers,
    (views.quiz_view (Scenario.post Scenario.answers 500) Scenario.presented).1
    = Redirect "quiz_results" /\
    Session.quiz_result_id
      (World.session
         (views.quiz_view (Scenario.post Scenario.answers 500)
                          Scenario.presented).2) = Some i /\
    UserScore.rows
      (World.userscores
         (views.quiz_view (Scenario.post Scenario.answers 500)
                          Scenario.presented).2) !! i = Some record /\
    UserScore.quiz_questions record
    = map (fun q => QuestionData.mk (QuizQuestion.id q)
                      (QuizQuestion.question_text q)
                      (list_to_map (QuizQuestion.get_choices q))
                      (QuizQuestion.correct_answer q))
          [Scenario.q1; Scenario.q2; Scenario.q3] /\
    QuizForm.get_user_answers
      (form_of (Scenario.post Scenario.answers 500)
               [Scenario.q1; Scenario.q2; Scenario.q3]) = Some user_answers /\
    UserScore.score record
    = views.compute_score user_answers [Scenario.q1; Scenario.q2; Scenario.q3] /\
    UserScore.total_questions record = 3.
Proof.
  apply (snapshot_is_built_when_scoring
           (Scenario.post Scenario.answers 500) Scenario.presented
           Scenario.user [Scenario.q1; Scenario.q2; Scenario.q3]).
  - reflexivity.
  - reflexivity.
  - reflexivity.
  - discriminate.
  - vm_compute. reflexivity.
Defined.

Lemma time_taken_is_never_null_witness :
  exists i record,
    Session.quiz_result_id
      (World.session
         (views.quiz_view (Scenario.post Scenario.answers 500)
                          Scenario.presented).2) = Some i /\
    UserScore.rows
      (World.userscores
         (views.quiz_view (Scenario.post Scenario.answers 500)
                          Scenario.presented).2) !! i = Some record /\
    UserScore.time_taken record = Some 400.
Proof.
  apply (time_taken_is_never_null
           (Scenario.post Scenario.answers 500) Scenario.presented
           Scenario.user [Scenario.q1; Scenario.q2; Scenario.q3]).
  - reflexivity.
  - reflexivity.
  - reflexivity.
  - discriminate.
  - vm_compute. reflexivity.
Defined.

Lemma start_time_is_set_by_each_presentation_witness :
  Session.quiz_start_time
    (World.session (views.quiz_view (Scenario.get 100) Scenario.configured).2)
  = Some 100.
Proof.
  apply (start_time_is_set_by_each_presentation
           (Scenario.get 100) Scenario.configured Scenario.user
           [Scenario.q1; Scenario.q2; Scenario.q3]).
  - reflexivity.
  - reflexivity.
  - discriminate.
Defined.

Lemma unanswered_question_rejects_submission_witness :
  (QuizForm.field_name Scenario.q3,
   ["Please select an answer for this question."])
    ∈ QuizForm.errors
        (form_of (Scenario.post Scenario.incomplete 500)
                 [Scenario.q1; Scenario.q2; Scenario.q3]) /\
  (views.quiz_view (Scenario.post Scenario.incomplete 500) Scenario.presented).1
  = Render "quiz.html"
      (QuizContext
         (form_of (Scenario.post Scenario.incomplete 500)
                  [Scenario.q1; Scenario.q2; Scenario.q3])
         [Scenario.q1; Scenario.q2; Scenario.q3] 3
         (QuizSettings.mk 3 "ALL" false)) /\
  World.session
    (views.quiz_view (Scenario.post Scenario.incomplete 500)
                     Scenario.presented).2
  = World.session Scenario.presented /\
  World.userscores
    (views.quiz_view (Scenario.post Scenario.incomplete 500)
                     Scenario.presented).2
  = World.userscores Scenario.presented.
Proof.
  apply (unanswered_question_rejects_submission
           (Scenario.post Scenario.incomplete 500) Scenario.presented
           Scenario.user [Scenario.q1; Scenario.q2; Scenario.q3] Scenario.q3).
  - reflexivity.
  - reflexivity.
  - reflexivity.
  - apply elem_of_cons; right. apply elem_of_cons; right.
    apply elem_of_cons; by left.
  - left. vm_compute. reflexivity.
Defined.

(** Ten questions are asked for and five are active. *)
Lemma settings_count_is_validated_witness :
  QuizSettingsForm.is_valid
    (QuizSettingsForm.full_clean
       (list_to_map [("num_questions", "10"); ("difficulty", "ALL")])
       (Scenario.many 5)) = false /\
  dict_get "num_questions"
    (QuizSettingsForm.errors
       (QuizSettingsForm.full_clean
          (list_to_map [("num_questions", "10"); ("difficulty", "ALL")])
          (Scenario.many 5)))
  = Some ["Only 5 questions are available. Please choose a smaller number."].
Proof.
  refine (proj1 (proj2
    (settings_count_is_validated
       (Scenario.post [("num_questions", "10"); ("difficulty", "ALL")] 0)
       (World.mk (Scenario.many 5) (UserScore.mk_table ∅ 1) Session.empty [])
       Scenario.user _ _ _)) 10 _ _ _).
  - reflexivity.
  - reflexivity.
  - intros text H. vm_compute in H. injection H as <-. cbn. lia.
  - reflexivity.
  - lia.
  - vm_compute. reflexivity.
Defined.

(** Five active questions and no settings: the quiz presents the five. *)
Lemma quiz_without_settings_uses_defaults_witness :
  length
    (take 10 (QuerySet.order_by_random [2; 0; 1]%nat
                (filter (fun q => QuizQuestion.is_active q = true)
                        (Scenario.many 5)))) = 5%nat.
Proof.
  refine (proj1 (proj2
    (quiz_without_settings_uses_defaults
       (Request.mk "GET" ∅ (Some Scenario.user) (Scenario.clock_from 100)
                   [2; 0; 1]%nat)
       (World.mk (Scenario.many 5) (UserScore.mk_table ∅ 1) Session.empty [])
       Scenario.user _ _))).
  - reflexivity.
  - reflexivity.
Defined.

(** The table after the scenario's submission keeps the invariant. *)
Lemma views_keep_percentage_computed_witness :
  percentage_is_computed
    (World.userscores
       (views.quiz_view (Scenario.post Scenario.answers 500)
                        Scenario.presented).2).
Proof.
  refine (proj1 (proj2
    (views_keep_percentage_computed
       (Scenario.post Scenario.answers 500) Scenario.presented _))).
  intros i row H.
  change (UserScore.rows (World.userscores Scenario.presented))
    with (∅ : gmap Z UserScore.t) in H.
  by rewrite lookup_empty in H.
Defined.

Lemma results_are_shown_once_witness :
  (views.quiz_results_view (Scenario.get 700)
     (views.quiz_results_view (Scenario.get 600)
        (views.quiz_view (Scenario.post Scenario.answers 500)
                         Scenario.presented).2).2).1
  = Redirect "home".
Proof.
  set (scored := (views.quiz_view (Scenario.post Scenario.answers 500)
                                  Scenario.presented).2).
  assert (exists context,
             (views.quiz_results_view (Scenario.get 600) scored).1
             = Render "results.html" context) as [context Hshown]
    by (vm_compute; by eexists).
  exact (f_equal fst
           (results_are_shown_once (Scenario.get 600) (Scenario.get 700)
              scored Scenario.user context Hshown eq_refl)).
Defined.

Lemma select_questions_spec_witness :
  [Scenario.q1; Scenario.q2; Scenario.q3]
  = take 3 (filter (matches (QuizSettings.mk 3 "ALL" false))
                   [Scenario.q1; Scenario.q2; Scenario.q3]).
Proof.
  refine (proj1 (proj2 (proj2 (proj2
    (select_questions_spec (QuizSettings.mk 3 "ALL" false) []
       [Scenario.q1; Scenario.q2; Scenario.q3]
       [Scenario.q1; Scenario.q2; Scenario.q3] _))) _)).
  - reflexivity.
  - reflexivity.
Defined.

(** The order is random and the answers lack the one of the last
    question: whichever order the request draws, it is rejected. *)
Lemma incomplete_submission_is_rejected_after_reshuffle_witness :
  World.userscores
    (views.quiz_view
       (Request.mk "POST" (list_to_map Scenario.incomplete)
                   (Some Scenario.user) (Scenario.clock_from 500) [1; 1; 0]%nat)
       Scenario.configured_random).2
  = World.userscores Scenario.configured_random.
Proof.
  erewrite (incomplete_submission_is_rejected_after_reshuffle
              (Request.mk "POST" (list_to_map Scenario.incomplete)
                 (Some Scenario.user) (Scenario.clock_from 500) [1; 1; 0]%nat)
              Scenario.configured_random Scenario.user
              [Scenario.q1; Scenario.q2; Scenario.q3] _ Scenario.q3).
  - reflexivity.
  - reflexivity.
  - reflexivity.
  - vm_compute. reflexivity.
  - vm_compute. repeat constructor; compute_done.
  - reflexivity.
  - apply elem_of_cons; right. apply elem_of_cons; right.
    apply elem_of_cons; by left.
  - intros name value Hin _.
    apply elem_of_list_to_map_2 in Hin.
    apply elem_of_cons in Hin as [[= -> ->]|Hin].
    { exists Scenario.q1. split; [apply elem_of_cons; by left|done]. }
    apply list_elem_of_singleton in Hin as [= -> ->].
    exists Scenario.q2.
    split; [apply elem_of_cons; right; apply elem_of_cons; by left|done].
Defined.

Lemma results_judgments_match_score_witness :
  exists i row,
    Session.quiz_result_id
      (World.session
         (views.quiz_view (Scenario.post Scenario.answers 500)
                          Scenario.presented).2) = Some i /\
    UserScore.rows
      (World.userscores
         (views.quiz_view (Scenario.post Scenario.answers 500)
                          Scenario.presented).2) !! i = Some row /\
    UserScore.score row
    = Z.of_nat
        (length
           (filter (fun r => DetailedResult.is_correct r = true)
                   (map (views.detailed_result row)
                        (UserScore.quiz_questions row)))).
Proof.
  apply (results_judgments_match_score
           (Scenario.post Scenario.answers 500) Scenario.presented
           Scenario.user [Scenario.q1; Scenario.q2; Scenario.q3]).
  - reflexivity.
  - reflexivity.
  - reflexivity.
  - discriminate.
  - vm_compute. repeat constructor; compute_done.
  - vm_compute. reflexivity.
Defined.

Lemma views_keep_score_bounded_witness :
  score_is_bounded (World.userscores Scenario.scored).
Proof.
  apply (views_keep_score_bounded views.quiz_view
           (Scenario.post Scenario.answers 500) Scenario.presented).
  - apply elem_of_cons; right. apply elem_of_cons; by left.
  - intros i row H.
    change (UserScore.rows (World.userscores Scenario.presented))
      with (∅ : gmap Z UserScore.t) in H.
    by rewrite lookup_empty in H.
Defined.

Lemma score_records_are_only_added_witness :
  keys_are_issued (World.userscores Scenario.scored).
Proof.
  refine (proj1 (score_records_are_only_added views.quiz_view
                   (Scenario.post Scenario.answers 500) Scenario.presented _ _)).
  - apply elem_of_cons; right. apply elem_of_cons; by left.
  - intros i row H.
    change (UserScore.rows (World.userscores Scenario.presented))
      with (∅ : gmap Z UserScore.t) in H.
    by rewrite lookup_empty in H.
Defined.

(** Somebody else has the key of the record in the session: not found. *)
Lemma results_page_shows_own_record_witness :
  views.quiz_results_view Scenario.visiting
    (World.set_session (Session.mk None None (Some 1)) Scenario.recorded)
  = (Http404,
     World.set_session (Session.mk None None (Some 1)) Scenario.recorded).
Proof.
  refine (proj2 (results_page_shows_own_record Scenario.visiting
                   (World.set_session (Session.mk None None (Some 1))
                                      Scenario.recorded)
                   Scenario.visitor _) 1 _ _ _).
  - reflexivity.
  - reflexivity.
  - discriminate.
  - intros record H.
    change (UserScore.rows
              (World.userscores
                 (World.set_session (Session.mk None None (Some 1))
                                    Scenario.recorded)))
      with (<[1 := Scenario.record]> (∅ : gmap Z UserScore.t)) in H.
    rewrite lookup_insert_eq in H. injection H as <-. discriminate.
Defined.

Lemma quiz_returns_to_setup_iff_no_question_witness :
  (views.quiz_view (Scenario.get 100) Scenario.configured_hard).1
  = Redirect "quiz_setup".
Proof.
  refine (proj2 (proj1 (quiz_returns_to_setup_iff_no_question
                          (Scenario.get 100) Scenario.configured_hard
                          Scenario.user _ _)) _).
  - reflexivity.
  - reflexivity.
  - reflexivity.
Defined.

Lemma results_page_of_a_submission_witness :
  exists record detailed_results percentage grade passed,
    (views.quiz_results_view (Scenario.get 600) Scenario.scored).1
    = Render "results.html"
        (ResultsContext record detailed_results percentage grade passed) /\
    UserScore.user record = Scenario.user /\
    length detailed_results = 3%nat /\
    forall k q,
      [Scenario.q1; Scenario.q2; Scenario.q3] !! k = Some q ->
      exists tag entry,
        Request.POST (Scenario.post Scenario.answers 500)
          !! QuizForm.field_name q = Some tag /\
        detailed_results !! k = Some entry /\
        DetailedResult.question entry = QuizQuestion.question_text q /\
        DetailedResult.user_answer entry = tag /\
        (tag, DetailedResult.user_text entry) ∈ QuizQuestion.get_choices q /\
        DetailedResult.correct_answer entry = QuizQuestion.correct_answer q /\
        DetailedResult.is_correct entry
        = bool_decide (tag = QuizQuestion.correct_answer q) /\
        DetailedResult.correct_text entry
        = if decide (QuizQuestion.correct_answer q ∈ tags)
          then QuizQuestion.get_correct_choice_text q
          else "Unknown".
Proof.
  apply (results_page_of_a_submission
           (Scenario.post Scenario.answers 500) (Scenario.get 600)
           Scenario.presented Scenario.user
           [Scenario.q1; Scenario.q2; Scenario.q3]).
  - reflexivity.
  - reflexivity.
  - reflexivity.
  - discriminate.
  - vm_compute. repeat constructor; compute_done.
  - vm_compute. reflexivity.
  - discriminate.
  - reflexivity.
Defined.

(** The quiz ran with the defaults and the submission arrives twice. *)
Lemma repeated_submission_is_scored_again_witness :
  exists first second,
    (views.quiz_view (Scenario.post Scenario.answers 500) Scenario.fresh).1
    = Redirect "quiz_results" /\
    (views.quiz_view (Scenario.post Scenario.answers 900)
       (views.quiz_view (Scenario.post Scenario.answers 500) Scenario.fresh).2).1
    = Redirect "quiz_results" /\
    UserScore.rows
      (World.userscores
         (views.quiz_view (Scenario.post Scenario.answers 900)
            (views.quiz_view (Scenario.post Scenario.answers 500)
                             Scenario.fresh).2).2)
    = <[1 + 1 := second]> (<[1 := first]> ∅) /\
    Session.quiz_result_id
      (World.session
         (views.quiz_view (Scenario.post Scenario.answers 900)
            (views.quiz_view (Scenario.post Scenario.answers 500)
                             Scenario.fresh).2).2)
    = Some (1 + 1) /\
    UserScore.user second = Scenario.user /\
    UserScore.score second = UserScore.score first /\
    UserScore.total_questions second = UserScore.total_questions first /\
    UserScore.percentage second = UserScore.percentage first /\
    UserScore.user_answers second = UserScore.user_answers first /\
    UserScore.quiz_questions second = UserScore.quiz_questions first /\
    UserScore.time_taken second = Some (901 - 900).
Proof.
  apply (repeated_submission_is_scored_again
           (Scenario.post Scenario.answers 500)
           (Scenario.post Scenario.answers 900)
           Scenario.fresh Scenario.user
           [Scenario.q1; Scenario.q2; Scenario.q3]).
  - reflexivity.
  - reflexivity.
  - reflexivity.
  - discriminate.
  - vm_compute. reflexivity.
  - reflexivity.
  - reflexivity.
  - reflexivity.
  - reflexivity.
Defined.

(** The first question is duplicated; the sequence stands at 4. *)
Lemma duplicates_are_inactive_copies_witness :
  exists copies,
    World.questions (admin.duplicate_questions [3] 4 Scenario.fresh).1
    = (copies ++ World.questions Scenario.fresh)%list /\
    length copies = length (admin.queryset [3] Scenario.fresh) /\
    (admin.duplicate_questions [3] 4 Scenario.fresh).2
    = 4 + Z.of_nat (length copies) /\
    (forall copy, copy ∈ copies ->
       exists q, q ∈ World.questions Scenario.fresh /\
                 QuizQuestion.id q ∈ [3] /\
                 copy = admin.copy_of (QuizQuestion.id copy) q /\
                 QuizQuestion.is_active copy = false /\
                 QuizQuestion.question_text copy
                 = "[COPY] " +:+ QuizQuestion.question_text q /\
                 4 <= QuizQuestion.id copy
                 < (admin.duplicate_questions [3] 4 Scenario.fresh).2) /\
    (forall q,
        q ∈ World.questions (admin.duplicate_questions [3] 4 Scenario.fresh).1 ->
        QuizQuestion.id q < (admin.duplicate_questions [3] 4 Scenario.fresh).2) /\
    (NoDup (QuizQuestion.id <$> World.questions Scenario.fresh) ->
     NoDup (QuizQuestion.id
              <$> World.questions
                    (admin.duplicate_questions [3] 4 Scenario.fresh).1)) /\
    (forall quiz_settings rand,
        views.select_questions quiz_settings rand
          (World.questions (admin.duplicate_questions [3] 4 Scenario.fresh).1)
        = views.select_questions quiz_settings rand
            (World.questions Scenario.fresh)) /\
    World.userscores (admin.duplicate_questions [3] 4 Scenario.fresh).1
    = World.userscores Scenario.fresh /\
    World.messages (admin.duplicate_questions [3] 4 Scenario.fresh).1
    = (World.messages Scenario.fresh ++
       [Py.str (Z.of_nat (length copies))
        +:+ " questions were successfully duplicated (marked as inactive)."])%list.
Proof.
  apply (duplicates_are_inactive_copies [3] 4 Scenario.fresh).
  intros q Hq.
  change (World.questions Scenario.fresh)
    with [Scenario.q1; Scenario.q2; Scenario.q3] in Hq.
  apply elem_of_cons in Hq as [->|Hq]; [done|].
  apply elem_of_cons in Hq as [->|Hq]; [done|].
  apply list_elem_of_singleton in Hq as ->. done.
Defined.

(** The history page lists the newest first; the user had no attempt. *)
Lemma history_counts_a_submission_witness :
  exists before after user_answers,
    history.user_history_view reverse head (fun _ => None)
      (Scenario.get 600) Scenario.presented = Some before /\
    history.user_history_view reverse head (fun _ => None)
      (Scenario.get 600) Scenario.scored = Some after /\
    QuizForm.get_user_answers
      (form_of (Scenario.post Scenario.answers 500)
               [Scenario.q1; Scenario.q2; Scenario.q3]) = Some user_answers /\
    HistoryContext.total_attempts after
    = HistoryContext.total_attempts before + 1 /\
    HistoryContext.total_questions_answered after
    = HistoryContext.total_questions_answered before + 3 /\
    HistoryContext.total_correct_answers after
    = HistoryContext.total_correct_answers before
      + views.compute_score user_answers [Scenario.q1; Scenario.q2; Scenario.q3].
Proof.
  apply (history_counts_a_submission reverse head (fun _ => None)
           (fun l => reverse_Permutation l)
           (Scenario.post Scenario.answers 500) (Scenario.get 600)
           Scenario.presented Scenario.user
           [Scenario.q1; Scenario.q2; Scenario.q3]).
  - reflexivity.
  - reflexivity.
  - reflexivity.
  - discriminate.
  - vm_compute. reflexivity.
  - intros i row H.
    change (UserScore.rows (World.userscores Scenario.presented))
      with (∅ : gmap Z UserScore.t) in H.
    by rewrite lookup_empty in H.
  - by eexists.
Defined.

Lemma redirects_of_the_views_resolve_witness :
  is_Some (urls.reverse "quiz_results") /\
  "quiz_results" ∈ ["quiz"; "quiz_setup"; "quiz_results"; "home"].
Proof.
  apply (redirects_of_the_views_resolve views.quiz_view
           (Scenario.post Scenario.answers 500) Scenario.presented
           Scenario.user "quiz_results").
  - apply elem_of_cons; right. apply elem_of_cons; by left.
  - reflexivity.
  - vm_compute. reflexivity.
Defined.

Lemma accepted_settings_are_served_witness :
  exists quiz_settings,
    Session.quiz_settings (World.session Scenario.configured)
    = Some quiz_settings /\
    1 <= QuizSettings.num_questions quiz_settings <= 50 /\
    QuizSettings.difficulty quiz_settings
      ∈ QuizSettingsForm.DIFFICULTY_CHOICES.*1 /\
    (forall template form questions question_count quiz_settings',
        (views.quiz_view (Scenario.get 100) Scenario.configured).1
        = Render template
            (QuizContext form questions question_count quiz_settings') ->
        quiz_settings' = quiz_settings /\
        question_count = Z.of_nat (length questions) /\
        question_count
        = Z.min (QuizSettings.num_questions quiz_settings)
                (Z.of_nat (length (filter (matches quiz_settings)
                                          (World.questions Scenario.fresh))))) /\
    (QuizSettings.difficulty quiz_settings = "ALL" ->
     exists form questions,
       (views.quiz_view (Scenario.get 100) Scenario.configured).1
       = Render "quiz.html"
           (QuizContext form questions
              (QuizSettings.num_questions quiz_settings) quiz_settings)).
Proof.
  apply (accepted_settings_are_served
           (Scenario.post Scenario.settings 0) (Scenario.get 100)
           Scenario.fresh Scenario.user).
  - vm_compute. reflexivity.
  - reflexivity.
  - discriminate.
Defined.

Lemma views_do_not_fail_witness :
  (views.quiz_view (Scenario.post Scenario.answers 500) Scenario.presented).1
  <> ServerError /\
  views_can_run Scenario.scored.
Proof.
  apply (views_do_not_fail views.quiz_view
           (Scenario.post Scenario.answers 500) Scenario.presented).
  - apply elem_of_cons; right. apply elem_of_cons; by left.
  - split.
    + intros i row H.
      change (UserScore.rows (World.userscores Scenario.presented))
        with (∅ : gmap Z UserScore.t) in H.
      by rewrite lookup_empty in H.
    + intros quiz_settings H.
      change (Session.quiz_settings (World.session Scenario.presented))
        with (Some (QuizSettings.mk 3 "ALL" false)) in H.
      injection H as <-. simpl. lia.
Defined.

Lemma activation_undoes_deactivation_witness :
  World.questions
    (admin.activate_questions [3; 2]
       (admin.deactivate_questions [3; 2] Scenario.fresh))
  = World.questions Scenario.fresh.
Proof.
  apply (activation_undoes_deactivation [3; 2] Scenario.fresh).
  intros q Hq _.
  change (World.questions Scenario.fresh)
    with [Scenario.q1; Scenario.q2; Scenario.q3] in Hq.
  apply elem_of_cons in Hq as [->|Hq]; [done|].
  apply elem_of_cons in Hq as [->|Hq]; [done|].
  apply list_elem_of_singleton in Hq as ->. done.
Defined.

Lemma history_totals_are_consistent_witness :
  exists context,
    history.user_history_view reverse head (fun _ => None)
      (Scenario.get 600) Scenario.recorded = Some context /\
    0 <= HistoryContext.total_correct_answers context
      <= HistoryContext.total_questions_answered context /\
    0 <= HistoryContext.total_attempts context
      <= HistoryContext.total_questions_answered context /\
    Forall (fun row => UserScore.user row = Scenario.user)
           (HistoryContext.user_scores context) /\
    (HistoryContext.total_attempts context = 0 ->
     HistoryContext.user_scores context = [] /\
     HistoryContext.best_score context = None /\
     HistoryContext.average_score context = 0%float /\
     HistoryContext.overall_accuracy context = 0%float).
Proof.
  apply (history_totals_are_consistent reverse head (fun _ => None)
           (fun l => reverse_Permutation l)
           (Scenario.get 600) Scenario.recorded Scenario.user).
  - intros i row H.
    change (UserScore.rows (World.userscores Scenario.recorded))
      with (<[1 := Scenario.record]> (∅ : gmap Z UserScore.t)) in H.
    apply lookup_insert_Some in H as [[_ <-]|[_ H]];
      [|by rewrite lookup_empty in H].
    vm_compute. repeat split; discriminate.
  - reflexivity.
Defined.

Lemma results_page_grade_agrees_with_passing_witness :
  exists record detailed_results percentage grade passed,
    (views.quiz_results_view (Scenario.get 600) Scenario.scored).1
    = Render "results.html"
        (ResultsContext record detailed_results percentage grade passed) /\
    (passed = true <-> grade <> "F").
Proof.
  assert (exists record detailed_results percentage grade passed,
             (views.quiz_results_view (Scenario.get 600) Scenario.scored).1
             = Render "results.html"
                 (ResultsContext record detailed_results percentage grade passed))
    as (record & detailed_results & percentage & grade & passed & Hshown)
    by (vm_compute; by eexists _, _, _, _, _).
  exists record, detailed_results, percentage, grade, passed.
  split; [exact Hshown|].
  exact (proj1 (proj2 (results_page_grade_agrees_with_passing
                         (Scenario.get 600) Scenario.scored "results.html"
                         record detailed_results percentage grade passed
                         Hshown))).
Defined.

(** The home page of the user after the first attempt. *)
Lemma home_page_agrees_with_the_other_pages_witness :
  HomeContext.total_questions
    (home.get_context_data reverse head (fun _ => None)
       (Scenario.get 600) Scenario.recorded)
  = 3.
Proof.
  exact (proj1 (home_page_agrees_with_the_other_pages reverse head
                  (fun _ => None) (fun l => reverse_Permutation l)
                  (Scenario.get 600) Scenario.recorded)).
Defined.

(** The order is random and all three questions are answered. *)
Lemma complete_submission_is_scored_in_any_order_witness :
  exists row,
    (views.quiz_view
       (Request.mk "POST" (list_to_map Scenario.answers)
                   (Some Scenario.user) (Scenario.clock_from 500) [1; 1; 0]%nat)
       Scenario.configured_random).1
    = Redirect "quiz_results" /\
    UserScore.rows
      (World.userscores
         (views.quiz_view
            (Request.mk "POST" (list_to_map Scenario.answers)
               (Some Scenario.user) (Scenario.clock_from 500) [1; 1; 0]%nat)
            Scenario.configured_random).2)
      !! UserScore.next_id (World.userscores Scenario.configured_random)
    = Some row /\
    UserScore.score row
    = Z.of_nat
        (length
           (filter (fun q => (list_to_map Scenario.answers
                                : gmap string string)
                               !! QuizForm.field_name q
                             = Some (QuizQuestion.correct_answer q))
                   [Scenario.q1; Scenario.q2; Scenario.q3])) /\
    UserScore.total_questions row = 3 /\
    UserScore.quiz_questions row
    = map views.question_data [Scenario.q2; Scenario.q3; Scenario.q1].
Proof.
  apply (complete_submission_is_scored_in_any_order
           (Request.mk "POST" (list_to_map Scenario.answers)
              (Some Scenario.user) (Scenario.clock_from 500) [1; 1; 0]%nat)
           Scenario.configured_random Scenario.user
           [Scenario.q1; Scenario.q2; Scenario.q3]
           [Scenario.q2; Scenario.q3; Scenario.q1]).
  - reflexivity.
  - reflexivity.
  - vm_compute. reflexivity.
  - symmetry.
    apply (Permutation_cons_append [Scenario.q2; Scenario.q3] Scenario.q1).
  - discriminate.
  - vm_compute. repeat constructor; compute_done.
  - intros q Hq.
    apply elem_of_cons in Hq as [->|Hq]; [exists "A"; split; [done|compute_done]|].
    apply elem_of_cons in Hq as [->|Hq]; [exists "B"; split; [done|compute_done]|].
    apply list_elem_of_singleton in Hq as ->.
    exists "A"; split; [done|compute_done].
Defined.

(** Sixty accented letters are 120 bytes and 60 characters: no cut. *)
Lemma question_preview_is_bounded_witness :
  admin.question_preview Scenario.accented
  = QuizQuestion.question_text Scenario.accented.
Proof.
  refine (proj1 (question_preview_is_bounded Scenario.accented
                   (replicate 60 233) _) _).
  - reflexivity.
  - vm_compute. lia.
Defined.

(** Seven questions are asked for with blanks around the numeral, and
    twenty are active: accepted. *)
Lemma settings_form_accepts_exactly_witness :
  QuizSettingsForm.is_valid
    (QuizSettingsForm.full_clean
       (list_to_map [("num_questions", " 7 "); ("difficulty", "EASY")])
       (Scenario.many 20)) = true.
Proof.
  refine (proj2 (proj1
    (settings_form_accepts_exactly
       (list_to_map [("num_questions", " 7 "); ("difficulty", "EASY")])
       (Scenario.many 20) _)) _).
  - intros text H. vm_compute in H. injection H as <-. cbn. lia.
  - exists 7, "EASY". split; [reflexivity|]. split; [lia|].
    split; [vm_compute; discriminate|]. split; [reflexivity|compute_done].
Defined.

End Witnesses.

(** * Where the specification and the code part ways *)

Section Divergences.

(** The text of a question is corrected by an administrator after the quiz
    page was loaded and before the answers are submitted: the stored
    snapshot has the corrected text, not the presented one. *)
Lemma snapshot_is_read_at_scoring :
  ~ snapshot_is_of_presentation Scenario.configured (Scenario.get 100)
      (Scenario.post Scenario.answers 500)
      (QuizQuestionAdmin.change_question
         (Scenario.question 3 "Which planet is the most massive?" "A")).
Proof.
  intros H. specialize (H 1). cbv zeta in H.
  match type of H with
  | forall record, _ -> ?rows !! 1 = _ -> _ =>
      destruct (rows !! 1) as [record|] eqn:Hrow;
        [|by vm_compute in Hrow]
  end.
  specialize (H record eq_refl eq_refl).
  apply (f_equal (map QuestionData.question)) in H.
  vm_compute in Hrow. injection Hrow as <-.
  vm_compute in H. discriminate H.
Qed.

(** Two answers out of three are right: the results page says passed. *)
Lemma two_of_three_is_passed :
  ~ shown_as_failed
      (views.quiz_results_view (Scenario.get 600)
         (views.quiz_view (Scenario.post Scenario.answers 500)
                          Scenario.presented).2).1.
Proof.
  intros (record & detailed_results & H & _).
  apply (f_equal Scenario.shown_passed) in H.
  vm_compute in H. discriminate H.
Qed.

(** The quiz page is loaded at time 100 and again at time 250: the same
    three questions, and the start time is now 250. *)
Lemma reload_restarts_the_clock :
  ~ start_time_is_kept Scenario.configured (Scenario.get 100) (Scenario.get 250).
Proof.
  intros H. specialize (H eq_refl). vm_compute in H. discriminate H.
Qed.

(** 60 questions are asked for and 55 are active: the only error is the
    upper bound of the field, and 55 is not in it. *)
Lemma bound_error_does_not_name_available :
  ~ refusal_names_available
      (World.mk (Scenario.many 55) (UserScore.mk_table ∅ 1) Session.empty [])
      (Scenario.post [("num_questions", "60"); ("difficulty", "ALL")] 0).
Proof.
  intros H. destruct (H eq_refl) as (name & messages & message & Hin & Hm & Hc).
  vm_compute in Hin.
  apply list_elem_of_singleton in Hin. injection Hin as -> ->.
  apply list_elem_of_singleton in Hm. subst message.
  vm_compute in Hc. discriminate Hc.
Qed.

(** The last of the three presented questions is deactivated before the
    answers arrive, and the answers lack it: the submission selects the
    other two, finds their tags, and is stored as 2 of 2. *)
Lemma deactivated_question_is_not_required :
  ~ unanswered_presented_question_is_rejected Scenario.configured
      (Scenario.get 100) (Scenario.post Scenario.incomplete 500)
      (QuizQuestionAdmin.deactivate_questions [1]).
Proof.
  intros H. specialize (H Scenario.q3). cbv zeta in H.
  assert (World.userscores
            (views.quiz_view (Scenario.post Scenario.incomplete 500)
               (QuizQuestionAdmin.deactivate_questions [1]
                  (views.quiz_view (Scenario.get 100) Scenario.configured).2)).2
          = World.userscores
              (QuizQuestionAdmin.deactivate_questions [1]
                 (views.quiz_view (Scenario.get 100) Scenario.configured).2))
    as Hsame.
  { apply H; [|reflexivity].
    apply elem_of_cons; right. apply elem_of_cons; right.
    apply elem_of_cons; by left. }
  apply (f_equal UserScore.next_id) in Hsame.
  vm_compute in Hsame. discriminate Hsame.
Qed.

(** Every question was deactivated and the session has no settings: the
    user is sent to the setup page. *)
Lemma no_active_question_returns_to_setup :
  ~ defaults_present_a_quiz
      (QuizQuestionAdmin.deactivate_questions [3; 2; 1] Scenario.fresh)
      (Scenario.get 100).
Proof.
  intros H. destruct (H eq_refl (ex_intro _ _ eq_refl)) as [_ Hsetup].
  by apply Hsetup.
Qed.

(** The answers are submitted without the quiz page having been loaded:
    the session holds no start time, and the elapsed time is the one tick
    between the two readings of the clock. *)
Lemma elapsed_time_without_start :
  ~ null_without_start Scenario.configured (Scenario.post Scenario.answers 500).
Proof.
  intros H. specialize (H 1). cbv zeta in H.
  match type of H with
  | forall record, _ -> ?rows !! 1 = _ -> _ =>
      destruct (rows !! 1) as [record|] eqn:Hrow;
        [|by vm_compute in Hrow]
  end.
  specialize (H record eq_refl eq_refl).
  vm_compute in Hrow. injection Hrow as <-.
  destruct H as [_ H]. specialize (H eq_refl). discriminate H.
Qed.

End Divergences.
